(** * Verification of [ui/sd_internal/runtime.py]

    A shallow embedding of the render-thread runtime of the Stable
    Diffusion UI server: the device manager, the model cache, the filter
    loaders, the generation pipeline and the image codec helpers.

    Conventions.
    - Python [str] is [string]; [bytes] is [list byte]; Python [int] is [Z];
      Python [float] is an IEEE-754 binary64 number, a [spec_float] with
      precision 53 and maximal exponent 1024.
    - A Python exception is a value of type [exn]; a computation that may
      raise returns a [result].
    - [thread_data] is a record; code that mutates it threads it through
      the monad [M], together with what the generator has yielded.
    - The neural networks, the samplers, PIL, torch and the file system are
      capabilities of the environment: they are the fields of the classes
      [Filesystem], [Cuda], [PIL] and [Networks].

    Part I holds the embedding, Part II the lemmas and theorems. *)

From Stdlib Require Import ZArith List String Ascii Bool Lia Zbitwise.
From Stdlib Require Import Strings.Byte.
From Stdlib Require Import Floats.SpecFloat.
From stdpp Require Import base option gmap strings pretty.

Import ListNotations.
Local Open Scope Z_scope.
Declare Scope M_scope.
Delimit Scope M_scope with M.

(** * Part I: the embedding *)

(** ** Python exceptions and results *)

Inductive exn_class :=
| FileNotFoundError | ValueError | AssertionError | TypeError
| AttributeError | KeyError | NameError | EnvironmentError
| IndexError | RuntimeError | OverflowError | ZeroDivisionError
| BinasciiError | UnidentifiedImageError | UserInitiatedStop
| PlainException.

(** [str(e)] is the message carried by the exception. *)
Record exn := Exn { exn_cls : exn_class; exn_str : string }.

Inductive result (A : Type) :=
| Ok (a : A)
| Raise (e : exn).
Arguments Ok {A} a.
Arguments Raise {A} e.

Definition rbind {A B} (r : result A) (k : A -> result B) : result B :=
  match r with
  | Ok a => k a
  | Raise e => Raise e
  end.

Notation "'do' x <- r ; k" := (rbind r (fun x => k))
  (at level 10, x name, r at level 100, k at level 200).

Definition is_ok {A} (r : result A) : bool :=
  match r with Ok _ => true | Raise _ => false end.

(** ** Strings *)

Module Str.

(** [s[n:]] *)
Fixpoint drop (n : nat) (s : string) : string :=
  match n, s with
  | O, _ => s
  | S _, EmptyString => EmptyString
  | S n', String _ s' => drop n' s'
  end.

(** [s[:n]] *)
Fixpoint take (n : nat) (s : string) : string :=
  match n, s with
  | O, _ => EmptyString
  | S _, EmptyString => EmptyString
  | S n', String c s' => String c (take n' s')
  end.

(** [s.startswith(p)] *)
Fixpoint startswith (p s : string) : bool :=
  match p, s with
  | EmptyString, _ => true
  | String _ _, EmptyString => false
  | String a p', String b s' => Ascii.eqb a b && startswith p' s'
  end.

Definition lower_char (c : ascii) : ascii :=
  let n := N_of_ascii c in
  if ((65 <=? n) && (n <=? 90))%N then ascii_of_N (n + 32) else c.

(** [s.lower()], on ASCII text *)
Fixpoint lower (s : string) : string :=
  match s with
  | EmptyString => EmptyString
  | String c s' => String (lower_char c) (lower s')
  end.

(** [needle in s] *)
Fixpoint contains (needle s : string) : bool :=
  startswith needle s ||
  match s with
  | EmptyString => false
  | String _ s' => contains needle s'
  end.

(** [bool(s)]: a string is true when it is not empty. *)
Definition truthy (s : string) : bool :=
  match s with EmptyString => false | String _ _ => true end.

(** [bool(s)] for a value that is [None] or a string. *)
Definition opt_truthy (s : option string) : bool :=
  match s with None => false | Some s => truthy s end.

Definition is_digit (c : ascii) : bool :=
  let n := N_of_ascii c in ((48 <=? n) && (n <=? 57))%N.

Fixpoint digits_value (s : string) (acc : Z) : option Z :=
  match s with
  | EmptyString => Some acc
  | String c s' =>
      if is_digit c
      then digits_value s' (10 * acc + (Z.of_N (N_of_ascii c) - 48))
      else None
  end.

(** [int(s)] for a plain decimal literal with an optional sign. *)
Definition to_int (s : string) : result Z :=
  let bad := Raise (Exn ValueError ("invalid literal for int() with base 10: " +:+ s)) in
  match s with
  | EmptyString => bad
  | String c s' =>
      if Ascii.eqb c "-"%char then
        match s', digits_value s' 0 with
        | String _ _, Some v => Ok (- v)
        | _, _ => bad
        end
      else
        match digits_value s 0 with
        | Some v => Ok v
        | None => bad
        end
  end.

End Str.

(** ** Base64, as [base64.b64encode] and [base64.b64decode] do it *)

Module Base64.

Definition byte_to_Z (b : byte) : Z := Z.of_N (Byte.to_N b).

Definition byte_of_Z (z : Z) : byte :=
  match Byte.of_N (Z.to_N (Z.land z 255)) with
  | Some b => b
  | None => x00
  end.

Definition table_b2a_base64 : string :=
  "ABCDEFGHIJKLMNOPQRSTUVWXYZabcdefghijklmnopqrstuvwxyz0123456789+/".

Definition BASE64_PAD : ascii := "="%char.

Definition b2a (v : Z) : ascii :=
  match String.get (Z.to_nat v) table_b2a_base64 with
  | Some c => c
  | None => BASE64_PAD
  end.

(** The inverse table: [None] for a character outside the alphabet. *)
Definition a2b (c : ascii) : option Z :=
  let n := Z.of_N (N_of_ascii c) in
  if (65 <=? n) && (n <=? 90) then Some (n - 65)
  else if (97 <=? n) && (n <=? 122) then Some (n - 71)
  else if (48 <=? n) && (n <=? 57) then Some (n + 4)
  else if n =? 43 then Some 62
  else if n =? 47 then Some 63
  else None.

(** [b64encode]: three bytes give four characters; the tail is padded. *)
Fixpoint b64encode (bs : list byte) : string :=
  match bs with
  | [] => EmptyString
  | [a] =>
      let a := byte_to_Z a in
      String (b2a (Z.shiftr a 2))
        (String (b2a (Z.shiftl (Z.land a 3) 4))
           (String BASE64_PAD (String BASE64_PAD EmptyString)))
  | [a; b] =>
      let a := byte_to_Z a in
      let b := byte_to_Z b in
      String (b2a (Z.shiftr a 2))
        (String (b2a (Z.lor (Z.shiftl (Z.land a 3) 4) (Z.shiftr b 4)))
           (String (b2a (Z.shiftl (Z.land b 15) 2))
              (String BASE64_PAD EmptyString)))
  | a :: b :: c :: rest =>
      let a := byte_to_Z a in
      let b := byte_to_Z b in
      let c := byte_to_Z c in
      String (b2a (Z.shiftr a 2))
        (String (b2a (Z.lor (Z.shiftl (Z.land a 3) 4) (Z.shiftr b 4)))
           (String (b2a (Z.lor (Z.shiftl (Z.land b 15) 2) (Z.shiftr c 6)))
              (String (b2a (Z.land c 63)) (b64encode rest))))
  end.

Definition incorrect_padding : exn :=
  Exn BinasciiError "Incorrect padding".

(** [b64decode] in its default mode, where characters outside the
    alphabet are skipped: the loop of [binascii.a2b_base64].  The state
    is the position in the current quad, the bits left over from the
    previous character and the count of padding characters seen. *)
Fixpoint a2b_loop (s : string) (quad_pos leftchar pads : Z)
         (out : list byte) : result (list byte) :=
  match s with
  | EmptyString =>
      if quad_pos =? 0 then Ok out else Raise incorrect_padding
  | String ch rest =>
      if Ascii.eqb ch BASE64_PAD then
        if 2 <=? quad_pos then
          if 4 <=? quad_pos + (pads + 1) then Ok out
          else a2b_loop rest quad_pos leftchar (pads + 1) out
        else a2b_loop rest quad_pos leftchar pads out
      else
        match a2b ch with
        | None => a2b_loop rest quad_pos leftchar pads out
        | Some d =>
            if quad_pos =? 0 then a2b_loop rest 1 d 0 out
            else if quad_pos =? 1 then
              a2b_loop rest 2 (Z.land d 15) 0
                (out ++ [byte_of_Z (Z.lor (Z.shiftl leftchar 2) (Z.shiftr d 4))])
            else if quad_pos =? 2 then
              a2b_loop rest 3 (Z.land d 3) 0
                (out ++ [byte_of_Z (Z.lor (Z.shiftl leftchar 4) (Z.shiftr d 2))])
            else
              a2b_loop rest 0 0 0
                (out ++ [byte_of_Z (Z.lor (Z.shiftl leftchar 6) d)])
        end
  end.

Definition b64decode (s : string) : result (list byte) :=
  a2b_loop s 0 0 0 [].

(** The check that the two tables agree on one sextet. *)
Definition sextet_ok (n : nat) : bool :=
  let v := Z.of_nat n in
  match a2b (b2a v) with
  | Some d => (d =? v) && negb (Ascii.eqb (b2a v) BASE64_PAD)
  | None => false
  end.

End Base64.

(** ** Python floats: IEEE-754 binary64 *)

Module Float.

Definition prec : Z := 53.
Definition emax : Z := 1024.

(** The float nearest to [m * 2^e], ties to even. *)
Definition make (m e : Z) : spec_float := binary_normalize prec emax m e false.

Definition zero : spec_float := S754_zero false.
Definition one : spec_float := make 1 0.
Definition two : spec_float := make 2 0.
Definition three : spec_float := make 3 0.
Definition half : spec_float := make 1 (-1).

(** [float(n)] for a Python int: rounds to nearest, ties to even. *)
Definition of_int (n : Z) : result spec_float :=
  match make n 0 with
  | S754_infinity _ =>
      Raise (Exn OverflowError "int too large to convert to float")
  | f => Ok f
  end.

Definition mul (x y : spec_float) : spec_float := SFmul prec emax x y.
Definition add (x y : spec_float) : spec_float := SFadd prec emax x y.
Definition ltb (x y : spec_float) : bool := SFltb x y.
Definition leb (x y : spec_float) : bool := SFleb x y.
Definition eqb (x y : spec_float) : bool := SFeqb x y.

Definition is_zero (x : spec_float) : bool :=
  match x with S754_zero _ => true | _ => false end.

(** [x / y]: Python raises on a zero divisor. *)
Definition truediv (x y : spec_float) : result spec_float :=
  if is_zero y then Raise (Exn ZeroDivisionError "float division by zero")
  else Ok (SFdiv prec emax x y).

(** [x * n] and [n / x] with a Python int [n]: the int is converted first. *)
Definition mul_int (x : spec_float) (n : Z) : result spec_float :=
  do fn <- of_int n; Ok (mul x fn).

Definition int_truediv (n : Z) (y : spec_float) : result spec_float :=
  do fn <- of_int n; truediv fn y.

(** The integer part of [m * 2^e] for a positive mantissa. *)
Definition int_part (m : positive) (e : Z) : Z :=
  if 0 <=? e then Zpos m * 2 ^ e else Zpos m / 2 ^ (- e).

(** [int(x)]: truncation towards zero. *)
Definition to_int (x : spec_float) : result Z :=
  match x with
  | S754_zero _ => Ok 0
  | S754_finite s m e => Ok (if s then - int_part m e else int_part m e)
  | S754_infinity _ =>
      Raise (Exn OverflowError "cannot convert float infinity to integer")
  | S754_nan => Raise (Exn ValueError "cannot convert float NaN to integer")
  end.

(** [math.floor(x)]: the largest integer not above the exact value of [x]. *)
Definition floor (x : spec_float) : result Z :=
  match x with
  | S754_zero _ => Ok 0
  | S754_finite s m e =>
      Ok (if 0 <=? e then (if s then Zneg m else Zpos m) * 2 ^ e
          else (if s then Zneg m else Zpos m) / 2 ^ (- e))
  | S754_infinity _ =>
      Raise (Exn OverflowError "cannot convert float infinity to integer")
  | S754_nan => Raise (Exn ValueError "cannot convert float NaN to integer")
  end.

(** A finite float with its sign bit set is negative; anything else is
    not. *)
Definition not_negative (x : spec_float) : Prop :=
  match x with
  | S754_finite true _ _ => False
  | _ => True
  end.

(** [sum(ws)]: the running sum starts from the int 0; floats are added
    from left to right. *)
Definition sum (ws : list spec_float) : spec_float :=
  fold_left add ws zero.

End Float.

(** ** The environment *)

(** A compute device as Python holds it: [None], an accelerator index, or
    a string such as ['cpu'] or ['cuda:1']. *)
Inductive device :=
| DNone
| DInt (n : Z)
| DStr (s : string).

Definition device_eqb (a b : device) : bool :=
  match a, b with
  | DNone, DNone => true
  | DInt n, DInt m => n =? m
  | DStr s, DStr t => String.eqb s t
  | _, _ => false
  end.

Definition cpu : device := DStr "cpu".

(** The data the networks and PIL work on.  [latent] is one sample of a
    latent batch, [array] a numpy [uint8] image array, [tensor] a
    conditioning tensor and [img_tensor] a preprocessed source image or
    mask. *)
Class Types := {
  image : Type;
  array : Type;
  tensor : Type;
  latent : Type;
  img_tensor : Type;
}.

(** [os.path.exists] and [os.path.join] *)
Class Filesystem := {
  path_exists : string -> bool;
  path_join : string -> string -> string;
}.

(** [torch.cuda]; sizes are in bytes. *)
Class Cuda := {
  cuda_is_available : bool;
  cuda_device_count : Z;
  cuda_mem_get_info : device -> result (Z * Z);
  cuda_get_device_name : device -> string;
  cuda_current_device : Z;
  cuda_memory_allocated : device -> Z;
}.

(** The processor name [get_processor_name] reads from the platform,
    [None] when the platform does not tell, and the identifier
    [do_mk_img] derives from the clock for the [i]-th picture of a batch. *)
Class Platform := {
  processor_name : option string;
  img_id : Z -> string;
}.

(** PIL: [img.save(buffer, format=f)], [Image.open(buffer)],
    [Image.fromarray] and the resizing and scaling [load_img] and
    [load_mask] do on a decoded picture. *)
Class PIL `{Types} := {
  Image_save : image -> string -> result (list byte);
  Image_open : list byte -> result image;
  Image_fromarray : array -> image;
  img_to_tensor : image -> Z -> Z -> img_tensor;
  mask_to_tensor : image -> Z -> Z -> list latent -> img_tensor;
}.

(** ** Image codec helpers *)

Section ImageCodec.
Context `{PIL}.

Definition img_to_base64_str (img : image) (output_format : string)
  : result string :=
  do img_byte <- Image_save img output_format;
  let mime_type :=
    if String.eqb (Str.lower output_format) "png"
    then "image/png" else "image/jpeg" in
  Ok ("data:" +:+ mime_type +:+ ";base64," +:+ Base64.b64encode img_byte).

Definition base64_str_to_img (img_str : string) : result image :=
  let mime_type :=
    if Str.startswith "data:image/png;" img_str
    then "image/png" else "image/jpeg" in
  let img_str :=
    Str.drop (String.length ("data:" +:+ mime_type +:+ ";base64,")) img_str in
  do data <- Base64.b64decode img_str;
  Image_open data.

(** [load_img]: decode, convert to RGB, resize to a multiple of 64 and
    scale to [-1, 1]; all but the decoding is PIL's and numpy's work. *)
Definition load_img (img_str : string) (w0 h0 : Z) : result img_tensor :=
  do image <- base64_str_to_img img_str;
  Ok (img_to_tensor image w0 h0).

(** [load_mask]: decode, invert and resize to the spatial size of the
    encoded source picture. *)
Definition load_mask (mask_str : string) (h0 w0 : Z)
           (init_latent : list latent) : result img_tensor :=
  do image <- base64_str_to_img mask_str;
  Ok (mask_to_tensor image h0 w0 init_latent).

End ImageCodec.

(** A codec that stores the picture as it is, to run the helpers on. *)
Definition raw_types : Types :=
  {| image := list byte; array := list byte; tensor := Z;
     latent := list byte; img_tensor := list byte |}.

Definition raw_pil : @PIL raw_types :=
  {| Image_save := fun (img : @image raw_types) _ => Ok img;
     Image_open := fun data => Ok (data : @image raw_types);
     Image_fromarray := fun (a : @array raw_types) => (a : @image raw_types);
     img_to_tensor := fun (img : @image raw_types) _ _ => (img : @img_tensor raw_types);
     mask_to_tensor := fun (img : @image raw_types) _ _ _ => (img : @img_tensor raw_types) |}.

(** ** The worker context *)

Section Runtime.
Context `{Ty : Types}.

(** The loaded networks.  A handle records the checkpoint it was loaded
    from, where its weights reside and whether they are in half precision.
    The denoiser has two halves, [model1] and [model2], that can be placed
    one by one. *)
Record unet := {
  unet_ckpt : string;
  unet_turbo : bool;
  unet_unet_bs : Z;
  unet_cdevice : device;
  model1_dev : device;
  model2_dev : device;
  unet_half : bool;
}.

Record stage := {
  stage_ckpt : string;
  stage_vae : option string;
  stage_dev : device;
  stage_half : bool;
}.

Record gfpganer := {
  gfp_model_path : string;
  gfp_device : device;
}.

Record rrdbnet := {
  num_block : Z;
  net_scale : Z;
}.

Record real_esrganer := {
  esr_model_path : string;
  esr_model : rrdbnet;
  esr_model_name : string;
  esr_device : device;
  esr_half : bool;
}.

(** [thread_data]: the attributes [device_init] creates, and
    [partial_x_samples], which exists only while a streamed sampling run
    is under way: [None] when the attribute is absent, [Some None] when it
    holds [None].  The two sampler slots, which are never assigned, are
    left out. *)
Record thread_data := {
  stop_processing : bool;
  temp_images : gmap string (list byte);
  ckpt_file : option string;
  vae_file : option string;
  gfpgan_file : option string;
  real_esrgan_file : option string;
  model : option unet;
  modelCS : option stage;
  modelFS : option stage;
  model_gfpgan : option gfpganer;
  model_real_esrgan : option real_esrganer;
  model_is_half : bool;
  model_fs_is_half : bool;
  td_device : device;
  device_name : option string;
  unet_bs : Z;
  precision : string;
  turbo : bool;
  force_full_precision : bool;
  reduced_memory : bool;
  partial_x_samples : option (option (list latent));
}.

Definition set_stop_processing (v : bool) (td : thread_data)
  : thread_data :=
  {| stop_processing := v; temp_images := temp_images td; ckpt_file :=
     ckpt_file td; vae_file := vae_file td; gfpgan_file := gfpgan_file td;
     real_esrgan_file := real_esrgan_file td; model := model td; modelCS :=
     modelCS td; modelFS := modelFS td; model_gfpgan := model_gfpgan td;
     model_real_esrgan := model_real_esrgan td; model_is_half :=
     model_is_half td; model_fs_is_half := model_fs_is_half td; td_device :=
     td_device td; device_name := device_name td; unet_bs := unet_bs td;
     precision := precision td; turbo := turbo td; force_full_precision :=
     force_full_precision td; reduced_memory := reduced_memory td;
     partial_x_samples := partial_x_samples td |}.

Definition set_temp_images (v : gmap string (list byte)) (td : thread_data)
  : thread_data :=
  {| stop_processing := stop_processing td; temp_images := v; ckpt_file :=
     ckpt_file td; vae_file := vae_file td; gfpgan_file := gfpgan_file td;
     real_esrgan_file := real_esrgan_file td; model := model td; modelCS :=
     modelCS td; modelFS := modelFS td; model_gfpgan := model_gfpgan td;
     model_real_esrgan := model_real_esrgan td; model_is_half :=
     model_is_half td; model_fs_is_half := model_fs_is_half td; td_device :=
     td_device td; device_name := device_name td; unet_bs := unet_bs td;
     precision := precision td; turbo := turbo td; force_full_precision :=
     force_full_precision td; reduced_memory := reduced_memory td;
     partial_x_samples := partial_x_samples td |}.

Definition set_ckpt_file (v : option string) (td : thread_data)
  : thread_data :=
  {| stop_processing := stop_processing td; temp_images := temp_images td;
     ckpt_file := v; vae_file := vae_file td; gfpgan_file := gfpgan_file td;
     real_esrgan_file := real_esrgan_file td; model := model td; modelCS :=
     modelCS td; modelFS := modelFS td; model_gfpgan := model_gfpgan td;
     model_real_esrgan := model_real_esrgan td; model_is_half :=
     model_is_half td; model_fs_is_half := model_fs_is_half td; td_device :=
     td_device td; device_name := device_name td; unet_bs := unet_bs td;
     precision := precision td; turbo := turbo td; force_full_precision :=
     force_full_precision td; reduced_memory := reduced_memory td;
     partial_x_samples := partial_x_samples td |}.

Definition set_vae_file (v : option string) (td : thread_data)
  : thread_data :=
  {| stop_processing := stop_processing td; temp_images := temp_images td;
     ckpt_file := ckpt_file td; vae_file := v; gfpgan_file := gfpgan_file
     td; real_esrgan_file := real_esrgan_file td; model := model td; modelCS
     := modelCS td; modelFS := modelFS td; model_gfpgan := model_gfpgan td;
     model_real_esrgan := model_real_esrgan td; model_is_half :=
     model_is_half td; model_fs_is_half := model_fs_is_half td; td_device :=
     td_device td; device_name := device_name td; unet_bs := unet_bs td;
     precision := precision td; turbo := turbo td; force_full_precision :=
     force_full_precision td; reduced_memory := reduced_memory td;
     partial_x_samples := partial_x_samples td |}.

Definition set_gfpgan_file (v : option string) (td : thread_data)
  : thread_data :=
  {| stop_processing := stop_processing td; temp_images := temp_images td;
     ckpt_file := ckpt_file td; vae_file := vae_file td; gfpgan_file := v;
     real_esrgan_file := real_esrgan_file td; model := model td; modelCS :=
     modelCS td; modelFS := modelFS td; model_gfpgan := model_gfpgan td;
     model_real_esrgan := model_real_esrgan td; model_is_half :=
     model_is_half td; model_fs_is_half := model_fs_is_half td; td_device :=
     td_device td; device_name := device_name td; unet_bs := unet_bs td;
     precision := precision td; turbo := turbo td; force_full_precision :=
     force_full_precision td; reduced_memory := reduced_memory td;
     partial_x_samples := partial_x_samples td |}.

Definition set_real_esrgan_file (v : option string) (td : thread_data)
  : thread_data :=
  {| stop_processing := stop_processing td; temp_images := temp_images td;
     ckpt_file := ckpt_file td; vae_file := vae_file td; gfpgan_file :=
     gfpgan_file td; real_esrgan_file := v; model := model td; modelCS :=
     modelCS td; modelFS := modelFS td; model_gfpgan := model_gfpgan td;
     model_real_esrgan := model_real_esrgan td; model_is_half :=
     model_is_half td; model_fs_is_half := model_fs_is_half td; td_device :=
     td_device td; device_name := device_name td; unet_bs := unet_bs td;
     precision := precision td; turbo := turbo td; force_full_precision :=
     force_full_precision td; reduced_memory := reduced_memory td;
     partial_x_samples := partial_x_samples td |}.

Definition set_model (v : option unet) (td : thread_data)
  : thread_data :=
  {| stop_processing := stop_processing td; temp_images := temp_images td;
     ckpt_file := ckpt_file td; vae_file := vae_file td; gfpgan_file :=
     gfpgan_file td; real_esrgan_file := real_esrgan_file td; model := v;
     modelCS := modelCS td; modelFS := modelFS td; model_gfpgan :=
     model_gfpgan td; model_real_esrgan := model_real_esrgan td;
     model_is_half := model_is_half td; model_fs_is_half := model_fs_is_half
     td; td_device := td_device td; device_name := device_name td; unet_bs
     := unet_bs td; precision := precision td; turbo := turbo td;
     force_full_precision := force_full_precision td; reduced_memory :=
     reduced_memory td; partial_x_samples := partial_x_samples td |}.

Definition set_modelCS (v : option stage) (td : thread_data)
  : thread_data :=
  {| stop_processing := stop_processing td; temp_images := temp_images td;
     ckpt_file := ckpt_file td; vae_file := vae_file td; gfpgan_file :=
     gfpgan_file td; real_esrgan_file := real_esrgan_file td; model := model
     td; modelCS := v; modelFS := modelFS td; model_gfpgan := model_gfpgan
     td; model_real_esrgan := model_real_esrgan td; model_is_half :=
     model_is_half td; model_fs_is_half := model_fs_is_half td; td_device :=
     td_device td; device_name := device_name td; unet_bs := unet_bs td;
     precision := precision td; turbo := turbo td; force_full_precision :=
     force_full_precision td; reduced_memory := reduced_memory td;
     partial_x_samples := partial_x_samples td |}.

Definition set_modelFS (v : option stage) (td : thread_data)
  : thread_data :=
  {| stop_processing := stop_processing td; temp_images := temp_images td;
     ckpt_file := ckpt_file td; vae_file := vae_file td; gfpgan_file :=
     gfpgan_file td; real_esrgan_file := real_esrgan_file td; model := model
     td; modelCS := modelCS td; modelFS := v; model_gfpgan := model_gfpgan
     td; model_real_esrgan := model_real_esrgan td; model_is_half :=
     model_is_half td; model_fs_is_half := model_fs_is_half td; td_device :=
     td_device td; device_name := device_name td; unet_bs := unet_bs td;
     precision := precision td; turbo := turbo td; force_full_precision :=
     force_full_precision td; reduced_memory := reduced_memory td;
     partial_x_samples := partial_x_samples td |}.

Definition set_model_gfpgan (v : option gfpganer) (td : thread_data)
  : thread_data :=
  {| stop_processing := stop_processing td; temp_images := temp_images td;
     ckpt_file := ckpt_file td; vae_file := vae_file td; gfpgan_file :=
     gfpgan_file td; real_esrgan_file := real_esrgan_file td; model := model
     td; modelCS := modelCS td; modelFS := modelFS td; model_gfpgan := v;
     model_real_esrgan := model_real_esrgan td; model_is_half :=
     model_is_half td; model_fs_is_half := model_fs_is_half td; td_device :=
     td_device td; device_name := device_name td; unet_bs := unet_bs td;
     precision := precision td; turbo := turbo td; force_full_precision :=
     force_full_precision td; reduced_memory := reduced_memory td;
     partial_x_samples := partial_x_samples td |}.

Definition set_model_real_esrgan (v : option real_esrganer) (td : thread_data)
  : thread_data :=
  {| stop_processing := stop_processing td; temp_images := temp_images td;
     ckpt_file := ckpt_file td; vae_file := vae_file td; gfpgan_file :=
     gfpgan_file td; real_esrgan_file := real_esrgan_file td; model := model
     td; modelCS := modelCS td; modelFS := modelFS td; model_gfpgan :=
     model_gfpgan td; model_real_esrgan := v; model_is_half := model_is_half
     td; model_fs_is_half := model_fs_is_half td; td_device := td_device td;
     device_name := device_name td; unet_bs := unet_bs td; precision :=
     precision td; turbo := turbo td; force_full_precision :=
     force_full_precision td; reduced_memory := reduced_memory td;
     partial_x_samples := partial_x_samples td |}.

Definition set_model_is_half (v : bool) (td : thread_data)
  : thread_data :=
  {| stop_processing := stop_processing td; temp_images := temp_images td;
     ckpt_file := ckpt_file td; vae_file := vae_file td; gfpgan_file :=
     gfpgan_file td; real_esrgan_file := real_esrgan_file td; model := model
     td; modelCS := modelCS td; modelFS := modelFS td; model_gfpgan :=
     model_gfpgan td; model_real_esrgan := model_real_esrgan td;
     model_is_half := v; model_fs_is_half := model_fs_is_half td; td_device
     := td_device td; device_name := device_name td; unet_bs := unet_bs td;
     precision := precision td; turbo := turbo td; force_full_precision :=
     force_full_precision td; reduced_memory := reduced_memory td;
     partial_x_samples := partial_x_samples td |}.

Definition set_model_fs_is_half (v : bool) (td : thread_data)
  : thread_data :=
  {| stop_processing := stop_processing td; temp_images := temp_images td;
     ckpt_file := ckpt_file td; vae_file := vae_file td; gfpgan_file :=
     gfpgan_file td; real_esrgan_file := real_esrgan_file td; model := model
     td; modelCS := modelCS td; modelFS := modelFS td; model_gfpgan :=
     model_gfpgan td; model_real_esrgan := model_real_esrgan td;
     model_is_half := model_is_half td; model_fs_is_half := v; td_device :=
     td_device td; device_name := device_name td; unet_bs := unet_bs td;
     precision := precision td; turbo := turbo td; force_full_precision :=
     force_full_precision td; reduced_memory := reduced_memory td;
     partial_x_samples := partial_x_samples td |}.

Definition set_td_device (v : device) (td : thread_data)
  : thread_data :=
  {| stop_processing := stop_processing td; temp_images := temp_images td;
     ckpt_file := ckpt_file td; vae_file := vae_file td; gfpgan_file :=
     gfpgan_file td; real_esrgan_file := real_esrgan_file td; model := model
     td; modelCS := modelCS td; modelFS := modelFS td; model_gfpgan :=
     model_gfpgan td; model_real_esrgan := model_real_esrgan td;
     model_is_half := model_is_half td; model_fs_is_half := model_fs_is_half
     td; td_device := v; device_name := device_name td; unet_bs := unet_bs
     td; precision := precision td; turbo := turbo td; force_full_precision
     := force_full_precision td; reduced_memory := reduced_memory td;
     partial_x_samples := partial_x_samples td |}.

Definition set_device_name (v : option string) (td : thread_data)
  : thread_data :=
  {| stop_processing := stop_processing td; temp_images := temp_images td;
     ckpt_file := ckpt_file td; vae_file := vae_file td; gfpgan_file :=
     gfpgan_file td; real_esrgan_file := real_esrgan_file td; model := model
     td; modelCS := modelCS td; modelFS := modelFS td; model_gfpgan :=
     model_gfpgan td; model_real_esrgan := model_real_esrgan td;
     model_is_half := model_is_half td; model_fs_is_half := model_fs_is_half
     td; td_device := td_device td; device_name := v; unet_bs := unet_bs td;
     precision := precision td; turbo := turbo td; force_full_precision :=
     force_full_precision td; reduced_memory := reduced_memory td;
     partial_x_samples := partial_x_samples td |}.

Definition set_unet_bs (v : Z) (td : thread_data)
  : thread_data :=
  {| stop_processing := stop_processing td; temp_images := temp_images td;
     ckpt_file := ckpt_file td; vae_file := vae_file td; gfpgan_file :=
     gfpgan_file td; real_esrgan_file := real_esrgan_file td; model := model
     td; modelCS := modelCS td; modelFS := modelFS td; model_gfpgan :=
     model_gfpgan td; model_real_esrgan := model_real_esrgan td;
     model_is_half := model_is_half td; model_fs_is_half := model_fs_is_half
     td; td_device := td_device td; device_name := device_name td; unet_bs
     := v; precision := precision td; turbo := turbo td;
     force_full_precision := force_full_precision td; reduced_memory :=
     reduced_memory td; partial_x_samples := partial_x_samples td |}.

Definition set_precision (v : string) (td : thread_data)
  : thread_data :=
  {| stop_processing := stop_processing td; temp_images := temp_images td;
     ckpt_file := ckpt_file td; vae_file := vae_file td; gfpgan_file :=
     gfpgan_file td; real_esrgan_file := real_esrgan_file td; model := model
     td; modelCS := modelCS td; modelFS := modelFS td; model_gfpgan :=
     model_gfpgan td; model_real_esrgan := model_real_esrgan td;
     model_is_half := model_is_half td; model_fs_is_half := model_fs_is_half
     td; td_device := td_device td; device_name := device_name td; unet_bs
     := unet_bs td; precision := v; turbo := turbo td; force_full_precision
     := force_full_precision td; reduced_memory := reduced_memory td;
     partial_x_samples := partial_x_samples td |}.

Definition set_turbo (v : bool) (td : thread_data)
  : thread_data :=
  {| stop_processing := stop_processing td; temp_images := temp_images td;
     ckpt_file := ckpt_file td; vae_file := vae_file td; gfpgan_file :=
     gfpgan_file td; real_esrgan_file := real_esrgan_file td; model := model
     td; modelCS := modelCS td; modelFS := modelFS td; model_gfpgan :=
     model_gfpgan td; model_real_esrgan := model_real_esrgan td;
     model_is_half := model_is_half td; model_fs_is_half := model_fs_is_half
     td; td_device := td_device td; device_name := device_name td; unet_bs
     := unet_bs td; precision := precision td; turbo := v;
     force_full_precision := force_full_precision td; reduced_memory :=
     reduced_memory td; partial_x_samples := partial_x_samples td |}.

Definition set_force_full_precision (v : bool) (td : thread_data)
  : thread_data :=
  {| stop_processing := stop_processing td; temp_images := temp_images td;
     ckpt_file := ckpt_file td; vae_file := vae_file td; gfpgan_file :=
     gfpgan_file td; real_esrgan_file := real_esrgan_file td; model := model
     td; modelCS := modelCS td; modelFS := modelFS td; model_gfpgan :=
     model_gfpgan td; model_real_esrgan := model_real_esrgan td;
     model_is_half := model_is_half td; model_fs_is_half := model_fs_is_half
     td; td_device := td_device td; device_name := device_name td; unet_bs
     := unet_bs td; precision := precision td; turbo := turbo td;
     force_full_precision := v; reduced_memory := reduced_memory td;
     partial_x_samples := partial_x_samples td |}.

Definition set_reduced_memory (v : bool) (td : thread_data)
  : thread_data :=
  {| stop_processing := stop_processing td; temp_images := temp_images td;
     ckpt_file := ckpt_file td; vae_file := vae_file td; gfpgan_file :=
     gfpgan_file td; real_esrgan_file := real_esrgan_file td; model := model
     td; modelCS := modelCS td; modelFS := modelFS td; model_gfpgan :=
     model_gfpgan td; model_real_esrgan := model_real_esrgan td;
     model_is_half := model_is_half td; model_fs_is_half := model_fs_is_half
     td; td_device := td_device td; device_name := device_name td; unet_bs
     := unet_bs td; precision := precision td; turbo := turbo td;
     force_full_precision := force_full_precision td; reduced_memory := v;
     partial_x_samples := partial_x_samples td |}.

Definition set_partial_x_samples (v : option (option (list latent))) (td : thread_data)
  : thread_data :=
  {| stop_processing := stop_processing td; temp_images := temp_images td;
     ckpt_file := ckpt_file td; vae_file := vae_file td; gfpgan_file :=
     gfpgan_file td; real_esrgan_file := real_esrgan_file td; model := model
     td; modelCS := modelCS td; modelFS := modelFS td; model_gfpgan :=
     model_gfpgan td; model_real_esrgan := model_real_esrgan td;
     model_is_half := model_is_half td; model_fs_is_half := model_fs_is_half
     td; td_device := td_device td; device_name := device_name td; unet_bs
     := unet_bs td; precision := precision td; turbo := turbo td;
     force_full_precision := force_full_precision td; reduced_memory :=
     reduced_memory td; partial_x_samples := v |}.

(** ** Requests, responses and what the generator yields *)

(** The fields of [Request] the runtime reads. *)
Record Request := {
  session_id : string;
  prompt : string;
  negative_prompt : string;
  init_image : option string;
  mask : option string;
  num_outputs : Z;
  num_inference_steps : Z;
  guidance_scale : spec_float;
  width : Z;
  height : Z;
  seed : Z;
  prompt_strength : spec_float;
  sampler : string;
  use_full_precision : bool;
  use_face_correction : option string;
  use_upscale : option string;
  use_stable_diffusion_model : string;
  use_vae_model : option string;
  show_only_filtered_image : bool;
  output_format : string;
  stream_progress_updates : bool;
  stream_image_progress : bool;
  save_to_disk_path : option string;
  req_turbo : bool;
}.

(** [ResponseImage(data=..., seed=...)] and its [path_abs]. *)
Record ResponseImage := {
  ri_data : string;
  ri_seed : Z;
  ri_path_abs : option string;
}.

(** What [mk_img] yields, before [json.dumps]: a progress record
    (its [step], the [total_steps] of [extra_props] and the preview paths
    under ['output']; the wall-clock [step_time] is left out), the final
    response with its images, or the failure record, whose [status] is
    ['failed'] and whose [detail] is the field here. *)
Inductive output :=
| Progress (step : Z) (total_steps : Z) (previews : option (list string))
| Response (images : list ResponseImage)
| Failed (detail : string).

(** The lines printed when models are loaded and unloaded. *)
Inductive log_line :=
| LogLoading (ckpt : string) (dev : device) (precision : string)
| LogUnloading.

(** The state a generator runs in: the worker context, what has been
    yielded so far and the console. *)
Record world := {
  td : thread_data;
  yielded : list output;
  console : list log_line;
}.

Definition with_td (f : thread_data -> thread_data) (w : world) : world :=
  {| td := f (td w); yielded := yielded w; console := console w |}.

(** A computation that reads and writes the world and may raise.  What
    was written before an exception stays written. *)
Definition M (A : Type) : Type := world -> result A * world.

Definition ret {A} (a : A) : M A := fun w => (Ok a, w).

Definition bind {A B} (m : M A) (f : A -> M B) : M B :=
  fun w =>
    match m w with
    | (Ok a, w') => f a w'
    | (Raise e, w') => (Raise e, w')
    end.

Notation "x ← y ; z" := (bind y (fun x => z))
  (at level 20, y at level 100, z at level 200, only parsing) : M_scope.
Notation "' x ← y ; z" := (bind y (fun x => z))
  (at level 20, x pattern, y at level 100, z at level 200, only parsing)
  : M_scope.
Notation "x ;; z" := (bind x (fun _ => z))
  (at level 100, z at level 200, only parsing, right associativity)
  : M_scope.
#[local] Open Scope M_scope.

Definition raise {A} (e : exn) : M A := fun w => (Raise e, w).

Definition lift {A} (r : result A) : M A := fun w => (r, w).

Definition get : M thread_data := fun w => (Ok (td w), w).

Definition modify (f : thread_data -> thread_data) : M unit :=
  fun w => (Ok tt, with_td f w).

Definition print (l : log_line) : M unit :=
  fun w => (Ok tt, {| td := td w; yielded := yielded w;
                      console := console w ++ [l] |}).

(** [try: m except Exception as e: h e] *)
Definition try_except {A} (m : M A) (h : exn -> M A) : M A :=
  fun w =>
    match m w with
    | (Ok a, w') => (Ok a, w')
    | (Raise e, w') => h e w'
    end.

(** The consumer of the generator runs between a [yield] and the
    resumption: [sets_stop n] tells whether it sets
    [thread_data.stop_processing] after it received the [n]-th value
    (counted from 0). *)
Class Consumer := {
  sets_stop : nat -> bool;
}.

Context `{Cons : Consumer}.

Definition yield (o : output) : M unit :=
  fun w =>
    let n := length (yielded w) in
    let td' := if sets_stop n then set_stop_processing true (td w) else td w in
    (Ok tt, {| td := td'; yielded := yielded w ++ [o]; console := console w |}).

Fixpoint mapM {A B} (f : A -> M B) (l : list A) : M (list B) :=
  match l with
  | [] => ret []
  | a :: l' => b ← f a; bs ← mapM f l'; ret (b :: bs)
  end.

(** [for a in l: acc = f(a, acc)] *)
Fixpoint foldM {A S} (f : A -> S -> M S) (l : list A) (s : S) : M S :=
  match l with
  | [] => ret s
  | a :: l' => s' ← f a s; foldM f l' s'
  end.

(** [range(n)] *)
Definition range (n : Z) : list Z := map Z.of_nat (seq 0 (Z.to_nat n)).

(** ** Device manager *)

Context `{FS : Filesystem} `{Cu : Cuda} `{Pl : Platform}.

Definition get_processor_name : option string := processor_name.

(** [str(device)] inside a message *)
Definition device_str (d : device) : string :=
  match d with
  | DNone => "None"
  | DInt n => pretty n
  | DStr s => s
  end.

Definition dquote : string := String "034"%char EmptyString.

(** [float(10**9)] *)
Definition giga : spec_float := Float.make (10 ^ 9) 0.

(** [None] when no issue is found, otherwise the error text.  Only a
    [RuntimeError] of [mem_get_info] is turned into text. *)
Definition device_would_fail (dev : device) : result (option string) :=
  if device_eqb dev cpu then Ok None
  else
    match cuda_mem_get_info dev with
    | Raise e =>
        match exn_cls e with
        | RuntimeError => Ok (Some (exn_str e))
        | _ => Raise e
        end
    | Ok (mem_free, mem_total) =>
        do mem_total <- Float.int_truediv mem_total giga;
        if Float.ltb mem_total Float.three
        then Ok (Some "GPUs with less than 3 GB of VRAM are not compatible with Stable Diffusion")
        else Ok None
    end.

Definition is_16xx (device_name : string) : bool :=
  let device_name := Str.lower device_name in
  (Str.contains "nvidia" device_name || Str.contains "geforce" device_name)
  && (Str.contains " 1660" device_name || Str.contains " 1650" device_name).

Definition device_select (dev : device) : M bool :=
  if device_eqb dev cpu then ret true
  else if negb cuda_is_available then ret false
  else
    failure_msg ← lift (device_would_fail dev);
    if Str.opt_truthy failure_msg then
      if Str.contains "invalid device" (default "" failure_msg)
      then raise (Exn NameError
             ("GPU " +:+ dquote +:+ device_str dev +:+ dquote +:+
              " could not be found. Remove this device from config.render_devices or use one of " +:+
              dquote +:+ "auto" +:+ dquote +:+ " or " +:+ dquote +:+ "cuda" +:+ dquote +:+ "."))
      else ret false
    else
      let name := cuda_get_device_name dev in
      modify (set_device_name (Some name));;
      modify (set_td_device dev);;
      modify (set_force_full_precision (is_16xx name));;
      (if is_16xx name then modify (set_precision "full") else ret tt);;
      ret true.

(** The attributes [device_init] assigns before it looks at the
    selection. *)
Definition init_thread_data (td : thread_data) : thread_data :=
  {| stop_processing := false;
     temp_images := ∅;
     ckpt_file := None;
     vae_file := None;
     gfpgan_file := None;
     real_esrgan_file := None;
     model := None;
     modelCS := None;
     modelFS := None;
     model_gfpgan := None;
     model_real_esrgan := None;
     model_is_half := false;
     model_fs_is_half := false;
     td_device := DNone;
     device_name := None;
     unet_bs := 1;
     precision := "autocast";
     turbo := false;
     force_full_precision := false;
     reduced_memory := true;
     partial_x_samples := partial_x_samples td |}.

(** One round of the probing loop of ['auto']: the state is
    [(max_mem_free, best_device)]. *)
Definition probe (dev : Z) (st : spec_float * option Z)
  : result (spec_float * option Z) :=
  let '(max_mem_free, best_device) := st in
  do info <- cuda_mem_get_info (DInt dev);
  let '(mem_free, mem_total) := info in
  do mem_free <- Float.int_truediv mem_free giga;
  do mem_total <- Float.int_truediv mem_total giga;
  if Float.ltb max_mem_free mem_free
  then Ok (mem_free, Some dev)
  else Ok (max_mem_free, best_device).

Fixpoint probe_all (devs : list Z) (st : spec_float * option Z)
  : result (spec_float * option Z) :=
  match devs with
  | [] => Ok st
  | dev :: devs' => do st' <- probe dev st; probe_all devs' st'
  end.

(** [bool(best_device)]: [None] and the index 0 are false. *)
Definition best_truthy (best_device : option Z) : bool :=
  match best_device with
  | None => false
  | Some n => negb (n =? 0)
  end.

Definition use_cpu : M unit :=
  modify (set_td_device cpu);;
  modify (set_device_name get_processor_name).

(** The last lines of [device_init]: the current device, else the CPU. *)
Definition device_init_current : M unit :=
  let dev := DInt cuda_current_device in
  ok ← device_select dev;
  if ok then ret tt else use_cpu.

(** The middle of [device_init]: an explicit selection, tried unless it is
    one of the words that mean the current device. *)
Definition device_init_explicit (device_selection : string) : M unit :=
  let lowered := Str.lower device_selection in
  sel ← (if Str.startswith "gpu:" lowered
         then n ← lift (Str.to_int (Str.drop 4 lowered)); ret (DInt n)
         else ret (DStr lowered));
  if negb (device_eqb sel (DStr "cuda")) && negb (device_eqb sel (DStr "current"))
     && negb (device_eqb sel (DStr "gpu"))
  then
    ok ← device_select sel;
    if ok then ret tt else device_init_current
  else device_init_current.

Definition device_init (device_selection : string) : M unit :=
  modify init_thread_data;;
  if String.eqb (Str.lower device_selection) "cpu" then use_cpu
  else if negb cuda_is_available then
    if String.eqb device_selection "auto" || String.eqb device_selection "current"
    then use_cpu
    else raise (Exn EnvironmentError "torch.cuda is not available.")
  else
    let device_count := cuda_device_count in
    let device_selection :=
      if (device_count <=? 1) && String.eqb device_selection "auto"
      then "current" else device_selection in
    if String.eqb device_selection "auto" then
      st ← lift (probe_all (range device_count) (Float.zero, None));
      let best_device := snd st in
      (** the loop variable, as the loop leaves it *)
      let dev := DInt (device_count - 1) in
      if best_truthy best_device then
        ok ← device_select dev;
        if ok then ret tt else device_init_explicit device_selection
      else device_init_explicit device_selection
    else device_init_explicit device_selection.

Definition is_first_cuda_device (dev : device) : bool :=
  match dev with
  | DNone => false
  | DInt n => n =? 0
  | DStr s =>
      String.eqb s "0" || String.eqb s "cuda" || String.eqb s "cuda:0"
      || String.eqb s "gpu" || String.eqb s "gpu:0" || String.eqb s "current"
  end.

(** ** Model cache *)

(** [module.to(device)] *)
Definition stage_to (d : device) (m : stage) : stage :=
  {| stage_ckpt := stage_ckpt m; stage_vae := stage_vae m;
     stage_dev := d; stage_half := stage_half m |}.

Definition stage_set_half (m : stage) : stage :=
  {| stage_ckpt := stage_ckpt m; stage_vae := stage_vae m;
     stage_dev := stage_dev m; stage_half := true |}.

Definition model1_to (d : device) (m : unet) : unet :=
  {| unet_ckpt := unet_ckpt m; unet_turbo := unet_turbo m;
     unet_unet_bs := unet_unet_bs m; unet_cdevice := unet_cdevice m;
     model1_dev := d; model2_dev := model2_dev m; unet_half := unet_half m |}.

Definition model2_to (d : device) (m : unet) : unet :=
  {| unet_ckpt := unet_ckpt m; unet_turbo := unet_turbo m;
     unet_unet_bs := unet_unet_bs m; unet_cdevice := unet_cdevice m;
     model1_dev := model1_dev m; model2_dev := d; unet_half := unet_half m |}.

Definition unet_set_half (m : unet) : unet :=
  {| unet_ckpt := unet_ckpt m; unet_turbo := unet_turbo m;
     unet_unet_bs := unet_unet_bs m; unet_cdevice := unet_cdevice m;
     model1_dev := model1_dev m; model2_dev := model2_dev m;
     unet_half := true |}.

Definition unet_set_turbo (b : bool) (m : unet) : unet :=
  {| unet_ckpt := unet_ckpt m; unet_turbo := b;
     unet_unet_bs := unet_unet_bs m; unet_cdevice := unet_cdevice m;
     model1_dev := model1_dev m; model2_dev := model2_dev m;
     unet_half := unet_half m |}.

Definition none_has_no (attr : string) : exn :=
  Exn AttributeError
    ("'NoneType' object has no attribute '" +:+ attr +:+ "'").

(** [thread_data.modelFS.to(d)], [thread_data.modelCS.to(d)] and the two
    halves of [thread_data.model]: an [AttributeError] on [None]. *)
Definition modelFS_to (d : device) : M unit :=
  t ← get;
  match modelFS t with
  | None => raise (none_has_no "to")
  | Some m => modify (set_modelFS (Some (stage_to d m)))
  end.

Definition modelCS_to (d : device) : M unit :=
  t ← get;
  match modelCS t with
  | None => raise (none_has_no "to")
  | Some m => modify (set_modelCS (Some (stage_to d m)))
  end.

Definition model_model1_to (d : device) : M unit :=
  t ← get;
  match model t with
  | None => raise (none_has_no "model1")
  | Some m => modify (set_model (Some (model1_to d m)))
  end.

Definition model_model2_to (d : device) : M unit :=
  t ← get;
  match model t with
  | None => raise (none_has_no "model2")
  | Some m => modify (set_model (Some (model2_to d m)))
  end.

(** The weights are read into host memory; [model.to(device)] follows on
    an accelerator.  Splitting the flat weight mapping into the parts of
    the denoiser is the loader's work and has no trace in the handles. *)
Definition load_model_ckpt : M unit :=
  t ← get;
  match ckpt_file t with
  | None => raise (Exn ValueError "Thread ckpt_file is undefined.")
  | Some ckpt =>
  if negb (Str.truthy ckpt)
  then raise (Exn ValueError "Thread ckpt_file is undefined.")
  else
  if negb (path_exists (ckpt +:+ ".ckpt"))
  then raise (Exn FileNotFoundError ("Cannot find " +:+ ckpt +:+ ".ckpt"))
  else
  (if negb (Str.truthy (precision t))
   then modify (set_precision
                  (if force_full_precision t then "full" else "autocast"))
   else ret tt);;
  (if unet_bs t =? 0 then modify (set_unet_bs 1) else ret tt);;
  (if device_eqb (td_device t) cpu then modify (set_precision "full")
   else ret tt);;
  t ← get;
  print (LogLoading (ckpt +:+ ".ckpt") (td_device t) (precision t));;
  let on_cpu := device_eqb (td_device t) cpu in
  let resident := if on_cpu then cpu else td_device t in
  let staged :=
    if on_cpu then cpu
    else if reduced_memory t then cpu else td_device t in
  let to_half := negb on_cpu && String.eqb (precision t) "autocast" in
  let vae :=
    match vae_file t with
    | None => None
    | Some v => if path_exists (v +:+ ".vae.pt") then Some v else None
    end in
  modify (set_model (Some
    {| unet_ckpt := ckpt; unet_turbo := turbo t;
       unet_unet_bs := unet_bs t; unet_cdevice := td_device t;
       model1_dev := resident; model2_dev := resident;
       unet_half := to_half |}));;
  modify (set_modelCS (Some
    {| stage_ckpt := ckpt; stage_vae := None;
       stage_dev := staged; stage_half := to_half |}));;
  modify (set_modelFS (Some
    {| stage_ckpt := ckpt; stage_vae := vae;
       stage_dev := staged; stage_half := to_half |}));;
  modify (set_model_is_half to_half);;
  modify (set_model_fs_is_half to_half)
  end.

Definition unload_filters : M unit :=
  modify (set_model_gfpgan None);;
  modify (set_model_real_esrgan None).

Definition unload_models : M unit :=
  t ← get;
  (match model t with
   | Some _ => print LogUnloading
   | None => ret tt
   end);;
  modify (set_model None);;
  modify (set_modelCS None);;
  modify (set_modelFS None).

(** The two networks [wait_model_move_to] is called on. *)
Inductive moved_model := MovedCS | MovedFS.

(** Send to [target_device] and wait until complete.  The wait polls the
    allocated memory and ends when it no longer shrinks; only the move is
    kept here. *)
Definition wait_model_move_to (which : moved_model) (target_device : device)
  : M unit :=
  t ← get;
  if device_eqb (td_device t) target_device then ret tt
  else if cuda_memory_allocated (td_device t) <=? 0 then ret tt
  else
    match which with
    | MovedCS => modelCS_to target_device
    | MovedFS => modelFS_to target_device
    end.

(** ** Filter models *)

Definition load_model_gfpgan : M unit :=
  t ← get;
  match gfpgan_file t with
  | None => raise (Exn ValueError "Thread gfpgan_file is undefined.")
  | Some file =>
      if negb (is_first_cuda_device (td_device t))
      then raise (Exn PlainException
             ("Current device " +:+ device_str (td_device t) +:+
              " is not cuda:0. Cannot run GFPGANer."))
      else
        modify (set_model_gfpgan (Some
          {| gfp_model_path := file +:+ ".pth";
             gfp_device := td_device t |}))
  end.

Definition RealESRGAN_models : gmap string rrdbnet :=
  <["RealESRGAN_x4plus" := {| num_block := 23; net_scale := 4 |}]>
  (<["RealESRGAN_x4plus_anime_6B" := {| num_block := 6; net_scale := 4 |}]> ∅).

Definition load_model_real_esrgan : M unit :=
  t ← get;
  match real_esrgan_file t with
  | None => raise (Exn ValueError "Thread real_esrgan_file is undefined.")
  | Some file =>
      match RealESRGAN_models !! file with
      | None => raise (Exn KeyError file)
      | Some model_to_use =>
          modify (set_model_real_esrgan (Some
            {| esr_model_path := file +:+ ".pth";
               esr_model := model_to_use;
               esr_model_name := file;
               esr_device := td_device t;
               esr_half :=
                 if device_eqb (td_device t) cpu then false
                 else model_is_half t |}))
      end
  end.

(** ** The networks and the sampler *)

(** The arguments of [model.sample]. *)
Record sample_args := {
  sa_S : Z;
  sa_conditioning : tensor;
  sa_x0 : option (list latent);
  sa_seed : option Z;
  sa_shape : option (list Z);
  sa_scale : spec_float;
  sa_uc : option tensor;
  sa_x_T : option (list latent);
  sa_mask : option img_tensor;
  sa_sampler : string;
}.

(** One run of the sampler, seen from the runtime: the calls of
    [img_callback(x_samples, i)] it makes, in order, and the exception it
    ends with, if it raises one of its own. *)
Record sampler_run := {
  sr_calls : list (list latent * Z);
  sr_raises : option exn;
}.

Class Networks := {
  (** [optimizedSD.optimUtils.split_weighted_subprompts] *)
  split_weighted_subprompts : string -> list string * list spec_float;
  (** [modelCS.get_learned_conditioning] on a batch and on one sub-prompt *)
  get_learned_conditioning : stage -> list string -> tensor;
  get_learned_conditioning1 : stage -> string -> tensor;
  zeros_like : tensor -> tensor;
  (** [torch.add(c, x, alpha=w)] *)
  torch_add : tensor -> tensor -> spec_float -> tensor;
  (** [modelFS.get_first_stage_encoding(modelFS.encode_first_stage(x))]
      on the source picture repeated [b] times *)
  encode_first_stage : stage -> img_tensor -> Z -> list latent;
  (** [model.stochastic_encode(x0, t, seed, eta, steps)] *)
  stochastic_encode : unet -> list latent -> Z -> Z -> Z -> list latent;
  (** [model.sample(...)] *)
  sample : unet -> sample_args -> sampler_run;
  (** [modelFS.decode_first_stage], clamped and scaled to 8 bits *)
  decode_first_stage : stage -> latent -> array;
  gfpgan_enhance : gfpganer -> array -> array;
  real_esrgan_enhance : real_esrganer -> array -> array;
  (** [a[:,:,::-1]] *)
  reverse_channels : array -> array;
  (** the mask, repeated over channels and batch *)
  repeat_mask : img_tensor -> Z -> img_tensor;
}.

Context `{P : !PIL} `{N : Networks}.

(** ** Filter applier *)

(** [p is not None and p != current] *)
Definition differs_from (model_path current : option string) : bool :=
  match model_path, current with
  | None, _ => false
  | Some p, Some q => negb (String.eqb p q)
  | Some _, None => true
  end.

Definition not_loaded (name : string) : exn :=
  Exn PlainException
    ("Model " +:+ dquote +:+ name +:+ dquote +:+ " not loaded.").

Definition apply_filters (filter_name : string) (image_data : array)
           (model_path : option string) : M array :=
  image_data ←
    (if String.eqb filter_name "gfpgan" then
       t ← get;
       (if differs_from model_path (gfpgan_file t)
        then modify (set_gfpgan_file model_path);; load_model_gfpgan
        else
          match model_gfpgan t with
          | None => load_model_gfpgan
          | Some _ => ret tt
          end);;
       t ← get;
       match model_gfpgan t with
       | None => raise (not_loaded "gfpgan")
       | Some m =>
           ret (reverse_channels
                  (gfpgan_enhance m (reverse_channels image_data)))
       end
     else ret image_data);
  if String.eqb filter_name "real_esrgan" then
    t ← get;
    (if differs_from model_path (real_esrgan_file t)
     then modify (set_real_esrgan_file model_path);; load_model_real_esrgan
     else
       match model_real_esrgan t with
       | None => load_model_real_esrgan
       | Some _ => ret tt
       end);;
    t ← get;
    match model_real_esrgan t with
    | None => raise (not_loaded "gfpgan")
    | Some m =>
        ret (reverse_channels
               (real_esrgan_enhance m (reverse_channels image_data)))
    end
  else ret image_data.

(** ** Paths of saved pictures *)

Definition is_alnum (c : ascii) : bool :=
  let n := N_of_ascii c in
  (((48 <=? n) && (n <=? 57)) || ((65 <=? n) && (n <=? 90))
   || ((97 <=? n) && (n <=? 122)))%N.

(** [filename_regex.sub('_', prompt)] *)
Fixpoint flatten_prompt (s : string) : string :=
  match s with
  | EmptyString => EmptyString
  | String c s' =>
      String (if is_alnum c then c else "_"%char) (flatten_prompt s')
  end.

(** [get_base_path] for a disk path and a session that are not [None].
    The directory it creates is not part of the state. *)
Definition get_base_path (disk_path session_id prompt img_id ext : string)
           (suffix : option string) : string :=
  let session_out_path := path_join disk_path session_id in
  let prompt_flattened := Str.take 50 (flatten_prompt prompt) in
  match suffix with
  | Some suffix =>
      path_join session_out_path
        (prompt_flattened +:+ "_" +:+ img_id +:+ "_" +:+ suffix +:+ "." +:+ ext)
  | None =>
      path_join session_out_path
        (prompt_flattened +:+ "_" +:+ img_id +:+ "." +:+ ext)
  end.

(** ** Generation pipeline *)

Definition opt_C : Z := 4.
Definition opt_f : Z := 8.

(** The model cache step of [do_mk_img]: reload when no model is bound,
    when the checkpoint or the VAE differs, or when the precision asked
    for does not fit the loaded weights. *)
Definition opt_str_eqb (a b : option string) : bool :=
  match a, b with
  | None, None => true
  | Some s, Some t => String.eqb s t
  | _, _ => false
  end.

(** [bool(x)] for a handle: [None] is false. *)
Definition bound {A} (x : option A) : bool :=
  match x with Some _ => true | None => false end.

(** No model bound, or another checkpoint or VAE than the one asked for. *)
Definition model_is_stale (req : Request) (t : thread_data) : bool :=
  negb (bound (model t))
  || negb (opt_str_eqb (ckpt_file t) (Some (use_stable_diffusion_model req)))
  || negb (opt_str_eqb (vae_file t) (use_vae_model req)).

(** On an accelerator: autocast is active but full precision is asked for
    or the weights are not in half precision, or full precision is active
    but neither asked for nor forced. *)
Definition precision_mismatch (req : Request) (t : thread_data) : bool :=
  negb (device_eqb (td_device t) cpu)
  && ((String.eqb (precision t) "autocast"
       && (use_full_precision req || negb (model_is_half t)))
      || (String.eqb (precision t) "full"
          && negb (use_full_precision req)
          && negb (force_full_precision t))).

Definition ensure_models (req : Request) : M unit :=
  t ← get;
  stale ←
    (if model_is_stale req t then
       modify (set_ckpt_file (Some (use_stable_diffusion_model req)));;
       modify (set_vae_file (use_vae_model req));;
       ret true
     else ret false);
  t ← get;
  precision_changed ←
    (if precision_mismatch req t then
       modify (set_precision
                 (if use_full_precision req then "full" else "autocast"));;
       ret true
     else ret false);
  let needs_model_reload := stale || precision_changed in
  if needs_model_reload
  then unload_models;; unload_filters;; load_model_ckpt
  else ret tt.

Definition apply_turbo (req : Request) : M unit :=
  t ← get;
  if negb (Bool.eqb (turbo t) (req_turbo req)) then
    modify (set_turbo (req_turbo req));;
    match model t with
    | None => raise (none_has_no "turbo")
    | Some m => modify (set_model (Some (unet_set_turbo (req_turbo req) m)))
    end
  else ret tt.

(** [t_enc = int(req.prompt_strength * req.num_inference_steps)], behind
    the assertion on the strength. *)
Definition compute_t_enc (req : Request) : result Z :=
  if Float.leb Float.zero (prompt_strength req)
     && Float.leb (prompt_strength req) Float.one
  then
    do product <- Float.mul_int (prompt_strength req) (num_inference_steps req);
    Float.to_int product
  else Raise (Exn AssertionError "can only work with strength in [0.0, 1.0]").

(** What the [else] branch on [req.init_image] leaves behind. *)
Record img2img_setup := {
  init_latent : list latent;
  t_enc : Z;
  setup_mask : option img_tensor;
}.

Definition on_accelerator_autocast (t : thread_data) : bool :=
  negb (device_eqb (td_device t) cpu) && String.eqb (precision t) "autocast".

Definition prepare_img2img (req : Request) (src : string) : M img2img_setup :=
  let batch_size := num_outputs req in
  init_image ← lift (load_img src (width req) (height req));
  t ← get;
  modelFS_to (td_device t);;
  t ← get;
  match modelFS t with
  | None => raise (none_has_no "encode_first_stage")
  | Some fs =>
      let init_latent := encode_first_stage fs init_image batch_size in
      mask ←
        (match mask req with
         | None => ret None
         | Some m =>
             mk ← lift (load_mask m (width req) (height req) init_latent);
             ret (Some (repeat_mask mk batch_size))
         end);
      wait_model_move_to MovedFS cpu;;
      t_enc ← lift (compute_t_enc req);
      ret {| init_latent := init_latent; t_enc := t_enc; setup_mask := mask |}
  end.

(** Conditioning: the unconditional tensor is computed unless the
    guidance scale is 1.0; a prompt with more than one sub-prompt is
    blended onto [zeros_like(uc)]. *)
Definition zeros_like_opt (uc : option tensor) : result tensor :=
  match uc with
  | Some u => Ok (zeros_like u)
  | None =>
      Raise (Exn TypeError
               "zeros_like(): argument 'input' (position 1) must be Tensor, not NoneType")
  end.

Definition list_index {A} (l : list A) (i : Z) : result A :=
  match l !! Z.to_nat i with
  | Some a => Ok a
  | None => Raise (Exn IndexError "list index out of range")
  end.

(** The body of the blending loop, for the sub-prompt at index [i]. *)
Definition blend_step (cs : stage) (subprompts : list string)
           (weights : list spec_float) (totalWeight : spec_float)
           (i : Z) (c : tensor) : result tensor :=
  do weight <- list_index weights i;
  do weight <- Float.truediv weight totalWeight;
  do sub <- list_index subprompts i;
  Ok (torch_add c (get_learned_conditioning1 cs sub) weight).

Fixpoint blend_loop (cs : stage) (subprompts : list string)
         (weights : list spec_float) (totalWeight : spec_float)
         (idx : list Z) (c : tensor) : result tensor :=
  match idx with
  | [] => Ok c
  | i :: idx' =>
      do c' <- blend_step cs subprompts weights totalWeight i c;
      blend_loop cs subprompts weights totalWeight idx' c'
  end.

(** The weights as the loop uses them: each divided by the sum of all. *)
Definition normalized (weights : list spec_float) : list (result spec_float) :=
  map (fun w => Float.truediv w (Float.sum weights)) weights.

(** The normalized weight at one index. *)
Definition weight_at (weights : list spec_float) (i : Z)
  : result spec_float :=
  do w <- list_index weights i; Float.truediv w (Float.sum weights).

Definition blend (cs : stage) (uc : option tensor) (subprompts : list string)
           (weights : list spec_float) : result tensor :=
  do c <- zeros_like_opt uc;
  let totalWeight := Float.sum weights in
  blend_loop cs subprompts weights totalWeight
             (range (Z.of_nat (length subprompts))) c.

Definition conditioning_of (cs : stage) (req : Request)
  : result (tensor * option tensor) :=
  let batch_size := num_outputs req in
  let prompts := replicate (Z.to_nat batch_size) (prompt req) in
  let uc :=
    if negb (Float.eqb (guidance_scale req) Float.one)
    then Some (get_learned_conditioning cs
                 (replicate (Z.to_nat batch_size) (negative_prompt req)))
    else None in
  do prompt0 <- list_index prompts 0;
  let '(subprompts, weights) := split_weighted_subprompts prompt0 in
  do c <- (if 1 <? Z.of_nat (length subprompts)
           then blend cs uc subprompts weights
           else Ok (get_learned_conditioning cs prompts));
  Ok (c, uc).

Definition conditioning (req : Request) : M (tensor * option tensor) :=
  t ← get;
  (if reduced_memory t then modelCS_to (td_device t) else ret tt);;
  t ← get;
  match modelCS t with
  | None => raise (none_has_no "get_learned_conditioning")
  | Some cs =>
      r ← lift (conditioning_of cs req);
      t ← get;
      (if reduced_memory t then modelFS_to (td_device t) else ret tt);;
      ret r
  end.

(** ** Progress callback and sampling *)

Definition tensor_index (x_samples : list latent) (i : Z) : result latent :=
  match x_samples !! Z.to_nat i with
  | Some x => Ok x
  | None => Raise (Exn IndexError "index out of bounds for dimension 0")
  end.

Definition update_temp_img (req : Request) (x_samples : list latent)
  : M (list string) :=
  mapM (fun i =>
          t ← get;
          match modelFS t with
          | None => raise (none_has_no "decode_first_stage")
          | Some fs =>
              x ← lift (tensor_index x_samples i);
              let img := Image_fromarray (decode_first_stage fs x) in
              buf ← lift (Image_save img "JPEG");
              modify (fun t =>
                set_temp_images
                  (<[session_id req +:+ "/" +:+ pretty i := buf]> (temp_images t)) t);;
              ret ("/image/tmp/" +:+ session_id req +:+ "/" +:+ pretty i)
          end)
       (range (num_outputs req)).

Definition user_stop : exn :=
  Exn UserInitiatedStop "User requested that we stop processing".

(** [img_callback(x_samples, i)] of a streamed run: record the latent,
    yield the progress, and on resumption look at the cancellation flag. *)
Definition img_callback (req : Request) (total_steps : Z)
           (x_samples : list latent) (i : Z) : M unit :=
  modify (set_partial_x_samples (Some (Some x_samples)));;
  previews ←
    (if stream_image_progress req && (i mod 5 =? 0)
     then p ← update_temp_img req x_samples; ret (Some p)
     else ret None);
  yield (Progress i total_steps previews);;
  t ← get;
  if stop_processing t then raise user_stop else ret tt.

Fixpoint run_calls (req : Request) (total_steps : Z)
         (calls : list (list latent * Z)) : M unit :=
  match calls with
  | [] => ret tt
  | (x, i) :: calls' =>
      img_callback req total_steps x i;; run_calls req total_steps calls'
  end.

(** The sampler runs its steps, calling back at each, and then returns
    or raises. *)
Definition run_sampler (req : Request) (total_steps : Z) (run : sampler_run)
  : M unit :=
  run_calls req total_steps (sr_calls run);;
  match sr_raises run with
  | Some e => raise e
  | None => ret tt
  end.

(** The arguments [_txt2img] calls [model.sample] with. *)
Definition txt2img_args (req : Request) (c : tensor) (uc : option tensor)
  : sample_args :=
  {| sa_S := num_inference_steps req;
     sa_conditioning := c;
     sa_x0 := None;
     sa_seed := Some (seed req);
     sa_shape := Some [num_outputs req; opt_C;
                       height req / opt_f; width req / opt_f];
     sa_scale := guidance_scale req;
     sa_uc := uc;
     sa_x_T := None;
     sa_mask := None;
     sa_sampler := sampler req |}.

(** The arguments [_img2img] calls [model.sample] with: [t_enc] steps
    from the source latent, noised up to step [t_enc]. *)
Definition img2img_args (req : Request) (setup : img2img_setup)
           (c : tensor) (uc : option tensor) (m : unet) : sample_args :=
  {| sa_S := t_enc setup;
     sa_conditioning := c;
     sa_x0 := Some (stochastic_encode m (init_latent setup) (t_enc setup)
                      (seed req) (num_inference_steps req));
     sa_seed := None;
     sa_shape := None;
     sa_scale := guidance_scale req;
     sa_uc := uc;
     sa_x_T := match setup_mask setup with
               | None => None
               | Some _ => Some (init_latent setup)
               end;
     sa_mask := setup_mask setup;
     sa_sampler := "ddim" |}.

Definition handler_args (req : Request) (setup : option img2img_setup)
           (c : tensor) (uc : option tensor) (m : unet) : sample_args :=
  match setup with
  | None => txt2img_args req c uc
  | Some s => img2img_args req s c uc m
  end.

(** [n_steps]: the step count the progress records announce. *)
Definition n_steps (req : Request) (setup : option img2img_setup) : Z :=
  match setup with
  | None => num_inference_steps req
  | Some s => t_enc s
  end.

(** The body of [_txt2img], run when the generator is iterated.
    [make_schedule] of the DDIM sampler changes nothing the runtime
    reads. *)
Definition _txt2img (req : Request) (c : tensor) (uc : option tensor)
  : M unit :=
  wait_model_move_to MovedCS cpu;;
  t ← get;
  match model t with
  | None =>
      raise (none_has_no
               (if String.eqb (sampler req) "ddim" then "make_schedule" else "sample"))
  | Some m =>
      run_sampler req (n_steps req None) (sample m (txt2img_args req c uc))
  end.

(** The body of [_img2img]. *)
Definition _img2img (req : Request) (setup : img2img_setup)
           (c : tensor) (uc : option tensor) : M unit :=
  t ← get;
  match model t with
  | None => raise (none_has_no "stochastic_encode")
  | Some m =>
      run_sampler req (n_steps req (Some setup))
        (sample m (img2img_args req setup c uc m))
  end.

(** [x_samples] as [do_mk_img] holds it: the generator object the
    handler returned, or a batch of latents. *)
Inductive samples :=
| Generator
| Latents (x : list latent).

(** [get_image_progress_generator]: a streamed run starts with
    [partial_x_samples] set to [None]; otherwise nothing is touched. *)
Definition get_image_progress_generator (req : Request) : M unit :=
  if stream_progress_updates req
  then modify (set_partial_x_samples (Some None))
  else ret tt.

(** The [try] block around the handler.  The handler is a generator: it
    runs only when a streamed request iterates it.  [None] stands for the
    [continue] of the [except] clause. *)
Definition run_handler (req : Request) (setup : option img2img_setup)
           (c : tensor) (uc : option tensor) : M (option samples) :=
  try_except
    ((if stream_progress_updates req then
        match setup with
        | None => _txt2img req c uc
        | Some s => _img2img req s c uc
        end
      else ret tt);;
     t ← get;
     match partial_x_samples t with
     | None => ret (Some Generator)
     | Some None =>
         modify (set_partial_x_samples None);; ret (Some Generator)
     | Some (Some x) =>
         modify (set_partial_x_samples None);; ret (Some (Latents x))
     end)
    (fun e =>
       match exn_cls e with
       | UserInitiatedStop =>
           t ← get;
           match partial_x_samples t with
           | None => ret None
           | Some None => modify (set_partial_x_samples None);; ret None
           | Some (Some x) =>
               modify (set_partial_x_samples None);; ret (Some (Latents x))
           end
       | _ => raise e
       end).

(** ** Decoding, filtering and the response *)

Definition samples_index (x_samples : samples) (i : Z) : result latent :=
  match x_samples with
  | Generator =>
      Raise (Exn TypeError "'generator' object is not subscriptable")
  | Latents x => tensor_index x i
  end.

Definition decode_images (batch_size : Z) (x_samples : samples)
  : M (list array) :=
  mapM (fun i =>
          t ← get;
          match modelFS t with
          | None => raise (none_has_no "decode_first_stage")
          | Some fs =>
              x ← lift (samples_index x_samples i);
              ret (decode_first_stage fs x)
          end)
       (range batch_size).

Definition starts_with_opt (p : string) (s : option string) : bool :=
  match s with
  | None => false
  | Some s => Str.startswith p s
  end.

Definition has_filters (req : Request) : bool :=
  starts_with_opt "GFPGAN" (use_face_correction req)
  || starts_with_opt "RealESRGAN" (use_upscale req).

(** The filters asked for, applied in order; with the picture comes the
    list of the filters applied. *)
Definition run_filters (req : Request) (a : array)
  : M (array * list string) :=
  '(a, applied) ←
    (if Str.opt_truthy (use_face_correction req) then
       a' ← apply_filters "gfpgan" a (use_face_correction req);
       ret (a', [default "" (use_face_correction req)])
     else ret (a, []));
  if Str.opt_truthy (use_upscale req) then
    a' ← apply_filters "real_esrgan" a (use_upscale req);
    ret (a', applied ++ [default "" (use_upscale req)])
  else ret (a, applied).

(** One round of the saving loop, for the picture at index [i]; the
    state is the list of response images and the running seed.  Writing
    the files is not part of the state; the paths are. *)
Definition save_one (req : Request) (a : array) (i : Z)
           (st : list ResponseImage * Z) : M (list ResponseImage * Z) :=
  let '(images, opt_seed) := st in
  let img := Image_fromarray a in
  let id := img_id i in
  t ← get;
  let return_orig_img :=
    negb (has_filters req) || negb (show_only_filtered_image req)
    || stop_processing t in
  let path_of suffix :=
    match save_to_disk_path req with
    | None => None
    | Some disk =>
        Some (get_base_path disk (session_id req) (prompt req) id
                (output_format req) suffix)
    end in
  images ←
    (if return_orig_img then
       img_str ← lift (img_to_base64_str img (output_format req));
       ret (images ++ [{| ri_data := img_str; ri_seed := opt_seed;
                          ri_path_abs := path_of None |}])
     else ret images);
  images ←
    (if has_filters req && negb (stop_processing t) then
       '(a', filters_applied) ← run_filters req a;
       if 0 <? Z.of_nat (length filters_applied) then
         filtered ← lift (img_to_base64_str (Image_fromarray a')
                            (output_format req));
         ret (images ++ [{| ri_data := filtered; ri_seed := opt_seed;
                            ri_path_abs :=
                              path_of (Some (String.concat "_" filters_applied)) |}])
       else ret images
     else ret images);
  ret (images, opt_seed + 1).

Fixpoint save_all (req : Request) (img_data : list array) (i : Z)
         (st : list ResponseImage * Z) : M (list ResponseImage * Z) :=
  match img_data with
  | [] => ret st
  | a :: rest =>
      st' ← save_one req a i st;
      save_all req rest (i + 1) st'
  end.

(** From the decoded latents to the response images. *)
Definition finish_batch (req : Request) (x_samples : samples)
  : M (list ResponseImage) :=
  img_data ← decode_images (num_outputs req) x_samples;
  t ← get;
  (if reduced_memory t then wait_model_move_to MovedFS cpu else ret tt);;
  '(images, _) ← save_all req img_data 0 ([], seed req);
  t ← get;
  (if reduced_memory t then unload_filters else ret tt);;
  ret images.

(** [do_mk_img] in three parts.  First the flag and the preview buffer
    are reset, the checkpoint is looked for and the model cache is brought
    in line with the request. *)
Definition start_request (req : Request) : M unit :=
  modify (set_stop_processing false);;
  modify (set_temp_images ∅);;
  (if negb (path_exists (use_stable_diffusion_model req +:+ ".ckpt"))
   then raise (Exn FileNotFoundError
                 ("Cannot find " +:+ use_stable_diffusion_model req +:+ ".ckpt"))
   else ret tt);;
  ensure_models req.

(** The world as a request finds it once the flag and the preview
    buffer are reset. *)
Definition reset (w : world) : world :=
  with_td (set_temp_images ∅) (with_td (set_stop_processing false) w).

(** Then everything up to the call of the handler: the turbo flag, the
    source picture of image-to-image, the conditioning and the progress
    callback. *)
Definition before_sampling (req : Request)
  : M (option img2img_setup * tensor * option tensor) :=
  apply_turbo req;;
  setup ←
    (match init_image req with
     | None => ret None
     | Some src => s ← prepare_img2img req src; ret (Some s)
     end);
  '(c, uc) ← conditioning req;
  get_image_progress_generator req;;
  ret (setup, c, uc).

(** Last the handler, the decoding and saving of its samples, and the
    response. *)
Definition sample_and_finish (req : Request) (setup : option img2img_setup)
           (c : tensor) (uc : option tensor) : M unit :=
  x_samples ← run_handler req setup c uc;
  images ←
    (match x_samples with
     | None => ret []
     | Some x => finish_batch req x
     end);
  yield (Response images).

Definition do_mk_img (req : Request) : M unit :=
  start_request req;;
  '(setup, c, uc) ← before_sampling req;
  sample_and_finish req setup c uc.

(** [mk_img]: whatever [do_mk_img] raises is caught; the models are moved
    to host memory or unloaded, and the failure is yielded. *)
Definition mk_img (req : Request) : M unit :=
  try_except (do_mk_img req)
    (fun e =>
       t ← get;
       (if reduced_memory t then
          modelFS_to cpu;;
          modelCS_to cpu;;
          model_model1_to cpu;;
          model_model2_to cpu
        else
          unload_models;;
          unload_filters);;
       yield (Failed (exn_str e))).

(** ** Observations on the world *)

Definition is_loading (l : log_line) : bool :=
  match l with
  | LogLoading _ _ _ => true
  | LogUnloading => false
  end.

(** How often a checkpoint has been loaded. *)
Definition reloads (w : world) : nat :=
  length (List.filter is_loading (console w)).

(** The cache is in line with a request when [ensure_models] has nothing
    to do. *)
Definition cache_fits (req : Request) (t : thread_data) : bool :=
  negb (model_is_stale req t) && negb (precision_mismatch req t).

(** What the model cache step reads besides the model handle, and the
    console. *)
Definition cache_key (w : world)
  : list log_line * option string * option string * device
    * string * bool * bool :=
  (console w, ckpt_file (td w), vae_file (td w),
   td_device (td w), precision (td w), model_is_half (td w),
   force_full_precision (td w)).

(** The cache key has a given value, and a model is bound. *)
Definition cache_is (k : list log_line * option string * option string
                         * device * string * bool * bool)
           (w : world) : Prop :=
  cache_key w = k /\ bound (model (td w)) = true.

(** What has been yielded, and the cancellation flag. *)
Definition quiet_key (w : world) : list output * bool :=
  (yielded w, stop_processing (td w)).

Definition quiet_is (k : list output * bool) (w : world) : Prop :=
  quiet_key w = k.

(** The world during a sampling run that started in [w]: the preview
    buffer, the recorded latent, the flag and what has been yielded since
    are the only things that differ. *)
Definition sampling (w : world) (previews : gmap string (list byte))
           (partial : option (option (list latent))) (stop : bool)
           (ys : list output) : world :=
  {| td := set_stop_processing stop
             (set_temp_images previews
                (set_partial_x_samples partial (td w)));
     yielded := yielded w ++ ys;
     console := console w |}.

(** The response image of one latent of a batch: decoded, encoded in the
    format of the request, with the seed of its position. *)
Definition image_of_latent (req : Request) (fs : stage) (i : Z) (x : latent)
  : result ResponseImage :=
  do img_str <- img_to_base64_str (Image_fromarray (decode_first_stage fs x))
                                  (output_format req);
  Ok {| ri_data := img_str;
        ri_seed := seed req + i;
        ri_path_abs :=
          match save_to_disk_path req with
          | None => None
          | Some disk =>
              Some (get_base_path disk (session_id req) (prompt req)
                      (img_id i) (output_format req) None)
          end |}.

Definition is_progress (o : output) : bool :=
  match o with
  | Progress _ _ _ => true
  | _ => false
  end.

(** A computation preserves a property of the world when the property
    holds after it, whether it returns or raises, if it held before. *)
Definition preserves {A} (I : world -> Prop) (m : M A) : Prop :=
  forall w, I w -> I (snd (m w)).

(** ** What a request writes once the models are in place *)

(** The assignments to [thread_data] that [do_mk_img] makes after the
    model cache step: the turbo flag, the handles moved between devices,
    the latent of the last callback, the preview buffer, the cancellation
    flag, and the filters. *)
Inductive run_update : (thread_data -> thread_data) -> Prop :=
| ru_turbo b : run_update (set_turbo b)
| ru_model m : run_update (set_model (Some m))
| ru_modelCS s : run_update (set_modelCS (Some s))
| ru_modelFS s : run_update (set_modelFS (Some s))
| ru_partial p : run_update (set_partial_x_samples p)
| ru_temp_insert k v :
    run_update (fun t => set_temp_images (<[k := v]> (temp_images t)) t)
| ru_temp v : run_update (set_temp_images v)
| ru_stop b : run_update (set_stop_processing b)
| ru_gfpgan_file p : run_update (set_gfpgan_file p)
| ru_real_esrgan_file p : run_update (set_real_esrgan_file p)
| ru_model_gfpgan m : run_update (set_model_gfpgan m)
| ru_model_real_esrgan m : run_update (set_model_real_esrgan m).

(** A property of the world that those assignments and the yielding of
    values leave alone. *)
Definition run_stable (I : world -> Prop) : Prop :=
  (forall f w, run_update f -> I w -> I (with_td f w))
  /\ (forall w ys, I w ->
        I {| td := td w; yielded := ys; console := console w |}).

(** ** What [device_init] leaves behind *)

(** [device_select] accepts a device when [device_would_fail] returns
    nothing that counts as a message: [None], or the empty text. *)
Definition device_passes (dev : device) : bool :=
  match device_would_fail dev with
  | Ok msg => negb (Str.opt_truthy msg)
  | Raise _ => false
  end.

(** No checkpoint, no filter and no file name is held, nothing is being
    cancelled or previewed, and the reduced-memory policy is on. *)
Definition nothing_loaded (t : thread_data) : Prop :=
  model t = None /\ modelCS t = None /\ modelFS t = None
  /\ model_gfpgan t = None /\ model_real_esrgan t = None
  /\ ckpt_file t = None /\ vae_file t = None
  /\ gfpgan_file t = None /\ real_esrgan_file t = None
  /\ model_is_half t = false /\ model_fs_is_half t = false
  /\ stop_processing t = false /\ temp_images t = ∅
  /\ reduced_memory t = true /\ turbo t = false /\ unet_bs t = 1.

(** What [device_select] writes when it accepts a device. *)
Definition selected (dev : device) (t : thread_data) : thread_data :=
  let name := cuda_get_device_name dev in
  (if is_16xx name then set_precision "full" else id)
    (set_force_full_precision (is_16xx name)
       (set_td_device dev (set_device_name (Some name) t))).

(** The two ways [device_init] ends from [w]: on the CPU, or on an
    accelerator that [device_select] accepted. *)
Definition initialised (w w' : world) : Prop :=
  w' = snd (use_cpu (with_td init_thread_data w))
  \/ (cuda_is_available = true
      /\ exists dev,
           device_eqb dev cpu = false
           /\ device_passes dev = true
           /\ w' = with_td (selected dev) (with_td init_thread_data w)).

(** The worker is on the CPU, or on an accelerator that passed the
    check of [device_select]. *)
Definition on_checked_device (t : thread_data) : Prop :=
  (td_device t = cpu /\ device_name t = get_processor_name
   /\ force_full_precision t = false)
  \/ (cuda_is_available = true
      /\ device_eqb (td_device t) cpu = false
      /\ device_passes (td_device t) = true
      /\ device_name t = Some (cuda_get_device_name (td_device t))
      /\ force_full_precision t
         = is_16xx (cuda_get_device_name (td_device t))).

(** The state of a worker that [device_init] has set up from [w]. *)
Definition device_ready (w w' : world) : Prop :=
  on_checked_device (td w')
  /\ precision (td w')
     = (if force_full_precision (td w') then "full" else "autocast")
  /\ nothing_loaded (td w')
  /\ yielded w' = yielded w /\ console w' = console w.

(** ** Precision *)

(** Full precision is forced and in force: the weights are not in half
    precision. *)
Definition forced_full (w : world) : Prop :=
  force_full_precision (td w) = true
  /\ precision (td w) = "full"
  /\ model_is_half (td w) = false
  /\ model_fs_is_half (td w) = false.

(** The worker is bound to the CPU and its weights are not in half
    precision. *)
Definition on_cpu_full (w : world) : Prop :=
  td_device (td w) = cpu
  /\ model_is_half (td w) = false
  /\ model_fs_is_half (td w) = false.

(** ** The three networks *)

(** The denoiser and the two stages are bound together or not at all. *)
Definition handles_together (t : thread_data) : Prop :=
  bound (modelCS t) = bound (model t) /\ bound (modelFS t) = bound (model t).

(** All three are bound, under the reduced-memory policy. *)
Definition all_bound_reduced (w : world) : Prop :=
  bound (model (td w)) = true /\ bound (modelCS (td w)) = true
  /\ bound (modelFS (td w)) = true /\ reduced_memory (td w) = true.

(** No latent of a callback is recorded: the attribute
    [partial_x_samples] is absent. *)
Definition no_partial (w : world) : Prop :=
  partial_x_samples (td w) = None.

(** ** Progress records and previews *)

(** The key a preview is stored under and the path it is announced
    with, for the latent at index [i] of a batch. *)
Definition preview_key (req : Request) (i : Z) : string :=
  session_id req +:+ "/" +:+ pretty i.

Definition preview_path (req : Request) (i : Z) : string :=
  "/image/tmp/" +:+ session_id req +:+ "/" +:+ pretty i.

Definition preview_paths (req : Request) : list string :=
  preview_path req <$> range (num_outputs req).

(** The JPEG of a latent, as [update_temp_img] stores it. *)
Definition preview_of (fs : stage) (x : latent) : result (list byte) :=
  Image_save (Image_fromarray (decode_first_stage fs x)) "JPEG".

(** The progress record of one callback: previews come with every fifth
    step when the request asks for them. *)
Definition progress_record (req : Request) (total_steps : Z)
           (call : list latent * Z) : output :=
  Progress (snd call) total_steps
    (if stream_image_progress req && (snd call mod 5 =? 0)
     then Some (preview_paths req) else None).

(** ** The images of a response *)

(** How many response images one picture gives: the picture as decoded
    unless only the filtered one is wanted, and the filtered one when
    filters are asked for and the run was not stopped. *)
Definition images_per_picture (req : Request) (stopped : bool) : nat :=
  if has_filters req && negb stopped
  then if show_only_filtered_image req then 1%nat else 2%nat
  else 1%nat.

(** What has been yielded is [ys]. *)
Definition yielded_is (ys : list output) (w : world) : Prop :=
  yielded w = ys.

(** [0. <= req.prompt_strength <= 1.] *)
Definition strength_in_range (req : Request) : bool :=
  Float.leb Float.zero (prompt_strength req)
  && Float.leb (prompt_strength req) Float.one.

(** ** [chunk] *)

(** [sys.maxsize] *)
Definition maxsize : Z := 2 ^ 63 - 1.

(** The values the iterator [iter(lambda: tuple(islice(it, size)), ())]
    gives: tuples of [size] elements taken off [it], until the tuple
    taken is the empty one.  [fuel] bounds the number of calls. *)
Fixpoint chunk_loop {A} (fuel : nat) (it : list A) (size : nat)
  : list (list A) :=
  match fuel with
  | O => []
  | S fuel' =>
      match take size it with
      | [] => []
      | t => t :: chunk_loop fuel' (drop size it) size
      end
  end.

(** [chunk(it, size)], consumed to its end: the tuples it gives, or the
    [ValueError] of [islice] for a size that is negative or too large.
    One call more than [it] has elements is enough. *)
Definition chunk {A} (it : list A) (size : Z) : result (list (list A)) :=
  if (size <? 0) || (maxsize <? size)
  then Raise (Exn ValueError
         "Stop argument for islice() must be None or an integer: 0 <= x <= sys.maxsize.")
  else Ok (chunk_loop (S (length it)) it (Z.to_nat size)).

(** ** A worker that serves *)

(** The worker holds its three networks, under the reduced-memory
    policy, and its precision is set. *)
Definition serving (w : world) : Prop :=
  handles_together (td w)
  /\ bound (model (td w)) = true
  /\ reduced_memory (td w) = true
  /\ Str.truthy (precision (td w)) = true.

(** Since [base] was yielded, progress records only. *)
Definition progress_since (base : list output) (w : world) : Prop :=
  exists ps, yielded w = base ++ ps /\ forallb is_progress ps = true.

End Runtime.

(** ** Concrete environments, to run the embedding on *)

Module Demo.

(** A conditioning tensor is kept as the formal sum it was built as: the
    prompts with their coefficients. *)
Definition demo_types : Types :=
  {| image := list byte; array := list byte;
     tensor := list (list string * spec_float);
     latent := list byte; img_tensor := list byte |}.

Definition demo_pil : @PIL demo_types :=
  {| Image_save := fun (img : @image demo_types) _ => Ok img;
     Image_open := fun data => Ok (data : @image demo_types);
     Image_fromarray := fun (a : @array demo_types) => (a : @image demo_types);
     img_to_tensor := fun (img : @image demo_types) _ _ => (img : @img_tensor demo_types);
     mask_to_tensor := fun (img : @image demo_types) _ _ _ => (img : @img_tensor demo_types) |}.

(** The checkpoints on disk. *)
Definition demo_fs : Filesystem :=
  {| path_exists := fun p =>
       String.eqb p "models/sd-v1-4.ckpt" || String.eqb p "models/anime.ckpt";
     path_join := fun a b => a +:+ "/" +:+ b |}.

Definition no_such_device : exn :=
  Exn RuntimeError "CUDA error: invalid device ordinal".

(** Accelerators given by their free and total memory, in bytes. *)
Definition demo_cuda (mems : list (Z * Z)) : Cuda :=
  {| cuda_is_available := negb (bool_decide (mems = []));
     cuda_device_count := Z.of_nat (length mems);
     cuda_mem_get_info := fun d =>
       match d with
       | DInt n =>
           if n <? 0 then Raise no_such_device
           else match mems !! Z.to_nat n with
                | Some m => Ok m
                | None => Raise no_such_device
                end
       | _ => Raise (Exn RuntimeError "Invalid device string")
       end;
     cuda_get_device_name := fun _ => "NVIDIA GeForce RTX 3090";
     cuda_current_device := 0;
     cuda_memory_allocated := fun _ => 0 |}.

Definition demo_platform : Platform :=
  {| processor_name := Some "Generic CPU";
     img_id := fun i => pretty i |}.

(** A sampler that calls back once per step with a batch of
    one-byte latents holding the step. *)
Definition demo_latent (batch i : Z) : list (@latent demo_types) :=
  replicate (Z.to_nat batch) [Base64.byte_of_Z i].

Definition demo_tensor : Type := list (list string * spec_float).

Definition demo_add (c x : demo_tensor) (w : spec_float) : demo_tensor :=
  c ++ map (fun '(p, a) => (p, Float.mul a w)) x.

Definition demo_sample (args : @sample_args demo_types)
  : @sampler_run demo_types :=
  let batch :=
    match sa_shape args with
    | Some (b :: _) => b
    | _ => Z.of_nat (length (default [] (sa_x0 args)))
    end in
  {| sr_calls := map (fun i => (demo_latent batch i, i)) (range (sa_S args));
     sr_raises := None |}.

(** The parser, on the prompts used below; any other prompt is one
    sub-prompt of weight 1. *)
Definition demo_split (p : string) : list string * list spec_float :=
  if String.eqb p "cat:2 dog:2" then (["cat"; "dog"], [Float.two; Float.two])
  else if String.eqb p "cat:1 dog:1" then (["cat"; "dog"], [Float.one; Float.one])
  else ([p], [Float.one]).

Definition demo_networks : @Networks demo_types :=
  {| split_weighted_subprompts := demo_split;
     get_learned_conditioning := fun _ ps =>
       ([(ps, Float.one)] : @tensor demo_types);
     get_learned_conditioning1 := fun _ p =>
       ([([p], Float.one)] : @tensor demo_types);
     zeros_like := fun _ => ([] : demo_tensor) : @tensor demo_types;
     torch_add := demo_add : @tensor demo_types -> @tensor demo_types -> _ -> @tensor demo_types;
     encode_first_stage := fun _ (x : @img_tensor demo_types) b =>
       replicate (Z.to_nat b) (x : @latent demo_types);
     stochastic_encode := fun _ x _ _ _ => x;
     sample := fun _ args => demo_sample args;
     decode_first_stage := fun _ (x : @latent demo_types) => (x : @array demo_types);
     gfpgan_enhance := fun _ a => a;
     real_esrgan_enhance := fun _ a => a;
     reverse_channels := fun a => a;
     repeat_mask := fun m _ => m |}.

(** The same networks with a sampler that is interrupted before its
    first step. *)
Definition interrupted_networks : @Networks demo_types :=
  {| split_weighted_subprompts := demo_split;
     get_learned_conditioning := fun _ ps =>
       ([(ps, Float.one)] : @tensor demo_types);
     get_learned_conditioning1 := fun _ p =>
       ([([p], Float.one)] : @tensor demo_types);
     zeros_like := fun _ => ([] : demo_tensor) : @tensor demo_types;
     torch_add := demo_add : @tensor demo_types -> @tensor demo_types -> _ -> @tensor demo_types;
     encode_first_stage := fun _ (x : @img_tensor demo_types) b =>
       replicate (Z.to_nat b) (x : @latent demo_types);
     stochastic_encode := fun _ x _ _ _ => x;
     sample := fun _ _ => {| sr_calls := []; sr_raises := Some user_stop |};
     decode_first_stage := fun _ (x : @latent demo_types) => (x : @array demo_types);
     gfpgan_enhance := fun _ a => a;
     real_esrgan_enhance := fun _ a => a;
     reverse_channels := fun a => a;
     repeat_mask := fun m _ => m |}.

(** A consumer that asks for a stop after the value at the given
    position, or never. *)
Definition demo_consumer (stop_after : option nat) : Consumer :=
  {| sets_stop := fun n =>
       match stop_after with
       | Some k => Nat.eqb n k
       | None => false
       end |}.

Definition demo_request : Request :=
  {| session_id := "session";
     prompt := "a photograph of an astronaut riding a horse";
     negative_prompt := "";
     init_image := None;
     mask := None;
     num_outputs := 2;
     num_inference_steps := 4;
     guidance_scale := Float.make 15 (-1);
     width := 512;
     height := 512;
     seed := 42;
     prompt_strength := Float.make 1 (-1);
     sampler := "plms";
     use_full_precision := false;
     use_face_correction := None;
     use_upscale := None;
     use_stable_diffusion_model := "models/sd-v1-4";
     use_vae_model := None;
     show_only_filtered_image := false;
     output_format := "png";
     stream_progress_updates := true;
     stream_image_progress := false;
     save_to_disk_path := None;
     req_turbo := false |}.

(** Two prompts with the same sub-prompts and weights [2, 2] and
    [1, 1], without guidance and with it. *)
Definition blend_request_2_2 : Request :=
  {| session_id := "session";
     prompt := "cat:2 dog:2";
     negative_prompt := "";
     init_image := None;
     mask := None;
     num_outputs := 1;
     num_inference_steps := 4;
     guidance_scale := Float.make 15 (-1);
     width := 512;
     height := 512;
     seed := 42;
     prompt_strength := Float.make 1 (-1);
     sampler := "plms";
     use_full_precision := false;
     use_face_correction := None;
     use_upscale := None;
     use_stable_diffusion_model := "models/sd-v1-4";
     use_vae_model := None;
     show_only_filtered_image := false;
     output_format := "png";
     stream_progress_updates := true;
     stream_image_progress := false;
     save_to_disk_path := None;
     req_turbo := false |}.

Definition with_prompt (p : string) (r : Request) : Request :=
  {| session_id := session_id r; prompt := p;
     negative_prompt := negative_prompt r; init_image := init_image r;
     mask := mask r; num_outputs := num_outputs r;
     num_inference_steps := num_inference_steps r;
     guidance_scale := guidance_scale r; width := width r;
     height := height r; seed := seed r;
     prompt_strength := prompt_strength r; sampler := sampler r;
     use_full_precision := use_full_precision r;
     use_face_correction := use_face_correction r;
     use_upscale := use_upscale r;
     use_stable_diffusion_model := use_stable_diffusion_model r;
     use_vae_model := use_vae_model r;
     show_only_filtered_image := show_only_filtered_image r;
     output_format := output_format r;
     stream_progress_updates := stream_progress_updates r;
     stream_image_progress := stream_image_progress r;
     save_to_disk_path := save_to_disk_path r; req_turbo := req_turbo r |}.

Definition with_guidance (g : spec_float) (r : Request) : Request :=
  {| session_id := session_id r; prompt := prompt r;
     negative_prompt := negative_prompt r; init_image := init_image r;
     mask := mask r; num_outputs := num_outputs r;
     num_inference_steps := num_inference_steps r;
     guidance_scale := g; width := width r;
     height := height r; seed := seed r;
     prompt_strength := prompt_strength r; sampler := sampler r;
     use_full_precision := use_full_precision r;
     use_face_correction := use_face_correction r;
     use_upscale := use_upscale r;
     use_stable_diffusion_model := use_stable_diffusion_model r;
     use_vae_model := use_vae_model r;
     show_only_filtered_image := show_only_filtered_image r;
     output_format := output_format r;
     stream_progress_updates := stream_progress_updates r;
     stream_image_progress := stream_image_progress r;
     save_to_disk_path := save_to_disk_path r; req_turbo := req_turbo r |}.

(** A source picture for image-to-image, a strength and a step count. *)
Definition with_img2img (src : string) (strength : spec_float) (steps : Z)
           (r : Request) : Request :=
  {| session_id := session_id r; prompt := prompt r;
     negative_prompt := negative_prompt r; init_image := Some src;
     mask := mask r; num_outputs := num_outputs r;
     num_inference_steps := steps;
     guidance_scale := guidance_scale r; width := width r;
     height := height r; seed := seed r;
     prompt_strength := strength; sampler := sampler r;
     use_full_precision := use_full_precision r;
     use_face_correction := use_face_correction r;
     use_upscale := use_upscale r;
     use_stable_diffusion_model := use_stable_diffusion_model r;
     use_vae_model := use_vae_model r;
     show_only_filtered_image := show_only_filtered_image r;
     output_format := output_format r;
     stream_progress_updates := stream_progress_updates r;
     stream_image_progress := stream_image_progress r;
     save_to_disk_path := save_to_disk_path r; req_turbo := req_turbo r |}.

Definition with_model (ckpt : string) (r : Request) : Request :=
  {| session_id := session_id r; prompt := prompt r;
     negative_prompt := negative_prompt r; init_image := init_image r;
     mask := mask r; num_outputs := num_outputs r;
     num_inference_steps := num_inference_steps r;
     guidance_scale := guidance_scale r; width := width r;
     height := height r; seed := seed r;
     prompt_strength := prompt_strength r; sampler := sampler r;
     use_full_precision := use_full_precision r;
     use_face_correction := use_face_correction r;
     use_upscale := use_upscale r;
     use_stable_diffusion_model := ckpt;
     use_vae_model := use_vae_model r;
     show_only_filtered_image := show_only_filtered_image r;
     output_format := output_format r;
     stream_progress_updates := stream_progress_updates r;
     stream_image_progress := stream_image_progress r;
     save_to_disk_path := save_to_disk_path r; req_turbo := req_turbo r |}.

Definition a_stage : @stage :=
  {| stage_ckpt := "models/sd-v1-4"; stage_vae := None;
     stage_dev := DInt 0; stage_half := true |}.

(** The context of a thread before [device_init]. *)
Definition blank : @thread_data demo_types :=
  {| stop_processing := false; temp_images := ∅; ckpt_file := None;
     vae_file := None; gfpgan_file := None; real_esrgan_file := None;
     model := None; modelCS := None; modelFS := None;
     model_gfpgan := None; model_real_esrgan := None;
     model_is_half := false; model_fs_is_half := false;
     td_device := DNone; device_name := None; unet_bs := 1;
     precision := "autocast"; turbo := false;
     force_full_precision := false; reduced_memory := true;
     partial_x_samples := None |}.

Definition start : @world demo_types :=
  {| td := blank; yielded := []; console := [] |}.

(** A worker bound to the CPU with nothing loaded. *)
Definition on_cpu : @world demo_types :=
  {| td := set_td_device cpu blank; yielded := []; console := [] |}.

(** A worker bound to the CPU that holds both filter models. *)
Definition cpu_with_filters : @world demo_types :=
  {| td :=
       set_model_real_esrgan
         (Some {| esr_model_path := "RealESRGAN_x4plus.pth";
                  esr_model := {| num_block := 23; net_scale := 4 |};
                  esr_model_name := "RealESRGAN_x4plus";
                  esr_device := cpu; esr_half := false |})
         (set_real_esrgan_file (Some "RealESRGAN_x4plus")
            (set_model_gfpgan
               (Some {| gfp_model_path := "GFPGANv1.3.pth";
                        gfp_device := DInt 0 |})
               (set_gfpgan_file (Some "GFPGANv1.3")
                  (set_td_device cpu blank))));
     yielded := []; console := [] |}.

(** Three accelerators with 12 GB each, of which 2, 10 and 5 GB are
    free. *)
Definition three_gpus : Cuda :=
  demo_cuda [(2 * 10 ^ 9, 12 * 10 ^ 9); (10 * 10 ^ 9, 12 * 10 ^ 9);
             (5 * 10 ^ 9, 12 * 10 ^ 9)].

(** The worker as [device_init] sets it up on those accelerators, and
    as a first request for the demo checkpoint leaves it. *)
Definition fresh_worker : @world demo_types :=
  Eval vm_compute in
    snd (@device_init demo_types three_gpus demo_platform "auto" start).

Definition after_first_request : @world demo_types :=
  Eval vm_compute in
    snd (@do_mk_img demo_types (demo_consumer None) demo_fs three_gpus
           demo_platform demo_pil demo_networks demo_request fresh_worker).

(** The same first request on the fresh worker, when its checkpoint is
    loaded and when its sampler is about to be called. *)
Definition request_started : @world demo_types :=
  Eval vm_compute in
    snd (@start_request demo_types demo_fs demo_request fresh_worker).

Definition ready_to_sample : @world demo_types :=
  Eval vm_compute in
    snd (@before_sampling demo_types three_gpus demo_pil demo_networks
           demo_request request_started).

(** What that worker holds then: the networks as loaded on the third
    accelerator, and the conditioning of the demo request. *)
Definition loaded_unet : @unet :=
  {| unet_ckpt := "models/sd-v1-4"; unet_turbo := false; unet_unet_bs := 1;
     unet_cdevice := DInt 2; model1_dev := DInt 2; model2_dev := DInt 2;
     unet_half := true |}.

Definition loaded_stage : @stage :=
  {| stage_ckpt := "models/sd-v1-4"; stage_vae := None;
     stage_dev := DInt 2; stage_half := true |}.

Definition demo_c : @tensor demo_types :=
  [([prompt demo_request; prompt demo_request], Float.one)].

Definition demo_uc : option (@tensor demo_types) :=
  Some [([EmptyString; EmptyString], Float.one)].

(** One accelerator of the 16xx series, with 6 GB of which 5 are free,
    and the worker [device_init] sets up on it. *)
Definition gtx_1660 : Cuda :=
  {| cuda_is_available := true;
     cuda_device_count := 1;
     cuda_mem_get_info := fun d =>
       match d with
       | DInt 0 => Ok (5 * 10 ^ 9, 6 * 10 ^ 9)
       | _ => Raise no_such_device
       end;
     cuda_get_device_name := fun _ => "NVIDIA GeForce GTX 1660 SUPER";
     cuda_current_device := 0;
     cuda_memory_allocated := fun _ => 0 |}.

Definition gtx_worker : @world demo_types :=
  Eval vm_compute in
    snd (@device_init demo_types gtx_1660 demo_platform "auto" start).

(** The worker [device_init] binds to the CPU. *)
Definition cpu_worker : @world demo_types :=
  Eval vm_compute in
    snd (@device_init demo_types three_gpus demo_platform "CPU" start).

Definition with_full_precision (b : bool) (r : Request) : Request :=
  {| session_id := session_id r; prompt := prompt r;
     negative_prompt := negative_prompt r; init_image := init_image r;
     mask := mask r; num_outputs := num_outputs r;
     num_inference_steps := num_inference_steps r;
     guidance_scale := guidance_scale r; width := width r;
     height := height r; seed := seed r;
     prompt_strength := prompt_strength r; sampler := sampler r;
     use_full_precision := b;
     use_face_correction := use_face_correction r;
     use_upscale := use_upscale r;
     use_stable_diffusion_model := use_stable_diffusion_model r;
     use_vae_model := use_vae_model r;
     show_only_filtered_image := show_only_filtered_image r;
     output_format := output_format r;
     stream_progress_updates := stream_progress_updates r;
     stream_image_progress := stream_image_progress r;
     save_to_disk_path := save_to_disk_path r; req_turbo := req_turbo r |}.

(** Three accelerators, the last of them with 2 GB only; an index out
    of range is reported the way CUDA does. *)
Definition demo_invalid : Cuda :=
  {| cuda_is_available := true;
     cuda_device_count := 3;
     cuda_mem_get_info := fun d =>
       match d with
       | DInt 0 => Ok (2 * 10 ^ 9, 12 * 10 ^ 9)
       | DInt 1 => Ok (10 * 10 ^ 9, 12 * 10 ^ 9)
       | DInt 2 => Ok (1 * 10 ^ 9, 2 * 10 ^ 9)
       | _ => Raise no_such_device
       end;
     cuda_get_device_name := fun _ => "NVIDIA GeForce RTX 3090";
     cuda_current_device := 0;
     cuda_memory_allocated := fun _ => 0 |}.

(** A request that cannot be conditioned: two sub-prompts without
    guidance.  What [do_mk_img] makes of it on the fresh worker. *)
Definition unguided_blend : Request :=
  with_guidance Float.one blend_request_2_2.

Definition unguided_blend_run : result unit * @world demo_types :=
  Eval vm_compute in
    @do_mk_img demo_types (demo_consumer None) demo_fs three_gpus
      demo_platform demo_pil demo_networks unguided_blend fresh_worker.

Definition with_streaming (b : bool) (r : Request) : Request :=
  {| session_id := session_id r; prompt := prompt r;
     negative_prompt := negative_prompt r; init_image := init_image r;
     mask := mask r; num_outputs := num_outputs r;
     num_inference_steps := num_inference_steps r;
     guidance_scale := guidance_scale r; width := width r;
     height := height r; seed := seed r;
     prompt_strength := prompt_strength r; sampler := sampler r;
     use_full_precision := use_full_precision r;
     use_face_correction := use_face_correction r;
     use_upscale := use_upscale r;
     use_stable_diffusion_model := use_stable_diffusion_model r;
     use_vae_model := use_vae_model r;
     show_only_filtered_image := show_only_filtered_image r;
     output_format := output_format r;
     stream_progress_updates := b;
     stream_image_progress := stream_image_progress r;
     save_to_disk_path := save_to_disk_path r; req_turbo := req_turbo r |}.

Definition with_steps (n : Z) (r : Request) : Request :=
  {| session_id := session_id r; prompt := prompt r;
     negative_prompt := negative_prompt r; init_image := init_image r;
     mask := mask r; num_outputs := num_outputs r;
     num_inference_steps := n;
     guidance_scale := guidance_scale r; width := width r;
     height := height r; seed := seed r;
     prompt_strength := prompt_strength r; sampler := sampler r;
     use_full_precision := use_full_precision r;
     use_face_correction := use_face_correction r;
     use_upscale := use_upscale r;
     use_stable_diffusion_model := use_stable_diffusion_model r;
     use_vae_model := use_vae_model r;
     show_only_filtered_image := show_only_filtered_image r;
     output_format := output_format r;
     stream_progress_updates := stream_progress_updates r;
     stream_image_progress := stream_image_progress r;
     save_to_disk_path := save_to_disk_path r; req_turbo := req_turbo r |}.

(** The demo request without streaming, when its handler is about to
    be built. *)
Definition not_streamed_ready : @world demo_types :=
  Eval vm_compute in
    snd (@before_sampling demo_types three_gpus demo_pil demo_networks
           (with_streaming false demo_request) request_started).

Definition with_upscale (name : option string) (r : Request) : Request :=
  {| session_id := session_id r; prompt := prompt r;
     negative_prompt := negative_prompt r; init_image := init_image r;
     mask := mask r; num_outputs := num_outputs r;
     num_inference_steps := num_inference_steps r;
     guidance_scale := guidance_scale r; width := width r;
     height := height r; seed := seed r;
     prompt_strength := prompt_strength r; sampler := sampler r;
     use_full_precision := use_full_precision r;
     use_face_correction := use_face_correction r;
     use_upscale := name;
     use_stable_diffusion_model := use_stable_diffusion_model r;
     use_vae_model := use_vae_model r;
     show_only_filtered_image := show_only_filtered_image r;
     output_format := output_format r;
     stream_progress_updates := stream_progress_updates r;
     stream_image_progress := stream_image_progress r;
     save_to_disk_path := save_to_disk_path r; req_turbo := req_turbo r |}.

(** The demo request with the upscaler, and the worker as it leaves
    it. *)
Definition upscaled : Request :=
  with_upscale (Some "RealESRGAN_x4plus") demo_request.

Definition after_upscaled : @world demo_types :=
  Eval vm_compute in
    snd (@do_mk_img demo_types (demo_consumer None) demo_fs three_gpus
           demo_platform demo_pil demo_networks upscaled fresh_worker).

End Demo.

(** * Part II: lemmas and theorems *)

(** ** Strings *)

Module StrFacts.

Lemma app_String a s r : String a s +:+ r = String a (s +:+ r).
Proof. reflexivity. Qed.

Lemma app_Empty r : EmptyString +:+ r = r.
Proof. reflexivity. Qed.

Lemma startswith_app p s : Str.startswith p (p +:+ s) = true.
Proof.
  induction p as [|a p IH]; [reflexivity|].
  rewrite app_String. cbn [Str.startswith].
  rewrite Ascii.eqb_refl. exact IH.
Qed.

Lemma drop_app p s : Str.drop (String.length p) (p +:+ s) = s.
Proof.
  induction p as [|a p IH]; [reflexivity|].
  rewrite app_String. exact IH.
Qed.

End StrFacts.

(** ** Base64 *)

Module Base64Facts.
Import Base64.

(** *** Bit operations on bytes and sextets, as arithmetic *)

Lemma land_shiftl_small x y k :
  0 <= k -> 0 <= y < 2 ^ k -> Z.land (Z.shiftl x k) y = 0.
Proof.
  intros Hk Hy. apply Z.bits_inj'. intros n Hn.
  rewrite Z.land_spec, Z.bits_0.
  destruct (Z.lt_ge_cases n k) as [Hlt|Hge].
  - rewrite Z.shiftl_spec_low by lia. reflexivity.
  - assert (Z.testbit y n = false) as ->; [|apply andb_false_r].
    destruct (Z.eq_dec y 0) as [->|Hy0]; [apply Z.bits_0|].
    apply Z.bits_above_log2; [lia|].
    apply Z.log2_lt_pow2; [lia|].
    apply Z.lt_le_trans with (2 ^ k); [lia|].
    apply Z.pow_le_mono_r; lia.
Qed.

Lemma lor_shiftl_small x y k :
  0 <= k -> 0 <= y < 2 ^ k -> Z.lor (Z.shiftl x k) y = x * 2 ^ k + y.
Proof.
  intros Hk Hy.
  pose proof (Z.add_lor_land (Z.shiftl x k) y) as H.
  rewrite land_shiftl_small in H by assumption.
  rewrite <- (Z.shiftl_mul_pow2 x k) by assumption. lia.
Qed.

Lemma land_mask x k : 0 <= k -> Z.land x (2 ^ k - 1) = x mod 2 ^ k.
Proof.
  intros Hk. rewrite <- Z.land_ones by assumption.
  f_equal. rewrite Z.ones_equiv. lia.
Qed.

Lemma land_3 x : Z.land x 3 = x mod 4.
Proof. apply (land_mask x 2). lia. Qed.

Lemma land_15 x : Z.land x 15 = x mod 16.
Proof. apply (land_mask x 4). lia. Qed.

Lemma land_63 x : Z.land x 63 = x mod 64.
Proof. apply (land_mask x 6). lia. Qed.

Lemma land_255 x : Z.land x 255 = x mod 256.
Proof. apply (land_mask x 8). lia. Qed.

Lemma byte_to_Z_range b : 0 <= byte_to_Z b < 256.
Proof.
  unfold byte_to_Z. pose proof (Byte.to_N_bounded b). lia.
Qed.

Lemma byte_of_to_Z b : byte_of_Z (byte_to_Z b) = b.
Proof.
  unfold byte_of_Z. pose proof (byte_to_Z_range b) as Hb.
  rewrite land_255, Z.mod_small by lia.
  unfold byte_to_Z. rewrite N2Z.id, Byte.of_to_N. reflexivity.
Qed.

Ltac sextet_range := Z.div_mod_to_equations; lia.

(** The four sextets of a group of three bytes. *)
Lemma sextet1 a : Z.shiftr a 2 = a / 4.
Proof. apply (Z.shiftr_div_pow2 a 2). lia. Qed.

Lemma sextet2 a b :
  0 <= b < 256 ->
  Z.lor (Z.shiftl (Z.land a 3) 4) (Z.shiftr b 4) = (a mod 4) * 16 + b / 16.
Proof.
  intros Hb. rewrite (Z.shiftr_div_pow2 b 4), land_3 by lia.
  rewrite lor_shiftl_small; [reflexivity|lia|].
  change (2 ^ 4) with 16. sextet_range.
Qed.

Lemma sextet3 b c :
  0 <= c < 256 ->
  Z.lor (Z.shiftl (Z.land b 15) 2) (Z.shiftr c 6) = (b mod 16) * 4 + c / 64.
Proof.
  intros Hc. rewrite (Z.shiftr_div_pow2 c 6), land_15 by lia.
  rewrite lor_shiftl_small; [reflexivity|lia|].
  change (2 ^ 6) with 64. change (2 ^ 2) with 4. sextet_range.
Qed.

Lemma sextet4 c : Z.land c 63 = c mod 64.
Proof. apply land_63. Qed.

Lemma sextet2_tail a : Z.shiftl (Z.land a 3) 4 = (a mod 4) * 16.
Proof. rewrite land_3, Z.shiftl_mul_pow2 by lia. reflexivity. Qed.

Lemma sextet3_tail b : Z.shiftl (Z.land b 15) 2 = (b mod 16) * 4.
Proof. rewrite land_15, Z.shiftl_mul_pow2 by lia. reflexivity. Qed.

(** The bytes the decoder rebuilds from sextets. *)
Lemma octet1 d1 d2 :
  0 <= d2 < 64 -> Z.lor (Z.shiftl d1 2) (Z.shiftr d2 4) = d1 * 4 + d2 / 16.
Proof.
  intros Hd. rewrite (Z.shiftr_div_pow2 d2 4) by lia.
  rewrite lor_shiftl_small; [reflexivity|lia|].
  change (2 ^ 4) with 16. change (2 ^ 2) with 4. sextet_range.
Qed.

Lemma octet2 l d3 :
  0 <= d3 < 64 -> Z.lor (Z.shiftl l 4) (Z.shiftr d3 2) = l * 16 + d3 / 4.
Proof.
  intros Hd. rewrite (Z.shiftr_div_pow2 d3 2) by lia.
  rewrite lor_shiftl_small; [reflexivity|lia|].
  change (2 ^ 4) with 16. change (2 ^ 2) with 4. sextet_range.
Qed.

Lemma octet3 l d4 :
  0 <= d4 < 64 -> Z.lor (Z.shiftl l 6) d4 = l * 64 + d4.
Proof.
  intros Hd. rewrite lor_shiftl_small; [reflexivity|lia|].
  change (2 ^ 6) with 64. lia.
Qed.

Lemma rebuild1 a b :
  0 <= a < 256 -> 0 <= b < 256 ->
  Z.lor (Z.shiftl (a / 4) 2) (Z.shiftr (a mod 4 * 16 + b / 16) 4) = a.
Proof. intros. rewrite octet1 by sextet_range. sextet_range. Qed.

Lemma rebuild2 a b c :
  0 <= a < 256 -> 0 <= b < 256 -> 0 <= c < 256 ->
  Z.lor (Z.shiftl (Z.land (a mod 4 * 16 + b / 16) 15) 4)
        (Z.shiftr (b mod 16 * 4 + c / 64) 2) = b.
Proof.
  intros. rewrite octet2 by sextet_range. rewrite land_15. sextet_range.
Qed.

Lemma rebuild3 b c :
  0 <= b < 256 -> 0 <= c < 256 ->
  Z.lor (Z.shiftl (Z.land (b mod 16 * 4 + c / 64) 3) 6) (c mod 64) = c.
Proof.
  intros. rewrite octet3 by sextet_range. rewrite land_3. sextet_range.
Qed.

(** *** The two tables are inverse to each other *)

Lemma sextets_ok : forallb sextet_ok (seq 0 64) = true.
Proof. vm_compute. reflexivity. Qed.

Lemma sextet_ok_at v : 0 <= v < 64 -> sextet_ok (Z.to_nat v) = true.
Proof.
  intros Hv. pose proof sextets_ok as H.
  rewrite forallb_forall in H. apply H.
  apply in_seq. lia.
Qed.

Lemma a2b_b2a v : 0 <= v < 64 -> a2b (b2a v) = Some v.
Proof.
  intros Hv. pose proof (sextet_ok_at v Hv) as H.
  unfold sextet_ok in H. rewrite Z2Nat.id in H by lia.
  destruct (a2b (b2a v)) as [d|]; [|discriminate].
  apply andb_true_iff in H as [H _].
  apply Z.eqb_eq in H. congruence.
Qed.

Lemma b2a_not_pad v : 0 <= v < 64 -> Ascii.eqb (b2a v) BASE64_PAD = false.
Proof.
  intros Hv. pose proof (sextet_ok_at v Hv) as H.
  unfold sextet_ok in H. rewrite Z2Nat.id in H by lia.
  destruct (a2b (b2a v)) as [d|]; [|discriminate].
  apply andb_true_iff in H as [_ H].
  apply negb_true_iff in H. exact H.
Qed.

(** One alphabet character moves the decoder one position on. *)
Lemma a2b_loop_data v rest q l p out :
  0 <= v < 64 ->
  a2b_loop (String (b2a v) rest) q l p out =
  if q =? 0 then a2b_loop rest 1 v 0 out
  else if q =? 1 then
    a2b_loop rest 2 (Z.land v 15) 0
      (out ++ [byte_of_Z (Z.lor (Z.shiftl l 2) (Z.shiftr v 4))])
  else if q =? 2 then
    a2b_loop rest 3 (Z.land v 3) 0
      (out ++ [byte_of_Z (Z.lor (Z.shiftl l 4) (Z.shiftr v 2))])
  else
    a2b_loop rest 0 0 0 (out ++ [byte_of_Z (Z.lor (Z.shiftl l 6) v)]).
Proof.
  intros Hv. cbn [a2b_loop].
  rewrite (b2a_not_pad v Hv), (a2b_b2a v Hv). reflexivity.
Qed.

Lemma list_ind3 {A} (P : list A -> Prop) :
  P [] -> (forall a, P [a]) -> (forall a b, P [a; b]) ->
  (forall a b c l, P l -> P (a :: b :: c :: l)) ->
  forall l, P l.
Proof.
  intros H0 H1 H2 H3. fix IH 1.
  intros [|a [|b [|c l]]]; [exact H0|apply H1|apply H2|].
  apply H3, IH.
Qed.

(** Decoding resumes after a full group with the three bytes emitted. *)
Lemma a2b_loop_group a b c rest out :
  a2b_loop (b64encode (a :: b :: c :: [])  +:+ rest) 0 0 0 out =
  a2b_loop rest 0 0 0 (out ++ [a; b; c]).
Proof.
  pose proof (byte_to_Z_range a) as Ha.
  pose proof (byte_to_Z_range b) as Hb.
  pose proof (byte_to_Z_range c) as Hc.
  cbn [b64encode]. rewrite !StrFacts.app_String, StrFacts.app_Empty.
  rewrite sextet1, sextet2, sextet3, sextet4 by assumption.
  rewrite !a2b_loop_data by sextet_range.
  cbn [Z.eqb Pos.eqb].
  rewrite rebuild1, rebuild2, rebuild3 by assumption.
  rewrite !byte_of_to_Z, <- !app_assoc. reflexivity.
Qed.

Lemma b64encode_group a b c rest :
  b64encode (a :: b :: c :: rest) =
  b64encode (a :: b :: c :: []) +:+ b64encode rest.
Proof. reflexivity. Qed.

Lemma a2b_loop_b64encode bs :
  forall out, a2b_loop (b64encode bs) 0 0 0 out = Ok (out ++ bs).
Proof.
  induction bs as [|a|a b|a b c rest IH] using list_ind3; intros out.
  - cbn. rewrite app_nil_r. reflexivity.
  - pose proof (byte_to_Z_range a) as Ha.
    cbn [b64encode]. rewrite sextet1, sextet2_tail.
    rewrite !a2b_loop_data by sextet_range.
    cbn [Z.eqb Pos.eqb].
    replace (Z.lor _ _) with (byte_to_Z a)
      by (rewrite octet1 by sextet_range; sextet_range).
    rewrite byte_of_to_Z. reflexivity.
  - pose proof (byte_to_Z_range a) as Ha.
    pose proof (byte_to_Z_range b) as Hb.
    cbn [b64encode]. rewrite sextet1, sextet2, sextet3_tail by assumption.
    rewrite !a2b_loop_data by sextet_range.
    cbn [Z.eqb Pos.eqb].
    rewrite rebuild1 by assumption.
    replace (Z.lor _ _) with (byte_to_Z b)
      by (rewrite octet2 by sextet_range; rewrite land_15; sextet_range).
    rewrite !byte_of_to_Z, <- app_assoc. reflexivity.
  - rewrite b64encode_group, a2b_loop_group, IH, <- app_assoc.
    reflexivity.
Qed.

(** [b64decode(b64encode(bs)) == bs] *)
Lemma b64decode_b64encode bs : b64decode (b64encode bs) = Ok bs.
Proof. apply (a2b_loop_b64encode bs []). Qed.

End Base64Facts.

(** ** Image codec helpers *)

Section ImageCodecFacts.
Context `{PIL}.

Lemma base64_str_to_img_png payload :
  base64_str_to_img ("data:image/png;base64," +:+ payload) =
  do data <- Base64.b64decode payload; Image_open data.
Proof. reflexivity. Qed.

(** C8.  A picture saved as PNG and encoded to a data URI decodes to the
    same picture: whenever PIL's PNG codec gives back the picture it
    saved, [base64_str_to_img (img_to_base64_str img)] is [img].  The
    format is any spelling of "png". *)
Theorem png_data_uri_roundtrip (img : image) (output_format : string) :
  Str.lower output_format = "png" ->
  (exists data, Image_save img output_format = Ok data
                /\ Image_open data = Ok img) ->
  exists img_str,
    img_to_base64_str img output_format = Ok img_str
    /\ base64_str_to_img img_str = Ok img.
Proof.
  intros Hfmt (data & Hsave & Hopen).
  exists ("data:image/png;base64," +:+ Base64.b64encode data).
  split.
  - unfold img_to_base64_str. rewrite Hsave, Hfmt. reflexivity.
  - rewrite base64_str_to_img_png, Base64Facts.b64decode_b64encode.
    exact Hopen.
Qed.


End ImageCodecFacts.

Lemma png_data_uri_roundtrip_witness :
  exists img_str,
    @img_to_base64_str raw_types raw_pil
      [x89; x50; x4e; x47; x0d; x0a; x1a; x0a] "PNG" = Ok img_str
    /\ @base64_str_to_img raw_types raw_pil img_str
       = Ok [x89; x50; x4e; x47; x0d; x0a; x1a; x0a].
Proof.
  apply (@png_data_uri_roundtrip raw_types raw_pil).
  - reflexivity.
  - eexists. split; reflexivity.
Defined.


(** ** Binary64 arithmetic *)

Module FloatFacts.

Lemma digits2_pos_bound p :
  2 ^ (Zpos (digits2_pos p) - 1) <= Zpos p < 2 ^ Zpos (digits2_pos p).
Proof.
  assert (Hstep : forall d : positive,
             2 ^ Zpos d = 2 * 2 ^ (Zpos d - 1)).
  { intros d. rewrite <- Z.pow_succ_r by lia. f_equal. lia. }
  induction p as [p IH|p IH|]; cbn [digits2_pos].
  - rewrite Pos2Z.inj_succ, Z.pow_succ_r by lia.
    replace (Z.succ (Zpos (digits2_pos p)) - 1)
      with (Zpos (digits2_pos p)) by lia.
    pose proof (Hstep (digits2_pos p)). lia.
  - rewrite Pos2Z.inj_succ, Z.pow_succ_r by lia.
    replace (Z.succ (Zpos (digits2_pos p)) - 1)
      with (Zpos (digits2_pos p)) by lia.
    pose proof (Hstep (digits2_pos p)). lia.
  - simpl. lia.
Qed.

Lemma digits2_pos_le p k :
  0 <= k -> Zpos p < 2 ^ k -> Zpos (digits2_pos p) <= k.
Proof.
  intros Hk Hp. pose proof (digits2_pos_bound p) as [Hlo _].
  destruct (Z.le_gt_cases (Zpos (digits2_pos p)) k) as [|Hgt]; [assumption|].
  assert (2 ^ k <= 2 ^ (Zpos (digits2_pos p) - 1))
    by (apply Z.pow_le_mono_r; lia).
  lia.
Qed.

Lemma iter_xO_val p k : Zpos (Pos.iter xO p k) = Zpos p * 2 ^ Zpos k.
Proof.
  induction k as [|k IH] using Pos.peano_ind.
  - simpl. lia.
  - rewrite Pos.iter_succ, Pos2Z.inj_succ, Z.pow_succ_r by lia.
    rewrite Pos2Z.inj_xO, IH. lia.
Qed.

Lemma iter_xO_digits p k :
  digits2_pos (Pos.iter xO p k) = (digits2_pos p + k)%positive.
Proof.
  induction k as [|k IH] using Pos.peano_ind.
  - simpl. lia.
  - rewrite Pos.iter_succ. cbn [digits2_pos]. rewrite IH. lia.
Qed.

(** A mantissa of 53 bits with an exponent in range is kept as it is. *)
Lemma binary_round_aux_exact sx m e :
  Zpos (digits2_pos m) = 53 -> -1074 <= e <= 971 ->
  binary_round_aux 53 1024 sx (Zpos m) e loc_Exact = S754_finite sx m e.
Proof.
  intros Hd He. unfold binary_round_aux, shr_fexp.
  cbn [Zdigits2 shr_record_of_loc]. rewrite Hd.
  unfold fexp, emin.
  replace (Z.max (53 + e - 53) (3 - 1024 - 53) - e) with 0 by lia.
  cbn [shr shr_m loc_of_shr_record round_nearest_even Zdigits2
       shr_record_of_loc].
  rewrite Hd.
  replace (Z.max (53 + e - 53) (3 - 1024 - 53) - e) with 0 by lia.
  cbn [shr shr_m].
  replace (e <=? 1024 - 53) with true by (symmetry; apply Z.leb_le; lia).
  reflexivity.
Qed.

Lemma mul_pow52 m : (4503599627370496 * m)%positive = Pos.iter xO m 52.
Proof. reflexivity. Qed.

Lemma shr_52 m :
  SpecFloat.iter_pos shr_1 52
    {| shr_m := Zpos (Pos.iter xO m 52); shr_r := false; shr_s := false |} =
  {| shr_m := Zpos m; shr_r := false; shr_s := false |}.
Proof. reflexivity. Qed.

(** [1.0 * x == x] for a normal [x]. *)
Lemma mul_one_l sx m e :
  Zpos (digits2_pos m) = 53 -> -1022 <= e <= 971 ->
  Float.mul Float.one (S754_finite sx m e) = S754_finite sx m e.
Proof.
  intros Hd He.
  change Float.one with (S754_finite false 4503599627370496 (-52)).
  unfold Float.mul, SFmul. cbn [xorb].
  unfold binary_round_aux at 1, shr_fexp at 1.
  cbn [Zdigits2 shr_record_of_loc].
  rewrite mul_pow52, iter_xO_digits.
  assert (Hd' : digits2_pos m = 53%positive) by lia.
  rewrite Hd'. unfold fexp, emin, Float.prec, Float.emax.
  replace (Z.max (Z.pos (53 + 52) + (-52 + e) - 53) (3 - 1024 - 53)
           - (-52 + e)) with 52 by lia.
  cbn [shr]. rewrite shr_52.
  cbn [shr_m loc_of_shr_record round_nearest_even Zdigits2
       shr_record_of_loc].
  unfold shr_fexp. cbn [Zdigits2 shr_record_of_loc]. rewrite Hd'.
  unfold fexp, emin.
  replace (Z.max (53 + (-52 + e + 52) - 53) (3 - 1024 - 53)
           - (-52 + e + 52)) with 0 by lia.
  cbn [shr shr_m].
  replace (-52 + e + 52 <=? 1024 - 53) with true
    by (symmetry; apply Z.leb_le; lia).
  f_equal. lia.
Qed.

(** Rounding keeps the sign it is given. *)
Lemma binary_round_aux_sign sx m e l :
  match binary_round_aux 53 1024 sx m e l with
  | S754_finite s _ _ => s = sx
  | _ => True
  end.
Proof.
  unfold binary_round_aux.
  destruct (shr_fexp 53 1024 m e l) as [mrs1 e1].
  destruct (shr_fexp 53 1024 _ e1 loc_Exact) as [mrs2 e2].
  destruct (shr_m mrs2); [exact I| |exact I].
  destruct (e2 <=? 1024 - 53); [reflexivity|exact I].
Qed.

(** [float(n)] is exact below [2^53]. *)
Lemma make_small p :
  Zpos p < 2 ^ 53 ->
  exists m e, Float.make (Zpos p) 0 = S754_finite false m e
    /\ Zpos (digits2_pos m) = 53 /\ -52 <= e <= 0
    /\ Zpos m = Zpos p * 2 ^ (- e).
Proof.
  intros Hp.
  pose proof (digits2_pos_le p 53 ltac:(lia) Hp) as Hd.
  unfold Float.make, binary_normalize, binary_round, Float.prec, Float.emax.
  unfold fexp, emin.
  replace (Z.max (Z.pos (digits2_pos p) + 0 - 53) (3 - 1024 - 53))
    with (Zpos (digits2_pos p) - 53) by lia.
  unfold shl_align.
  destruct (Z.pos (digits2_pos p) - 53 - 0) as [|k|k] eqn:Ek.
  - exists p, 0. rewrite binary_round_aux_exact by lia.
    repeat split; try lia.
  - lia.
  - exists (Pos.iter xO p k), (Z.pos (digits2_pos p) - 53).
    rewrite binary_round_aux_exact.
    + repeat split; try lia.
      * rewrite iter_xO_digits. lia.
      * rewrite iter_xO_val. f_equal. f_equal. lia.
    + rewrite iter_xO_digits. lia.
    + lia.
Qed.

Lemma to_int_make_small p m e :
  Zpos m = Zpos p * 2 ^ (- e) -> -52 <= e <= 0 ->
  Float.to_int (S754_finite false m e) = Ok (Zpos p).
Proof.
  intros Hm He. unfold Float.to_int, Float.int_part.
  destruct (Z.eq_dec e 0) as [->|Hne].
  - simpl in *. f_equal. lia.
  - replace (0 <=? e) with false by (symmetry; apply Z.leb_gt; lia).
    rewrite Hm, Z.div_mul; [reflexivity|].
    apply Z.pow_nonzero; lia.
Qed.

(** What [float(n)] is for [0 <= n <= 2^53]: zero, or a normal number
    that [int] maps back to [n]. *)
Lemma of_int_small n :
  0 <= n <= 2 ^ 53 ->
  exists f, Float.of_int n = Ok f
    /\ Float.to_int (Float.mul Float.one f) = Ok n
    /\ forall b, Float.to_int (Float.mul (S754_zero b) f) = Ok 0.
Proof.
  intros Hn. destruct n as [|p|p]; [| |lia].
  - exists (S754_zero false). split; [reflexivity|].
    split; [reflexivity|]. intros []; reflexivity.
  - destruct (Z.eq_dec (Zpos p) (2 ^ 53)) as [E|N].
    + injection E as ->. eexists. split; [vm_compute; reflexivity|].
      split; [vm_compute; reflexivity|]. intros []; reflexivity.
    + destruct (make_small p ltac:(lia)) as (m & e & Hmk & Hd & He & Hm).
      exists (S754_finite false m e). unfold Float.of_int. rewrite Hmk.
      split; [reflexivity|].
      rewrite mul_one_l by lia.
      split; [exact (to_int_make_small p m e Hm He)|].
      intros b. reflexivity.
Qed.

Lemma leb_zero_not_negative x : Float.leb Float.zero x = true -> Float.not_negative x.
Proof. destruct x as [| | |[] m e]; simpl; intros H; try exact I. discriminate. Qed.

Lemma make_not_negative n e : 0 <= n -> Float.not_negative (Float.make n e).
Proof.
  intros Hn. destruct n as [|p|p]; [exact I| |lia].
  unfold Float.make, binary_normalize, binary_round.
  destruct (shl_align _ _ _) as [mz ez].
  pose proof (binary_round_aux_sign false (Zpos mz) ez loc_Exact) as H.
  unfold Float.prec, Float.emax.
  destruct (binary_round_aux 53 1024 false (Z.pos mz) ez loc_Exact)
    as [| | |[] m' e']; try exact I. discriminate.
Qed.

Lemma mul_not_negative x y :
  Float.not_negative x -> Float.not_negative y -> Float.not_negative (Float.mul x y).
Proof.
  destruct x as [sx|sx| |sx mx ex], y as [sy|sy| |sy my ey];
    try (intros; exact I).
  intros Hx Hy. destruct sx; [destruct Hx|]. destruct sy; [destruct Hy|].
  unfold Float.mul, SFmul. cbn [xorb].
  pose proof (binary_round_aux_sign false (Z.pos (mx * my)) (ex + ey) loc_Exact) as H.
  unfold Float.prec, Float.emax.
  destruct (binary_round_aux 53 1024 false _ _ loc_Exact)
    as [| | |[] m' e']; try exact I. discriminate.
Qed.

(** [int(x)] is [floor(x)] when [x] is not negative. *)
Lemma to_int_floor x : Float.not_negative x -> Float.to_int x = Float.floor x.
Proof.
  destruct x as [| | |[] m e]; try reflexivity. intros [].
Qed.

End FloatFacts.

(** ** The monad [M] *)

Section MonadFacts.
Context `{Ty : Types}.

Lemma bind_ok {A B} (m : M A) (f : A -> M B) w a w1 :
  m w = (Ok a, w1) -> bind m f w = f a w1.
Proof. intros H. unfold bind. rewrite H. reflexivity. Qed.

Lemma bind_raise {A B} (m : M A) (f : A -> M B) w e w1 :
  m w = (Raise e, w1) -> bind m f w = (Raise e, w1).
Proof. intros H. unfold bind. rewrite H. reflexivity. Qed.

Lemma bind_Ok_inv {A B} (m : M A) (f : A -> M B) w b w2 :
  bind m f w = (Ok b, w2) ->
  exists a w1, m w = (Ok a, w1) /\ f a w1 = (Ok b, w2).
Proof.
  unfold bind. destruct (m w) as [[a|e] w1]; intros H.
  - exists a, w1. split; [reflexivity|exact H].
  - discriminate.
Qed.

Lemma bind_ret_l {A B} (a : A) (f : A -> M B) w : bind (ret a) f w = f a w.
Proof. reflexivity. Qed.

Lemma bind_get {B} (f : thread_data -> M B) w : bind get f w = f (td w) w.
Proof. reflexivity. Qed.

Lemma bind_modify {B} g (f : unit -> M B) w :
  bind (modify g) f w = f tt (with_td g w).
Proof. reflexivity. Qed.

Lemma bind_print {B} l (f : unit -> M B) w :
  bind (print l) f w =
  f tt {| td := td w; yielded := yielded w; console := console w ++ [l] |}.
Proof. reflexivity. Qed.

Lemma bind_raise_l {A B} e (f : A -> M B) w :
  bind (raise e) f w = (Raise e, w).
Proof. reflexivity. Qed.

Lemma bind_lift_ok {A B} (r : result A) (f : A -> M B) w a :
  r = Ok a -> bind (lift r) f w = f a w.
Proof. intros ->. reflexivity. Qed.

Lemma bind_lift_raise {A B} (r : result A) (f : A -> M B) w e :
  r = Raise e -> bind (lift r) f w = (Raise e, w).
Proof. intros ->. reflexivity. Qed.

Lemma lift_Ok_inv {A} (r : result A) w a w1 :
  lift r w = (Ok a, w1) -> r = Ok a /\ w1 = w.
Proof. unfold lift. intros H. injection H as -> ->. split; reflexivity. Qed.

Lemma ret_Ok_inv {A} (a b : A) w w1 :
  ret a w = (Ok b, w1) -> b = a /\ w1 = w.
Proof. unfold ret. intros H. injection H as -> ->. split; reflexivity. Qed.

Lemma bind_assoc {A B C} (m : M A) (f : A -> M B) (g : B -> M C) w :
  bind (bind m f) g w = bind m (fun a => bind (f a) g) w.
Proof.
  unfold bind. destruct (m w) as [[a|e] w1]; reflexivity.
Qed.

End MonadFacts.

(** Run the head of a computation: reassociate, read, write, return. *)
Ltac mstep :=
  first [ rewrite bind_assoc | rewrite bind_get | rewrite bind_ret_l
        | rewrite bind_modify | rewrite bind_print | rewrite bind_raise_l ];
  cbv beta.

Ltac msimpl := repeat mstep.

(** ** Conditioning *)

Section ConditioningFacts.
Context `{Ty : Types} `{Cons : !Consumer} `{FS : !Filesystem} `{Cu : !Cuda}
        `{Pl : !Platform} `{P : !PIL} `{N : !Networks}.

Lemma list_index_replicate {A} (n : nat) (x y : A) :
  list_index (replicate n x) 0 = Ok y -> y = x.
Proof.
  unfold list_index. destruct n as [|n]; cbn; [discriminate|].
  intros H. injection H as ->. reflexivity.
Qed.

Lemma list_index_replicate_pos {A} (n : Z) (x : A) :
  0 < n -> list_index (replicate (Z.to_nat n) x) 0 = Ok x.
Proof.
  intros Hn. unfold list_index.
  destruct (Z.to_nat n) as [|k] eqn:E; [lia|]. reflexivity.
Qed.

Lemma list_index_replicate_S {A} (k : nat) (x : A) :
  list_index (replicate (S k) x) 0 = Ok x.
Proof. reflexivity. Qed.

(** Blending on a missing unconditional tensor raises. *)
Lemma blend_None cs subprompts weights :
  exists e, blend cs None subprompts weights = Raise e
            /\ exn_cls e = TypeError.
Proof. eexists. split; reflexivity. Qed.

Lemma conditioning_of_guidance_one cs req subprompts weights :
  Float.eqb (guidance_scale req) Float.one = true ->
  split_weighted_subprompts (prompt req) = (subprompts, weights) ->
  (1 < length subprompts)%nat ->
  exists e, conditioning_of cs req = Raise e.
Proof.
  intros Hg Hsplit Hlen. unfold conditioning_of. rewrite Hg. cbn [negb].
  destruct (list_index _ 0) as [p0|e] eqn:Ep; [|eexists; reflexivity].
  apply list_index_replicate in Ep. subst p0.
  cbn [rbind]. rewrite Hsplit.
  replace (1 <? Z.of_nat (length subprompts)) with true
    by (symmetry; apply Z.ltb_lt; lia).
  eexists. reflexivity.
Qed.

(** C9.  With a guidance scale of 1.0 the unconditional tensor is
    [None], so a prompt with more than one sub-prompt cannot be
    conditioned: blending starts from [zeros_like(uc)], which raises a
    [TypeError].  The conditioning step fails in every worker state; on
    a batch that is not empty the error is the [TypeError].  Conversely,
    when conditioning returns, the prompt had at most one sub-prompt,
    the result is the plain conditioning of the prompts, and there is no
    unconditional tensor. *)
Theorem guidance_one_needs_single_subprompt
        (req : Request) (subprompts : list string)
        (weights : list spec_float) :
  Float.eqb (guidance_scale req) Float.one = true ->
  split_weighted_subprompts (prompt req) = (subprompts, weights) ->
  ((1 < length subprompts)%nat ->
   (forall w, exists e w', conditioning req w = (Raise e, w'))
   /\ (forall cs, 0 < num_outputs req ->
         exists e, conditioning_of cs req = Raise e
                   /\ exn_cls e = TypeError))
  /\ (forall cs c uc,
        conditioning_of cs req = Ok (c, uc) ->
        (length subprompts <= 1)%nat
        /\ uc = None
        /\ c = get_learned_conditioning cs
                 (replicate (Z.to_nat (num_outputs req)) (prompt req))).
Proof.
  intros Hg Hsplit. split.
  - intros Hlen. split.
    + intros w. unfold conditioning. rewrite bind_get.
      destruct (reduced_memory (td w)) eqn:Ered.
      * unfold modelCS_to at 1. rewrite bind_assoc, bind_get.
        destruct (modelCS (td w)) as [cs|] eqn:Ecs.
        -- rewrite bind_modify, bind_get.
           cbn [with_td td modelCS set_modelCS].
           destruct (conditioning_of_guidance_one (stage_to (td_device (td w)) cs)
                       req subprompts weights Hg Hsplit Hlen) as [e He].
           rewrite (bind_lift_raise _ _ _ e He). eauto.
        -- eexists _, _. reflexivity.
      * rewrite bind_ret_l, bind_get.
        destruct (modelCS (td w)) as [cs|] eqn:Ecs.
        -- destruct (conditioning_of_guidance_one cs req subprompts weights
                       Hg Hsplit Hlen) as [e He].
           rewrite (bind_lift_raise _ _ _ e He). eauto.
        -- eexists _, _. reflexivity.
    + intros cs Hn. unfold conditioning_of. rewrite Hg. cbn [negb].
      rewrite (list_index_replicate_pos _ _ Hn). cbn [rbind].
      rewrite Hsplit.
      replace (1 <? Z.of_nat (length subprompts)) with true
        by (symmetry; apply Z.ltb_lt; lia).
      eexists. split; reflexivity.
  - intros cs c uc. unfold conditioning_of. rewrite Hg. cbn [negb].
    destruct (list_index _ 0) as [p0|e] eqn:Ep; [|discriminate].
    apply list_index_replicate in Ep. subst p0.
    cbn [rbind]. rewrite Hsplit.
    destruct (1 <? Z.of_nat (length subprompts)) eqn:El.
    + discriminate.
    + cbn [rbind]. intros H. injection H as <- <-.
      apply Z.ltb_ge in El. repeat split. lia.
Qed.

(** *** Weighted sub-prompts *)

Lemma rbind_assoc {A B C} (r : result A) (f : A -> result B)
      (g : B -> result C) :
  rbind (rbind r f) g = rbind r (fun a => rbind (f a) g).
Proof. destruct r; reflexivity. Qed.

Lemma blend_step_weight_at cs subprompts weights i c :
  blend_step cs subprompts weights (Float.sum weights) i c =
  do weight <- weight_at weights i;
  do sub <- list_index subprompts i;
  Ok (torch_add c (get_learned_conditioning1 cs sub) weight).
Proof.
  unfold blend_step, weight_at. rewrite rbind_assoc. reflexivity.
Qed.

Lemma weight_at_normalized ws ws' i :
  normalized ws = normalized ws' -> weight_at ws i = weight_at ws' i.
Proof.
  intros H. unfold weight_at, list_index.
  assert (E : normalized ws !! Z.to_nat i = normalized ws' !! Z.to_nat i)
    by (rewrite H; reflexivity).
  unfold normalized in E. rewrite !list_lookup_fmap in E.
  destruct (ws !! Z.to_nat i), (ws' !! Z.to_nat i);
    cbn in E |- *; congruence.
Qed.

Lemma blend_loop_normalized cs subprompts ws ws' idx :
  normalized ws = normalized ws' ->
  forall c,
    blend_loop cs subprompts ws (Float.sum ws) idx c =
    blend_loop cs subprompts ws' (Float.sum ws') idx c.
Proof.
  intros H. induction idx as [|i idx IH]; intros c; [reflexivity|].
  cbn [blend_loop]. rewrite !blend_step_weight_at.
  rewrite (weight_at_normalized ws ws' i H).
  destruct (weight_at ws' i) as [w|e]; [|reflexivity].
  cbn [rbind]. destruct (list_index subprompts i) as [s|e]; [|reflexivity].
  cbn [rbind]. apply IH.
Qed.

Lemma blend_normalized cs uc subprompts ws ws' :
  normalized ws = normalized ws' ->
  blend cs uc subprompts ws = blend cs uc subprompts ws'.
Proof.
  intros H. unfold blend.
  destruct (zeros_like_opt uc) as [c|e]; [|reflexivity].
  cbn [rbind]. apply blend_loop_normalized, H.
Qed.

(** [2/(2+2)] and [1/(1+1)] are both exactly [0.5]. *)
Lemma normalized_2_2 :
  normalized [Float.two; Float.two] = normalized [Float.one; Float.one].
Proof. vm_compute. reflexivity. Qed.


End ConditioningFacts.

Lemma guidance_one_needs_single_subprompt_witness :
  let req := Demo.with_guidance Float.one Demo.blend_request_2_2 in
  Float.eqb (guidance_scale req) Float.one = true
  /\ @split_weighted_subprompts _ Demo.demo_networks (prompt req)
     = (["cat"; "dog"], [Float.two; Float.two])
  /\ exists e, @conditioning_of _ Demo.demo_networks Demo.a_stage req = Raise e
               /\ exn_cls e = TypeError.
Proof.
  intros req. split; [reflexivity|]. split; [reflexivity|].
  refine (proj2 (proj1 (@guidance_one_needs_single_subprompt
                          _ Demo.demo_networks req
                          ["cat"; "dog"] [Float.two; Float.two]
                          eq_refl eq_refl) _) Demo.a_stage _).
  - cbn. lia.
  - reflexivity.
Defined.


(** ** The partial step count of image-to-image *)

Section TEncFacts.
Context `{Ty : Types} `{Cons : !Consumer} `{FS : !Filesystem} `{Cu : !Cuda}
        `{Pl : !Platform} `{P : !PIL} `{N : !Networks}.

Lemma compute_t_enc_floor req :
  0 <= num_inference_steps req ->
  Float.leb Float.zero (prompt_strength req) = true ->
  Float.leb (prompt_strength req) Float.one = true ->
  compute_t_enc req =
  do product <- Float.mul_int (prompt_strength req) (num_inference_steps req);
  Float.floor product.
Proof.
  intros Hn H0 H1. unfold compute_t_enc. rewrite H0, H1. cbn [andb].
  unfold Float.mul_int, Float.of_int.
  pose proof (FloatFacts.make_not_negative (num_inference_steps req) 0 Hn) as Hf.
  destruct (Float.make (num_inference_steps req) 0) as [s|s| |s m e] eqn:E;
    cbn [rbind]; try reflexivity;
    apply FloatFacts.to_int_floor, FloatFacts.mul_not_negative;
    auto using FloatFacts.leb_zero_not_negative.
Qed.

Lemma compute_t_enc_zero req b :
  0 <= num_inference_steps req <= 2 ^ 53 ->
  prompt_strength req = S754_zero b ->
  compute_t_enc req = Ok 0.
Proof.
  intros Hn Hs. unfold compute_t_enc. rewrite Hs.
  replace (Float.leb Float.zero (S754_zero b) && Float.leb (S754_zero b) Float.one)
    with true by (destruct b; reflexivity).
  destruct (FloatFacts.of_int_small _ Hn) as (f & Hf & _ & Hz).
  unfold Float.mul_int. rewrite Hf. cbn [rbind]. apply Hz.
Qed.

Lemma compute_t_enc_one req :
  0 <= num_inference_steps req <= 2 ^ 53 ->
  prompt_strength req = Float.one ->
  compute_t_enc req = Ok (num_inference_steps req).
Proof.
  intros Hn Hs. unfold compute_t_enc. rewrite Hs.
  change (Float.leb Float.zero Float.one && Float.leb Float.one Float.one)
    with true.
  destruct (FloatFacts.of_int_small _ Hn) as (f & Hf & H1 & _).
  unfold Float.mul_int. rewrite Hf. cbn [rbind]. apply H1.
Qed.

(** The setup of image-to-image carries the step count computed from
    the request. *)
Lemma prepare_img2img_t_enc req src w setup w' :
  prepare_img2img req src w = (Ok setup, w') ->
  compute_t_enc req = Ok (t_enc setup).
Proof.
  unfold prepare_img2img. intros H.
  apply bind_Ok_inv in H as (img & w1 & _ & H).
  rewrite bind_get in H.
  apply bind_Ok_inv in H as ([] & w2 & _ & H).
  rewrite bind_get in H.
  destruct (modelFS (td w2)) as [fs|]; [|discriminate].
  apply bind_Ok_inv in H as (mk & w3 & _ & H).
  apply bind_Ok_inv in H as ([] & w4 & _ & H).
  apply bind_Ok_inv in H as (t & w5 & Ht & H).
  apply lift_Ok_inv in Ht as [Ht _].
  apply ret_Ok_inv in H as [-> _]. exact Ht.
Qed.

(** [_img2img] hands the step count of the setup to the sampler. *)
Lemma _img2img_steps req setup c uc w m :
  model (td w) = Some m ->
  exists args,
    sa_S args = t_enc setup
    /\ _img2img req setup c uc w =
       run_sampler req (t_enc setup) (sample m args) w.
Proof.
  intros Hm. unfold _img2img. rewrite bind_get, Hm.
  exists (img2img_args req setup c uc m). split; reflexivity.
Qed.


End TEncFacts.



(** ** Device manager *)

Section DeviceFacts.
Context `{Ty : Types} `{Cu : !Cuda} `{Pl : !Platform}.

(** What [device_select] does on an accelerator that passes the check. *)
Lemma device_select_ok dev w :
  device_eqb dev cpu = false ->
  cuda_is_available = true ->
  device_would_fail dev = Ok None ->
  exists w', device_select dev w = (Ok true, w')
             /\ td_device (td w') = dev.
Proof.
  intros Hcpu Hav Hfail. unfold device_select.
  rewrite Hcpu, Hav. cbn [negb].
  rewrite (bind_lift_ok _ _ _ _ Hfail). cbn [Str.opt_truthy].
  cbv zeta. rewrite !bind_modify.
  destruct (is_16xx (cuda_get_device_name dev)).
  - rewrite bind_modify. eexists. split; reflexivity.
  - eexists. split; reflexivity.
Qed.

(** With ['auto'] and more than one accelerator, the device that is
    activated is the last one probed, whichever has the most free memory,
    as soon as the best one is not device 0 and the last one passes the
    check. *)
Lemma device_init_auto_activates_last w max_mem_free best_device :
  cuda_is_available = true ->
  1 < cuda_device_count ->
  probe_all (range cuda_device_count) (Float.zero, None)
    = Ok (max_mem_free, Some best_device) ->
  best_device <> 0 ->
  device_would_fail (DInt (cuda_device_count - 1)) = Ok None ->
  exists w', device_init "auto" w = (Ok tt, w')
             /\ td_device (td w') = DInt (cuda_device_count - 1).
Proof.
  intros Hav Hcount Hprobe Hbest Hfail. unfold device_init.
  rewrite bind_modify.
  change (String.eqb (Str.lower "auto") "cpu") with false. cbv iota.
  rewrite Hav. cbn [negb]. cbv zeta.
  replace (cuda_device_count <=? 1) with false
    by (symmetry; apply Z.leb_gt; exact Hcount).
  cbn [andb]. change (String.eqb "auto" "auto") with true. cbv iota.
  rewrite (bind_lift_ok _ _ _ _ Hprobe). cbn [snd best_truthy].
  replace (best_device =? 0) with false
    by (symmetry; apply Z.eqb_neq; exact Hbest).
  cbn [negb].
  destruct (device_select_ok (DInt (cuda_device_count - 1))
              (with_td init_thread_data w) eq_refl Hav Hfail)
    as (w' & Hsel & Hdev).
  rewrite (bind_ok _ _ _ _ _ Hsel). exists w'. split; [reflexivity|exact Hdev].
Qed.

End DeviceFacts.

(** C5, the code at a failing input.  Three accelerators have 2, 10 and
    5 GB free.  The probing loop finds device 1, the one with the most
    free memory, but the device that is selected and recorded is device
    2, the last one probed. *)
Theorem device_init_auto_selects_last_probed :
  (exists max_mem_free,
      @probe_all Demo.three_gpus (range 3) (Float.zero, None)
      = Ok (max_mem_free, Some 1))
  /\ exists w',
      @device_init Demo.demo_types Demo.three_gpus Demo.demo_platform
        "auto" Demo.start = (Ok tt, w')
      /\ td_device (td w') = DInt 2.
Proof.
  split.
  - eexists. vm_compute. reflexivity.
  - eexists. split; vm_compute; reflexivity.
Qed.

(** ** Filter models *)

Section FilterFacts.
Context `{Ty : Types} `{N : !Networks}.

(** The face-restoration model is refused on any device that is not the
    first accelerator. *)
Lemma load_model_gfpgan_rejects w :
  is_first_cuda_device (td_device (td w)) = false ->
  exists e, load_model_gfpgan w = (Raise e, w).
Proof.
  intros Hdev. unfold load_model_gfpgan. rewrite bind_get.
  destruct (gfpgan_file (td w)) as [file|]; [|eexists; reflexivity].
  rewrite Hdev. eexists. reflexivity.
Qed.

Lemma load_model_gfpgan_first w file :
  gfpgan_file (td w) = Some file ->
  is_first_cuda_device (td_device (td w)) = true ->
  load_model_gfpgan w =
  (Ok tt, with_td (set_model_gfpgan (Some
     {| gfp_model_path := file +:+ ".pth";
        gfp_device := td_device (td w) |})) w).
Proof.
  intros Hfile Hdev. unfold load_model_gfpgan.
  rewrite bind_get, Hfile, Hdev. reflexivity.
Qed.

(** The upscaler is loaded on whatever device the worker is bound to;
    there is no device check on this path. *)
Lemma load_model_real_esrgan_any_device w file net :
  real_esrgan_file (td w) = Some file ->
  RealESRGAN_models !! file = Some net ->
  load_model_real_esrgan w =
  (Ok tt, with_td (set_model_real_esrgan (Some
     {| esr_model_path := file +:+ ".pth";
        esr_model := net;
        esr_model_name := file;
        esr_device := td_device (td w);
        esr_half := if device_eqb (td_device (td w)) cpu then false
                    else model_is_half (td w) |})) w).
Proof.
  intros Hfile Hnet. unfold load_model_real_esrgan.
  rewrite bind_get, Hfile, Hnet. reflexivity.
Qed.

(** A loaded filter whose identity is the one asked for is used as it is. *)
Lemma apply_filters_gfpgan_hit image_data model_path w m :
  model_gfpgan (td w) = Some m ->
  differs_from model_path (gfpgan_file (td w)) = false ->
  apply_filters "gfpgan" image_data model_path w =
  (Ok (reverse_channels (gfpgan_enhance m (reverse_channels image_data))), w).
Proof.
  intros Hm Hsame. unfold apply_filters.
  change (String.eqb "gfpgan" "gfpgan") with true.
  change (String.eqb "gfpgan" "real_esrgan") with false. cbv iota.
  msimpl. rewrite Hsame, Hm. msimpl. rewrite Hm. reflexivity.
Qed.

Lemma apply_filters_real_esrgan_hit image_data model_path w m :
  model_real_esrgan (td w) = Some m ->
  differs_from model_path (real_esrgan_file (td w)) = false ->
  apply_filters "real_esrgan" image_data model_path w =
  (Ok (reverse_channels (real_esrgan_enhance m (reverse_channels image_data))), w).
Proof.
  intros Hm Hsame. unfold apply_filters.
  change (String.eqb "real_esrgan" "gfpgan") with false.
  change (String.eqb "real_esrgan" "real_esrgan") with true. cbv iota.
  msimpl. rewrite Hsame, Hm. msimpl. rewrite Hm. reflexivity.
Qed.

(** An identity that differs from the current one is recorded and the
    model is loaded anew. *)
Lemma apply_filters_gfpgan_miss image_data model_path w :
  differs_from model_path (gfpgan_file (td w)) = true ->
  exists k,
    apply_filters "gfpgan" image_data model_path w =
    bind load_model_gfpgan k (with_td (set_gfpgan_file model_path) w).
Proof.
  intros Hdiff. unfold apply_filters.
  change (String.eqb "gfpgan" "gfpgan") with true.
  change (String.eqb "gfpgan" "real_esrgan") with false. cbv iota.
  msimpl. rewrite Hdiff. msimpl.
  eexists. reflexivity.
Qed.

Lemma apply_filters_real_esrgan_miss image_data model_path w :
  differs_from model_path (real_esrgan_file (td w)) = true ->
  exists k,
    apply_filters "real_esrgan" image_data model_path w =
    bind load_model_real_esrgan k
         (with_td (set_real_esrgan_file model_path) w).
Proof.
  intros Hdiff. unfold apply_filters.
  change (String.eqb "real_esrgan" "gfpgan") with false.
  change (String.eqb "real_esrgan" "real_esrgan") with true. cbv iota.
  msimpl. rewrite Hdiff. msimpl.
  eexists. reflexivity.
Qed.


End FilterFacts.



(** ** Failure handling of [mk_img] *)

Section FailureFacts.
Context `{Ty : Types} `{Cons : !Consumer} `{FS : !Filesystem} `{Cu : !Cuda}
        `{Pl : !Platform} `{P : !PIL} `{N : !Networks}.

Lemma mk_img_ok req w w1 :
  do_mk_img req w = (Ok tt, w1) -> mk_img req w = (Ok tt, w1).
Proof. intros H. unfold mk_img, try_except. rewrite H. reflexivity. Qed.

Lemma yield_spec o w :
  yield o w =
  (Ok tt,
   {| td := if sets_stop (length (yielded w))
            then set_stop_processing true (td w) else td w;
      yielded := yielded w ++ [o];
      console := console w |}).
Proof. reflexivity. Qed.

(** With the three networks bound, or without the reduced-memory
    policy, a failure of the pipeline is reported: the networks are moved
    to host memory under the policy and everything is unloaded without
    it, and the failure record with the text of the exception is
    yielded. *)
Lemma mk_img_failure_reported req w e w1 :
  do_mk_img req w = (Raise e, w1) ->
  (reduced_memory (td w1) = true ->
   is_Some (model (td w1)) /\ is_Some (modelCS (td w1))
   /\ is_Some (modelFS (td w1))) ->
  exists w2,
    mk_img req w = (Ok tt, w2)
    /\ yielded w2 = yielded w1 ++ [Failed (exn_str e)]
    /\ (reduced_memory (td w1) = true ->
        (stage_dev <$> modelFS (td w2)) = Some cpu
        /\ (stage_dev <$> modelCS (td w2)) = Some cpu
        /\ (model1_dev <$> model (td w2)) = Some cpu
        /\ (model2_dev <$> model (td w2)) = Some cpu)
    /\ (reduced_memory (td w1) = false ->
        model (td w2) = None /\ modelCS (td w2) = None
        /\ modelFS (td w2) = None /\ model_gfpgan (td w2) = None
        /\ model_real_esrgan (td w2) = None).
Proof.
  intros Hrun Hbound. unfold mk_img, try_except. rewrite Hrun.
  rewrite bind_get.
  destruct (reduced_memory (td w1)) eqn:Ered.
  - destruct (Hbound eq_refl) as ([m Hm] & [cs Hcs] & [fs Hfs]).
    unfold modelFS_to, modelCS_to, model_model1_to, model_model2_to.
    msimpl. rewrite Hfs. msimpl.
    cbn [with_td td modelCS set_modelFS]. rewrite Hcs. msimpl.
    cbn [with_td td model set_modelCS set_modelFS]. rewrite Hm. msimpl.
    cbn [with_td td model set_model]. msimpl.
    rewrite yield_spec. eexists. split; [reflexivity|].
    split; [reflexivity|]. split; [|discriminate].
    intros _. destruct (sets_stop _); cbn; repeat split.
  - unfold unload_models, unload_filters. msimpl.
    destruct (model (td w1)).
    + unfold print at 1. unfold bind at 1. cbv beta iota. msimpl.
      rewrite yield_spec. eexists. split; [reflexivity|].
      split; [reflexivity|]. split; [discriminate|].
      intros _. destruct (sets_stop _); cbn; repeat split.
    + msimpl. rewrite yield_spec. eexists. split; [reflexivity|].
      split; [reflexivity|]. split; [discriminate|].
      intros _. destruct (sets_stop _); cbn; repeat split.
Qed.

(** A request for a checkpoint that is not on disk, on a worker that has
    no model yet and runs under the reduced-memory policy: the handler
    itself raises, and nothing is yielded. *)
Lemma mk_img_missing_checkpoint_unloaded req w :
  path_exists (use_stable_diffusion_model req +:+ ".ckpt") = false ->
  reduced_memory (td w) = true ->
  modelFS (td w) = None ->
  exists w',
    mk_img req w = (Raise (none_has_no "to"), w')
    /\ yielded w' = yielded w.
Proof.
  intros Hmissing Hred Hfs.
  unfold mk_img, try_except, do_mk_img, start_request.
  msimpl. rewrite Hmissing. cbn [negb].
  unfold raise at 1. unfold bind at 1. cbv beta iota.
  msimpl. cbn [with_td td reduced_memory set_temp_images set_stop_processing].
  rewrite Hred. unfold modelFS_to. msimpl.
  cbn [with_td td modelFS set_temp_images set_stop_processing].
  rewrite Hfs. eexists. split; reflexivity.
Qed.

End FailureFacts.

(** C6, the code at a failing input.  A worker that has just been
    initialised has no model and runs under the reduced-memory policy;
    it is asked for a checkpoint that is not on disk.  [do_mk_img] raises
    [FileNotFoundError]; the handler of [mk_img] then calls
    [thread_data.modelFS.to('cpu')] on [None] and raises
    [AttributeError]: no failure record is yielded. *)
Theorem mk_img_fresh_worker_missing_checkpoint :
  let req := Demo.with_model "models/missing" Demo.demo_request in
  exists w0 e w1 w2,
    @device_init Demo.demo_types Demo.three_gpus Demo.demo_platform
      "auto" Demo.start = (Ok tt, w0)
    /\ @do_mk_img Demo.demo_types (Demo.demo_consumer None) Demo.demo_fs
         Demo.three_gpus Demo.demo_platform Demo.demo_pil Demo.demo_networks
         req w0 = (Raise e, w1)
    /\ exn_cls e = FileNotFoundError
    /\ @mk_img Demo.demo_types (Demo.demo_consumer None) Demo.demo_fs
         Demo.three_gpus Demo.demo_platform Demo.demo_pil Demo.demo_networks
         req w0 = (Raise (none_has_no "to"), w2)
    /\ yielded w2 = [].
Proof.
  intros req. eexists _, _, _, _.
  split; [vm_compute; reflexivity|].
  split; [vm_compute; reflexivity|].
  split; [reflexivity|].
  split; [vm_compute; reflexivity|]. reflexivity.
Qed.

(** ** What a computation leaves untouched *)

Section Frames.
Context `{Ty : Types} `{Cons : !Consumer}.
Context (I : world -> Prop).

Lemma preserves_ret {A} (a : A) : preserves I (ret a).
Proof. intros w H. exact H. Qed.

Lemma preserves_raise {A} (e : exn) : preserves I (@raise _ A e).
Proof. intros w H. exact H. Qed.

Lemma preserves_lift {A} (r : result A) : preserves I (lift r).
Proof. intros w H. exact H. Qed.

Lemma preserves_get : preserves I get.
Proof. intros w H. exact H. Qed.

Lemma preserves_bind {A B} (m : M A) (f : A -> M B) :
  preserves I m -> (forall a, preserves I (f a)) -> preserves I (bind m f).
Proof.
  intros Hm Hf w Hw. unfold bind. specialize (Hm w Hw).
  destruct (m w) as [[a|e] w1]; cbn [snd] in *.
  - apply Hf, Hm.
  - exact Hm.
Qed.

Lemma preserves_try_except {A} (m : M A) (h : exn -> M A) :
  preserves I m -> (forall e, preserves I (h e)) ->
  preserves I (try_except m h).
Proof.
  intros Hm Hh w Hw. unfold try_except. specialize (Hm w Hw).
  destruct (m w) as [[a|e] w1]; cbn [snd] in *.
  - exact Hm.
  - apply Hh, Hm.
Qed.

Lemma preserves_mapM {A B} (f : A -> M B) (l : list A) :
  (forall a, preserves I (f a)) -> preserves I (mapM f l).
Proof.
  intros Hf. induction l as [|a l IH]; cbn [mapM].
  - apply preserves_ret.
  - apply preserves_bind; [apply Hf|]. intros b.
    apply preserves_bind; [exact IH|]. intros bs. apply preserves_ret.
Qed.

Lemma preserves_modify (f : thread_data -> thread_data) :
  (forall w, I w -> I (with_td f w)) -> preserves I (modify f).
Proof. intros H w Hw. apply H, Hw. Qed.

Lemma preserves_run {A} (m : M A) w r w' :
  preserves I m -> m w = (r, w') -> I w -> I w'.
Proof. intros Hm Hrun Hw. specialize (Hm w Hw). rewrite Hrun in Hm. exact Hm. Qed.

End Frames.

(** One step towards a [preserves] goal: follow the structure of the
    computation, splitting on what it branches on. *)
Ltac preserves_step :=
  lazymatch goal with
  | |- preserves _ (bind _ _) => apply preserves_bind; [|intros ?]
  | |- preserves _ (ret _) => apply preserves_ret
  | |- preserves _ (raise _) => apply preserves_raise
  | |- preserves _ (lift _) => apply preserves_lift
  | |- preserves _ get => apply preserves_get
  | |- preserves _ (try_except _ _) => apply preserves_try_except; [|intros ?]
  | |- preserves _ (mapM _ _) => apply preserves_mapM; intros ?
  | |- preserves _ (modify _) =>
      apply preserves_modify;
      let H := fresh in intros ? H; first [exact H | reflexivity]
  | |- preserves _ (if ?b then _ else _) => destruct b
  | |- preserves _ (match ?x with _ => _ end) => destruct x
  end.

Create HintDb frame discriminated.

Ltac preserves_auto :=
  repeat first [ preserves_step | solve [auto with frame] ].

(** *** Everything after the model cache step leaves the cache alone *)

Section CacheFrame.
Context `{Ty : Types} `{Cons : !Consumer} `{FS : !Filesystem} `{Cu : !Cuda}
        `{Pl : !Platform} `{P : !PIL} `{N : !Networks}.

Variable k : list log_line * option string * option string
             * device * string * bool * bool.

Lemma cache_yield o : preserves (cache_is k) (yield o).
Proof.
  intros w H. unfold yield. cbn [snd].
  destruct (sets_stop _); exact H.
Qed.
Hint Resolve cache_yield : frame.

Lemma cache_set_model m f :
  preserves (cache_is k)
    (match m with
     | None => raise (none_has_no f)
     | Some m => modify (set_model (Some m))
     end).
Proof.
  destruct m as [m|]; [|apply preserves_raise].
  apply preserves_modify. intros w [Hk _]. split; [exact Hk|reflexivity].
Qed.

Lemma cache_modelFS_to d : preserves (cache_is k) (modelFS_to d).
Proof. unfold modelFS_to. preserves_auto. Qed.
Hint Resolve cache_modelFS_to : frame.

Lemma cache_modelCS_to d : preserves (cache_is k) (modelCS_to d).
Proof. unfold modelCS_to. preserves_auto. Qed.
Hint Resolve cache_modelCS_to : frame.

Lemma cache_wait_model_move_to which d :
  preserves (cache_is k) (wait_model_move_to which d).
Proof. unfold wait_model_move_to. preserves_auto. Qed.
Hint Resolve cache_wait_model_move_to : frame.

Lemma cache_apply_turbo req : preserves (cache_is k) (apply_turbo req).
Proof.
  unfold apply_turbo. apply preserves_bind; [apply preserves_get|].
  intros t. destruct (negb _); [|apply preserves_ret].
  apply preserves_bind; [preserves_auto|]. intros _.
  destruct (model t) as [m|]; [|apply preserves_raise].
  apply preserves_modify. intros w [Hk _]. split; [exact Hk|reflexivity].
Qed.
Hint Resolve cache_apply_turbo : frame.

Lemma cache_prepare_img2img req src :
  preserves (cache_is k) (prepare_img2img req src).
Proof. unfold prepare_img2img. preserves_auto. Qed.
Hint Resolve cache_prepare_img2img : frame.

Lemma cache_conditioning req : preserves (cache_is k) (conditioning req).
Proof. unfold conditioning. preserves_auto. Qed.
Hint Resolve cache_conditioning : frame.

Lemma cache_before_sampling req :
  preserves (cache_is k) (before_sampling req).
Proof.
  unfold before_sampling, get_image_progress_generator. preserves_auto.
Qed.
Hint Resolve cache_before_sampling : frame.

Lemma cache_update_temp_img req x :
  preserves (cache_is k) (update_temp_img req x).
Proof. unfold update_temp_img. preserves_auto. Qed.
Hint Resolve cache_update_temp_img : frame.

Lemma cache_img_callback req total x i :
  preserves (cache_is k) (img_callback req total x i).
Proof. unfold img_callback. preserves_auto. Qed.
Hint Resolve cache_img_callback : frame.

Lemma cache_run_calls req total calls :
  preserves (cache_is k) (run_calls req total calls).
Proof.
  induction calls as [|[x i] calls IH]; cbn [run_calls]; preserves_auto.
Qed.
Hint Resolve cache_run_calls : frame.

Lemma cache_run_sampler req total run :
  preserves (cache_is k) (run_sampler req total run).
Proof. unfold run_sampler. preserves_auto. Qed.
Hint Resolve cache_run_sampler : frame.

Lemma cache_run_handler req setup c uc :
  preserves (cache_is k) (run_handler req setup c uc).
Proof. unfold run_handler, _txt2img, _img2img. preserves_auto. Qed.
Hint Resolve cache_run_handler : frame.

Lemma cache_load_model_gfpgan : preserves (cache_is k) load_model_gfpgan.
Proof. unfold load_model_gfpgan. preserves_auto. Qed.
Hint Resolve cache_load_model_gfpgan : frame.

Lemma cache_load_model_real_esrgan :
  preserves (cache_is k) load_model_real_esrgan.
Proof. unfold load_model_real_esrgan. preserves_auto. Qed.
Hint Resolve cache_load_model_real_esrgan : frame.

Lemma cache_apply_filters name a p :
  preserves (cache_is k) (apply_filters name a p).
Proof. unfold apply_filters. preserves_auto. Qed.
Hint Resolve cache_apply_filters : frame.

Lemma cache_unload_filters : preserves (cache_is k) unload_filters.
Proof. unfold unload_filters. preserves_auto. Qed.
Hint Resolve cache_unload_filters : frame.

Lemma cache_run_filters req a : preserves (cache_is k) (run_filters req a).
Proof.
  unfold run_filters. apply preserves_bind; [preserves_auto|].
  intros [a' applied]. preserves_auto.
Qed.
Hint Resolve cache_run_filters : frame.

Lemma cache_save_one req a i st :
  preserves (cache_is k) (save_one req a i st).
Proof.
  unfold save_one. destruct st as [images opt_seed].
  apply preserves_bind; [apply preserves_get|]. intros t.
  apply preserves_bind; [preserves_auto|]. intros images'.
  apply preserves_bind; [|intros ?; apply preserves_ret].
  destruct (_ && _); [|apply preserves_ret].
  apply preserves_bind; [apply cache_run_filters|].
  intros [a' applied]. preserves_auto.
Qed.
Hint Resolve cache_save_one : frame.

Lemma cache_save_all req img_data :
  forall i st, preserves (cache_is k) (save_all req img_data i st).
Proof.
  induction img_data as [|a rest IH]; intros i st; cbn [save_all];
    preserves_auto.
Qed.
Hint Resolve cache_save_all : frame.

Lemma cache_finish_batch req x :
  preserves (cache_is k) (finish_batch req x).
Proof.
  unfold finish_batch, decode_images.
  apply preserves_bind; [preserves_auto|]. intros img_data.
  apply preserves_bind; [apply preserves_get|]. intros t.
  apply preserves_bind; [preserves_auto|]. intros _.
  apply preserves_bind; [apply cache_save_all|]. intros [images s].
  preserves_auto.
Qed.
Hint Resolve cache_finish_batch : frame.

Lemma cache_sample_and_finish req setup c uc :
  preserves (cache_is k) (sample_and_finish req setup c uc).
Proof. unfold sample_and_finish. preserves_auto. Qed.
Hint Resolve cache_sample_and_finish : frame.

(** From the end of the model cache step to the end of the request. *)
Lemma cache_generate req :
  preserves (cache_is k)
    (bind (before_sampling req)
          (fun '(setup, c, uc) => sample_and_finish req setup c uc)).
Proof.
  apply preserves_bind; [apply cache_before_sampling|].
  intros [[setup c] uc]. apply cache_sample_and_finish.
Qed.

End CacheFrame.

(** ** Model cache *)

Section CacheFacts.
Context `{Ty : Types} `{Cons : !Consumer} `{FS : !Filesystem} `{Cu : !Cuda}
        `{Pl : !Platform} `{P : !PIL} `{N : !Networks}.

Lemma opt_str_eqb_refl a : opt_str_eqb a a = true.
Proof. destruct a as [s|]; [apply String.eqb_refl|reflexivity]. Qed.

Lemma opt_str_eqb_eq a b : opt_str_eqb a b = true -> a = b.
Proof.
  destruct a as [s|], b as [t|]; cbn; try discriminate; [|reflexivity].
  intros H. apply String.eqb_eq in H. congruence.
Qed.

Lemma truthy_nonempty s : s <> "" -> Str.truthy s = true.
Proof. destruct s; [congruence|reflexivity]. Qed.

Lemma reloads_app w l :
  length (List.filter is_loading (console w ++ l)) =
  (reloads w + length (List.filter is_loading l))%nat.
Proof. unfold reloads. rewrite List.filter_app, length_app. reflexivity. Qed.

(** A cache in line with the request is left alone: nothing is loaded
    and the world is the same. *)
Lemma ensure_models_hit req w :
  cache_fits req (td w) = true -> ensure_models req w = (Ok tt, w).
Proof.
  unfold cache_fits. intros H. apply andb_true_iff in H as [Hs Hp].
  apply negb_true_iff in Hs, Hp.
  unfold ensure_models. msimpl. rewrite Hs. msimpl. rewrite Hp. msimpl.
  reflexivity.
Qed.

(** Unloading and loading again, for a checkpoint that is on disk. *)
Lemma reload_spec w ckpt :
  ckpt_file (td w) = Some ckpt ->
  ckpt <> "" ->
  path_exists (ckpt +:+ ".ckpt") = true ->
  Str.truthy (precision (td w)) = true ->
  exists w',
    bind unload_models (fun _ => bind unload_filters (fun _ => load_model_ckpt)) w
    = (Ok tt, w')
    /\ reloads w' = S (reloads w)
    /\ bound (model (td w')) = true
    /\ ckpt_file (td w') = Some ckpt
    /\ vae_file (td w') = vae_file (td w)
    /\ td_device (td w') = td_device (td w)
    /\ force_full_precision (td w') = force_full_precision (td w)
    /\ precision (td w') =
       (if device_eqb (td_device (td w)) cpu then "full"
        else precision (td w))
    /\ model_is_half (td w') =
       (negb (device_eqb (td_device (td w)) cpu)
        && String.eqb (precision (td w)) "autocast").
Proof.
  intros Hckpt Hne Hex Hprec.
  pose proof (truthy_nonempty ckpt Hne) as Htruthy.
  unfold unload_models, unload_filters, load_model_ckpt. msimpl.
  destruct (model (td w)) as [m|]; msimpl.
  all: cbn [with_td td ckpt_file set_model set_modelCS set_modelFS
            set_model_gfpgan set_model_real_esrgan].
  all: rewrite Hckpt, Htruthy; cbn [negb].
  all: rewrite Hex; cbn [negb].
  all: cbn [with_td td precision set_model set_modelCS set_modelFS
            set_model_gfpgan set_model_real_esrgan].
  all: rewrite Hprec; cbn [negb]; msimpl.
  all: cbn [with_td td unet_bs td_device set_model set_modelCS set_modelFS
            set_model_gfpgan set_model_real_esrgan].
  all: destruct (unet_bs (td w) =? 0); msimpl.
  all: cbn [with_td td unet_bs td_device set_unet_bs set_model set_modelCS
            set_modelFS set_model_gfpgan set_model_real_esrgan].
  all: destruct (device_eqb (td_device (td w)) cpu) eqn:Ecpu; msimpl.
  all: eexists; split; [reflexivity|].
  all: split; [unfold reloads; cbn;
               rewrite ?List.filter_app, ?length_app; cbn; lia|].
  all: cbn; rewrite ?Ecpu, ?Hckpt; repeat split; reflexivity.
Qed.

Lemma cache_fits_intro req t ckpt :
  bound (model t) = true ->
  ckpt_file t = Some ckpt ->
  ckpt = use_stable_diffusion_model req ->
  vae_file t = use_vae_model req ->
  precision_mismatch req t = false ->
  cache_fits req t = true.
Proof.
  intros Hm Hc -> Hv Hp. unfold cache_fits, model_is_stale.
  rewrite Hm, Hc, Hv, Hp. cbn [opt_str_eqb].
  rewrite String.eqb_refl, opt_str_eqb_refl. reflexivity.
Qed.

Lemma not_stale_inv req t :
  model_is_stale req t = false ->
  bound (model t) = true
  /\ ckpt_file t = Some (use_stable_diffusion_model req)
  /\ vae_file t = use_vae_model req.
Proof.
  unfold model_is_stale. intros H.
  apply orb_false_iff in H as [H Hv]. apply orb_false_iff in H as [Hm Hc].
  apply negb_false_iff in Hm, Hc, Hv.
  repeat split; [exact Hm| |]; apply opt_str_eqb_eq; assumption.
Qed.

(** After a reload the precision asked for and the precision of the
    weights agree. *)
Lemma precision_settles req t t' :
  td_device t' = td_device t ->
  force_full_precision t' = force_full_precision t ->
  precision t' = (if device_eqb (td_device t) cpu then "full" else precision t) ->
  model_is_half t' =
    (negb (device_eqb (td_device t) cpu) && String.eqb (precision t) "autocast") ->
  (precision t = (if use_full_precision req then "full" else "autocast")
   \/ precision_mismatch req t = false) ->
  precision_mismatch req t' = false.
Proof.
  intros Hd Hf Hp Hh Hcase. unfold precision_mismatch in *.
  rewrite Hd, Hf, Hp, Hh.
  destruct (device_eqb (td_device t) cpu); [reflexivity|]. cbn [negb andb] in *.
  destruct Hcase as [Hcase|Hcase].
  - rewrite Hcase. destruct (use_full_precision req); reflexivity.
  - destruct (String.eqb (precision t) "autocast"),
             (String.eqb (precision t) "full"),
             (use_full_precision req), (model_is_half t),
             (force_full_precision t); cbn in *; congruence.
Qed.

(** A cache that is not in line with the request is reloaded once, and
    is in line afterwards. *)
Lemma ensure_models_miss req w :
  cache_fits req (td w) = false ->
  Str.truthy (precision (td w)) = true ->
  use_stable_diffusion_model req <> "" ->
  path_exists (use_stable_diffusion_model req +:+ ".ckpt") = true ->
  exists w',
    ensure_models req w = (Ok tt, w')
    /\ reloads w' = S (reloads w)
    /\ cache_fits req (td w') = true
    /\ Str.truthy (precision (td w')) = true.
Proof.
  intros Hfits Hprec Hne Hex. unfold ensure_models. msimpl.
  assert (Hlit : Str.truthy (if use_full_precision req then "full"
                             else "autocast") = true)
    by (destruct (use_full_precision req); reflexivity).
  assert (Hsettled : forall t' (t : thread_data),
             precision t' = (if device_eqb (td_device t) cpu then "full"
                             else precision t) ->
             Str.truthy (precision t) = true ->
             Str.truthy (precision t') = true).
  { intros t' t -> Ht. destruct (device_eqb _ _); [reflexivity|exact Ht]. }
  destruct (model_is_stale req (td w)) eqn:Es; msimpl.
  - set (wa := with_td (set_vae_file (use_vae_model req))
                 (with_td (set_ckpt_file (Some (use_stable_diffusion_model req))) w)).
    change (precision_mismatch req (td wa))
      with (precision_mismatch req (td w)).
    destruct (precision_mismatch req (td w)) eqn:Ep; msimpl; cbn [orb].
    + set (wb := with_td (set_precision _) wa).
      destruct (reload_spec wb (use_stable_diffusion_model req)
                  eq_refl Hne Hex Hlit)
        as (w' & Hrun & Hcount & Hm & Hc & Hv & Hd & Hf & Hp & Hh).
      rewrite Hrun.
      exists w'. split; [reflexivity|]. split; [exact Hcount|]. split.
      * apply (cache_fits_intro req (td w') _ Hm Hc eq_refl Hv).
        apply (precision_settles req (td wb) (td w') Hd Hf Hp Hh).
        left. reflexivity.
      * apply (Hsettled _ (td wb) Hp). exact Hlit.
    + destruct (reload_spec wa (use_stable_diffusion_model req)
                  eq_refl Hne Hex Hprec)
        as (w' & Hrun & Hcount & Hm & Hc & Hv & Hd & Hf & Hp & Hh).
      rewrite Hrun.
      exists w'. split; [reflexivity|]. split; [exact Hcount|]. split.
      * apply (cache_fits_intro req (td w') _ Hm Hc eq_refl Hv).
        apply (precision_settles req (td wa) (td w') Hd Hf Hp Hh).
        right. exact Ep.
      * apply (Hsettled _ (td wa) Hp). exact Hprec.
  - destruct (not_stale_inv _ _ Es) as (Hbound & Hckpt & Hvae).
    assert (Ep : precision_mismatch req (td w) = true).
    { unfold cache_fits in Hfits. rewrite Es in Hfits. cbn in Hfits.
      apply negb_false_iff in Hfits. exact Hfits. }
    rewrite Ep. msimpl. cbn [orb].
    set (wb := with_td (set_precision _) w).
    destruct (reload_spec wb (use_stable_diffusion_model req)
                Hckpt Hne Hex Hlit)
      as (w' & Hrun & Hcount & Hm & Hc & Hv & Hd & Hf & Hp & Hh).
    rewrite Hrun.
    exists w'. split; [reflexivity|]. split; [exact Hcount|]. split.
    + apply (cache_fits_intro req (td w') _ Hm Hc eq_refl).
      * rewrite Hv. exact Hvae.
      * apply (precision_settles req (td wb) (td w') Hd Hf Hp Hh).
        left. reflexivity.
    + apply (Hsettled _ (td wb) Hp). exact Hlit.
Qed.

Lemma start_request_on_disk req w :
  path_exists (use_stable_diffusion_model req +:+ ".ckpt") = true ->
  start_request req w = ensure_models req (reset w).
Proof.
  intros Hex. unfold start_request. msimpl. rewrite Hex. cbn [negb].
  msimpl. reflexivity.
Qed.

Lemma do_mk_img_from req w wa :
  start_request req w = (Ok tt, wa) ->
  do_mk_img req w =
  bind (before_sampling req)
       (fun '(setup, c, uc) => sample_and_finish req setup c uc) wa.
Proof.
  intros H. unfold do_mk_img. rewrite (bind_ok _ _ _ _ _ H). reflexivity.
Qed.

Lemma cache_fits_key r w w' :
  cache_key w' = cache_key w ->
  bound (model (td w')) = bound (model (td w)) ->
  cache_fits r (td w') = cache_fits r (td w).
Proof.
  unfold cache_key. intros Hk Hb.
  injection Hk as _ Hc Hv Hd Hp Hh Hf.
  unfold cache_fits, model_is_stale, precision_mismatch.
  rewrite Hb, Hc, Hv, Hd, Hp, Hh, Hf. reflexivity.
Qed.

Lemma cache_fits_same_request r r' t :
  use_stable_diffusion_model r' = use_stable_diffusion_model r ->
  use_vae_model r' = use_vae_model r ->
  use_full_precision r' = use_full_precision r ->
  cache_fits r' t = cache_fits r t.
Proof.
  intros Hc Hv Hp. unfold cache_fits, model_is_stale, precision_mismatch.
  rewrite Hc, Hv, Hp. reflexivity.
Qed.

Lemma cache_fits_other_checkpoint r r' t :
  use_stable_diffusion_model r' <> use_stable_diffusion_model r ->
  cache_fits r t = true -> cache_fits r' t = false.
Proof.
  intros Hne Hfit. unfold cache_fits in *.
  apply andb_true_iff in Hfit as [Hs _]. apply negb_true_iff in Hs.
  destruct (not_stale_inv _ _ Hs) as (_ & Hc & _).
  unfold model_is_stale. rewrite Hc. cbn [opt_str_eqb].
  replace (String.eqb (use_stable_diffusion_model r)
                      (use_stable_diffusion_model r')) with false.
  - rewrite orb_true_r. reflexivity.
  - symmetry. apply String.eqb_neq. congruence.
Qed.

(** One request, seen from the model cache: the cache step loads once
    when the cache is not in line with the request and not at all when it
    is; nothing is loaded after the cache step, and the cache is in line
    with the request when the request is over, however it ends. *)
Lemma do_mk_img_cache req w r w' :
  use_stable_diffusion_model req <> "" ->
  path_exists (use_stable_diffusion_model req +:+ ".ckpt") = true ->
  Str.truthy (precision (td w)) = true ->
  do_mk_img req w = (r, w') ->
  reloads w' = (reloads w + if cache_fits req (td w) then 0 else 1)%nat
  /\ cache_fits req (td w') = true
  /\ Str.truthy (precision (td w')) = true
  /\ (cache_fits req (td w) = true ->
      start_request req w = (Ok tt, reset w)).
Proof.
  intros Hne Hex Hprec Hrun.
  assert (Hstart : exists wa,
             start_request req w = (Ok tt, wa)
             /\ reloads wa = (reloads w + if cache_fits req (td w) then 0 else 1)%nat
             /\ cache_fits req (td wa) = true
             /\ Str.truthy (precision (td wa)) = true
             /\ (cache_fits req (td w) = true -> wa = reset w)).
  { rewrite (start_request_on_disk req w Hex).
    change (cache_fits req (td w)) with (cache_fits req (td (reset w))).
    change (reloads w) with (reloads (reset w)).
    destruct (cache_fits req (td (reset w))) eqn:Efit.
    - exists (reset w). rewrite (ensure_models_hit _ _ Efit).
      repeat split; [lia|exact Efit|exact Hprec].
    - destruct (ensure_models_miss req (reset w) Efit Hprec Hne Hex)
        as (wa & Hens & Hcount & Hfit & Hp).
      exists wa. repeat split; [exact Hens|lia|exact Hfit|exact Hp|discriminate]. }
  destruct Hstart as (wa & Hstart & Hcount & Hfit & Hp & Hsame).
  rewrite (do_mk_img_from _ _ _ Hstart) in Hrun.
  assert (Hbound : bound (model (td wa)) = true).
  { unfold cache_fits in Hfit. apply andb_true_iff in Hfit as [Hs _].
    apply negb_true_iff in Hs. apply (not_stale_inv _ _ Hs). }
  destruct (preserves_run _ _ _ _ _ (cache_generate (cache_key wa) req) Hrun
              (conj eq_refl Hbound)) as [Hkey Hb'].
  assert (Hconsole : console w' = console wa)
    by (unfold cache_key in Hkey; congruence).
  assert (Hprecision : precision (td w') = precision (td wa))
    by (unfold cache_key in Hkey; congruence).
  split; [unfold reloads in *; rewrite Hconsole; exact Hcount|].
  split; [rewrite (cache_fits_key req wa w' Hkey) by congruence; exact Hfit|].
  split; [rewrite Hprecision; exact Hp|].
  intros Hyes. rewrite Hstart, (Hsame Hyes). reflexivity.
Qed.

(** C1.  On a worker that has no model yet, a request for checkpoint A
    that runs to its end loads once.  A request for another checkpoint B
    after it loads once again.  A request for A after it, with the same
    VAE and the same precision flag, loads nothing: its model cache step
    leaves the worker context as it is, so the model handles are the
    ones the first request left.  Checkpoints are compared by value; a
    valid identity is a path that is not empty and whose [.ckpt] file is
    on disk. *)
Theorem model_cache_reloads (rA rB rA' : Request) (w0 w1 : world) :
  use_stable_diffusion_model rA <> "" ->
  path_exists (use_stable_diffusion_model rA +:+ ".ckpt") = true ->
  use_stable_diffusion_model rB <> "" ->
  path_exists (use_stable_diffusion_model rB +:+ ".ckpt") = true ->
  use_stable_diffusion_model rB <> use_stable_diffusion_model rA ->
  use_stable_diffusion_model rA' = use_stable_diffusion_model rA ->
  use_vae_model rA' = use_vae_model rA ->
  use_full_precision rA' = use_full_precision rA ->
  model (td w0) = None ->
  Str.truthy (precision (td w0)) = true ->
  do_mk_img rA w0 = (Ok tt, w1) ->
  reloads w1 = S (reloads w0)
  /\ (forall r w2, do_mk_img rB w1 = (r, w2) -> reloads w2 = S (reloads w1))
  /\ (forall r w2, do_mk_img rA' w1 = (r, w2) -> reloads w2 = reloads w1)
  /\ start_request rA' w1 = (Ok tt, reset w1).
Proof.
  intros HneA HexA HneB HexB HAB HA' Hvae Hufp Hnone Hprec Hrun.
  destruct (do_mk_img_cache rA w0 _ w1 HneA HexA Hprec Hrun)
    as (Hcount & Hfit & Hprec1 & _).
  assert (Hcold : cache_fits rA (td w0) = false).
  { unfold cache_fits, model_is_stale. rewrite Hnone. reflexivity. }
  rewrite Hcold in Hcount.
  assert (Hfit' : cache_fits rA' (td w1) = true)
    by (rewrite (cache_fits_same_request rA rA' _ HA' Hvae Hufp); exact Hfit).
  rewrite <- HA' in HneA, HexA.
  split; [lia|]. split; [|split].
  - intros r w2 HrunB.
    destruct (do_mk_img_cache rB w1 r w2 HneB HexB Hprec1 HrunB)
      as (HcountB & _).
    rewrite (cache_fits_other_checkpoint rA rB _ HAB Hfit) in HcountB. lia.
  - intros r w2 HrunA.
    destruct (do_mk_img_cache rA' w1 r w2 HneA HexA Hprec1 HrunA)
      as (HcountA & _).
    rewrite Hfit' in HcountA. lia.
  - destruct (do_mk_img rA' w1) as [r w2] eqn:HrunA.
    destruct (do_mk_img_cache rA' w1 r w2 HneA HexA Hprec1 HrunA)
      as (_ & _ & _ & Hstart).
    exact (Hstart Hfit').
Qed.

End CacheFacts.

(** Two checkpoints on a worker that [device_init] has just set up. *)
Lemma model_cache_reloads_witness :
  let run := @do_mk_img Demo.demo_types (Demo.demo_consumer None)
               Demo.demo_fs Demo.three_gpus Demo.demo_platform
               Demo.demo_pil Demo.demo_networks in
  let rA := Demo.demo_request in
  let rB := Demo.with_model "models/anime" Demo.demo_request in
  let w0 := Demo.fresh_worker in
  let w1 := Demo.after_first_request in
  model (td w0) = None
  /\ run rA w0 = (Ok tt, w1)
  /\ reloads w1 = S (reloads w0)
  /\ (forall r w2, run rB w1 = (r, w2) -> reloads w2 = S (reloads w1))
  /\ (forall r w2, run rA w1 = (r, w2) -> reloads w2 = reloads w1)
  /\ @start_request Demo.demo_types Demo.demo_fs rA w1 = (Ok tt, reset w1).
Proof.
  intros run rA rB w0 w1.
  assert (Hrun : run rA w0 = (Ok tt, w1)) by (vm_compute; reflexivity).
  split; [vm_compute; reflexivity|]. split; [exact Hrun|].
  apply (model_cache_reloads
           (Cons := Demo.demo_consumer None) (FS := Demo.demo_fs)
           (Cu := Demo.three_gpus) (Pl := Demo.demo_platform)
           (P := Demo.demo_pil) (N := Demo.demo_networks)
           rA rB rA w0 w1).
  - discriminate.
  - vm_compute; reflexivity.
  - discriminate.
  - vm_compute; reflexivity.
  - discriminate.
  - reflexivity.
  - reflexivity.
  - reflexivity.
  - vm_compute; reflexivity.
  - vm_compute; reflexivity.
  - exact Hrun.
Defined.

(** *** Nothing before the handler yields or touches the flag *)

Section QuietFrame.
Context `{Ty : Types} `{Cons : !Consumer} `{FS : !Filesystem} `{Cu : !Cuda}
        `{Pl : !Platform} `{P : !PIL} `{N : !Networks}.

Variable k : list output * bool.

Lemma quiet_print l : preserves (quiet_is k) (print l).
Proof. intros w H. exact H. Qed.
Hint Resolve quiet_print : frame.

Lemma quiet_modelFS_to d : preserves (quiet_is k) (modelFS_to d).
Proof. unfold modelFS_to. preserves_auto. Qed.
Hint Resolve quiet_modelFS_to : frame.

Lemma quiet_modelCS_to d : preserves (quiet_is k) (modelCS_to d).
Proof. unfold modelCS_to. preserves_auto. Qed.
Hint Resolve quiet_modelCS_to : frame.

Lemma quiet_wait_model_move_to which d :
  preserves (quiet_is k) (wait_model_move_to which d).
Proof. unfold wait_model_move_to. preserves_auto. Qed.
Hint Resolve quiet_wait_model_move_to : frame.

Lemma quiet_unload_models : preserves (quiet_is k) unload_models.
Proof. unfold unload_models. preserves_auto. Qed.
Hint Resolve quiet_unload_models : frame.

Lemma quiet_unload_filters : preserves (quiet_is k) unload_filters.
Proof. unfold unload_filters. preserves_auto. Qed.
Hint Resolve quiet_unload_filters : frame.

Lemma quiet_load_model_ckpt : preserves (quiet_is k) load_model_ckpt.
Proof. unfold load_model_ckpt. preserves_auto. Qed.
Hint Resolve quiet_load_model_ckpt : frame.

Lemma quiet_ensure_models req : preserves (quiet_is k) (ensure_models req).
Proof. unfold ensure_models. preserves_auto. Qed.
Hint Resolve quiet_ensure_models : frame.

Lemma quiet_apply_turbo req : preserves (quiet_is k) (apply_turbo req).
Proof. unfold apply_turbo. preserves_auto. Qed.
Hint Resolve quiet_apply_turbo : frame.

Lemma quiet_prepare_img2img req src :
  preserves (quiet_is k) (prepare_img2img req src).
Proof. unfold prepare_img2img. preserves_auto. Qed.
Hint Resolve quiet_prepare_img2img : frame.

Lemma quiet_conditioning req : preserves (quiet_is k) (conditioning req).
Proof. unfold conditioning. preserves_auto. Qed.
Hint Resolve quiet_conditioning : frame.

Lemma quiet_before_sampling req : preserves (quiet_is k) (before_sampling req).
Proof.
  unfold before_sampling, get_image_progress_generator. preserves_auto.
Qed.

End QuietFrame.

Section BeforeSampling.
Context `{Ty : Types} `{Cons : !Consumer} `{FS : !Filesystem} `{Cu : !Cuda}
        `{Pl : !Platform} `{P : !PIL} `{N : !Networks}.

(** When the handler is about to run, nothing has been yielded yet and
    the flag is down. *)
Lemma start_request_quiet req w0 wa :
  start_request req w0 = (Ok tt, wa) ->
  yielded wa = yielded w0 /\ stop_processing (td wa) = false.
Proof.
  unfold start_request. intros H.
  rewrite !bind_modify in H.
  apply bind_Ok_inv in H as ([] & w2 & Hcheck & H).
  assert (w2 = reset w0) as ->.
  { destruct (negb _); [discriminate|].
    apply ret_Ok_inv in Hcheck as [_ ->]. reflexivity. }
  pose proof (preserves_run _ _ _ _ _
                (quiet_ensure_models (quiet_key (reset w0)) req) H eq_refl) as Hq.
  unfold quiet_is, quiet_key in Hq. injection Hq as Hy Hs.
  split; [exact Hy|exact Hs].
Qed.

Lemma before_sampling_quiet req wa v w1 :
  before_sampling req wa = (Ok v, w1) ->
  yielded w1 = yielded wa
  /\ stop_processing (td w1) = stop_processing (td wa).
Proof.
  intros H.
  pose proof (preserves_run _ _ _ _ _
                (quiet_before_sampling (quiet_key wa) req) H eq_refl) as Hq.
  unfold quiet_is, quiet_key in Hq. injection Hq as Hy Hs.
  split; [exact Hy|exact Hs].
Qed.

(** A streamed run starts with no latent recorded. *)
Lemma before_sampling_partial req wa v w1 :
  stream_progress_updates req = true ->
  before_sampling req wa = (Ok v, w1) ->
  partial_x_samples (td w1) = Some None.
Proof.
  intros Hstream H. unfold before_sampling in H.
  apply bind_Ok_inv in H as ([] & w2 & _ & H).
  apply bind_Ok_inv in H as (setup & w3 & _ & H).
  apply bind_Ok_inv in H as ([c uc] & w4 & _ & H).
  unfold get_image_progress_generator in H. rewrite Hstream in H.
  rewrite bind_modify in H. apply ret_Ok_inv in H as [_ ->]. reflexivity.
Qed.

End BeforeSampling.

(** ** Cancellation during sampling *)

Section Cancel.
Context `{Ty : Types} `{Cons : !Consumer} `{FS : !Filesystem} `{Cu : !Cuda}
        `{Pl : !Platform} `{P : !PIL} `{N : !Networks}.

Variable req : Request.

Lemma sampling_id (w : world) :
  sampling w (temp_images (td w)) (partial_x_samples (td w))
           (stop_processing (td w)) [] = w.
Proof.
  destruct w as [t y c]. destruct t. unfold sampling. cbn.
  rewrite app_nil_r. reflexivity.
Qed.

Lemma yield_sampling o w ti px s ys :
  yield o (sampling w ti px s ys) =
  (Ok tt,
   sampling w ti px (s || sets_stop (length (yielded w) + length ys))
            (ys ++ [o])).
Proof.
  unfold yield, sampling. cbn. rewrite length_app, <- app_assoc.
  destruct (sets_stop _), s; reflexivity.
Qed.

Lemma bind_lift_Ok {A B} (a : A) (f : A -> M B) : bind (lift (Ok a)) f = f a.
Proof. reflexivity. Qed.

Lemma tensor_index_at (x : list latent) (a : nat) xa :
  x !! a = Some xa -> tensor_index x (Z.of_nat a) = Ok xa.
Proof. intros H. unfold tensor_index. rewrite Nat2Z.id, H. reflexivity. Qed.

Lemma range_seq (n : Z) : range n = map Z.of_nat (seq 0 (Z.to_nat n)).
Proof. reflexivity. Qed.

(** The previews of a batch: every latent is decoded and stored; only
    the preview buffer changes. *)
Lemma update_temp_img_seq x fs w px s ys :
  modelFS (td w) = Some fs ->
  (forall a, is_ok (Image_save (Image_fromarray a) "JPEG") = true) ->
  forall len a ti,
    (a + len <= length x)%nat ->
    exists ps ti',
      mapM (fun i =>
              bind get (fun t =>
              match modelFS t with
              | None => raise (none_has_no "decode_first_stage")
              | Some fs =>
                  bind (lift (tensor_index x i)) (fun x =>
                  let img := Image_fromarray (decode_first_stage fs x) in
                  bind (lift (Image_save img "JPEG")) (fun buf =>
                  bind (modify (fun t =>
                          set_temp_images
                            (<[session_id req +:+ "/" +:+ pretty i := buf]>
                               (temp_images t)) t))
                       (fun _ =>
                  ret ("/image/tmp/" +:+ session_id req +:+ "/" +:+ pretty i))))
              end))
           (map Z.of_nat (seq a len)) (sampling w ti px s ys)
      = (Ok ps, sampling w ti' px s ys).
Proof.
  intros Hfs Hjpeg len. induction len as [|len IH]; intros a ti Hlen.
  - exists [], ti. reflexivity.
  - cbn [seq map mapM].
    destruct (lookup_lt_is_Some_2 x a ltac:(lia)) as [xa Hxa].
    specialize (Hjpeg (decode_first_stage fs xa)).
    destruct (Image_save (Image_fromarray (decode_first_stage fs xa)) "JPEG")
      as [buf|e] eqn:Hsave; [|discriminate].
    destruct (IH (S a) (<[session_id req +:+ "/" +:+ pretty (Z.of_nat a) := buf]> ti)
                ltac:(lia)) as (ps & ti' & Hrest).
    eexists _, ti'.
    rewrite bind_assoc, bind_get.
    change (modelFS (td (sampling w ti px s ys))) with (modelFS (td w)).
    rewrite Hfs, (tensor_index_at _ _ _ Hxa), bind_assoc, bind_lift_Ok.
    cbv zeta. rewrite Hsave, !bind_assoc, bind_lift_Ok. msimpl.
    match goal with
    | |- bind _ _ ?w' = _ =>
        change w' with
          (sampling w (<[session_id req +:+ "/" +:+ pretty (Z.of_nat a) := buf]> ti)
                    px s ys)
    end.
    rewrite (bind_ok _ _ _ _ _ Hrest). reflexivity.
Qed.

Lemma update_temp_img_sampling x fs w ti px s ys :
  modelFS (td w) = Some fs ->
  (forall a, is_ok (Image_save (Image_fromarray a) "JPEG") = true) ->
  (Z.to_nat (num_outputs req) <= length x)%nat ->
  exists ps ti',
    update_temp_img req x (sampling w ti px s ys)
    = (Ok ps, sampling w ti' px s ys).
Proof.
  intros Hfs Hjpeg Hlen. unfold update_temp_img. rewrite range_seq.
  apply (update_temp_img_seq x fs w px s ys Hfs Hjpeg); lia.
Qed.

(** One callback: the latent is recorded, one progress record is
    yielded, and the flag the consumer may have set in between decides
    whether the callback raises. *)
Lemma img_callback_sampling total x i fs w ti px ys :
  modelFS (td w) = Some fs ->
  (forall a, is_ok (Image_save (Image_fromarray a) "JPEG") = true) ->
  (Z.to_nat (num_outputs req) <= length x)%nat ->
  exists ti' o,
    is_progress o = true
    /\ img_callback req total x i (sampling w ti px false ys)
       = (if sets_stop (length (yielded w) + length ys)
          then Raise user_stop else Ok tt,
          sampling w ti' (Some (Some x))
                   (sets_stop (length (yielded w) + length ys))
                   (ys ++ [o])).
Proof.
  intros Hfs Hjpeg Hlen. unfold img_callback. rewrite bind_modify.
  change (with_td (set_partial_x_samples (Some (Some x)))
                  (sampling w ti px false ys))
    with (sampling w ti (Some (Some x)) false ys).
  assert (exists previews ti',
             (if stream_image_progress req && (i mod 5 =? 0)
              then bind (update_temp_img req x) (fun p => ret (Some p))
              else ret None) (sampling w ti (Some (Some x)) false ys)
             = (Ok previews, sampling w ti' (Some (Some x)) false ys))
    as (previews & ti' & Hprev).
  { destruct (stream_image_progress req && (i mod 5 =? 0)).
    - destruct (update_temp_img_sampling x fs w ti (Some (Some x)) false ys
                  Hfs Hjpeg Hlen) as (ps & ti' & Hps).
      exists (Some ps), ti'. rewrite (bind_ok _ _ _ _ _ Hps). reflexivity.
    - exists None, ti. reflexivity. }
  exists ti', (Progress i total previews). split; [reflexivity|].
  rewrite (bind_ok _ _ _ _ _ Hprev).
  rewrite (bind_ok _ _ _ _ _ (yield_sampling _ _ _ _ _ _)).
  rewrite bind_get. cbn [orb].
  change (stop_processing (td (sampling w ti' (Some (Some x))
            (sets_stop (length (yielded w) + length ys))
            (ys ++ [Progress i total previews]))))
    with (sets_stop (length (yielded w) + length ys)).
  destruct (sets_stop (length (yielded w) + length ys)); reflexivity.
Qed.

Lemma bind_congr {A B} (m : M A) (f g : A -> M B) w :
  (forall a w', f a w' = g a w') -> bind m f w = bind m g w.
Proof.
  intros H. unfold bind. destruct (m w) as [[a|e] w1]; [apply H|reflexivity].
Qed.

Lemma run_calls_app total l1 l2 w :
  run_calls req total (l1 ++ l2) w
  = bind (run_calls req total l1) (fun _ => run_calls req total l2) w.
Proof.
  revert w. induction l1 as [|[x i] l1 IH]; intros w; cbn [run_calls app].
  - reflexivity.
  - rewrite bind_assoc. apply bind_congr. intros _ w'. apply IH.
Qed.

(** As long as the consumer does not ask for a stop, the callbacks go
    through, one progress record each. *)
Lemma run_calls_continue total fs w :
  modelFS (td w) = Some fs ->
  (forall a, is_ok (Image_save (Image_fromarray a) "JPEG") = true) ->
  forall pre ti px ys,
    Forall (fun call => (Z.to_nat (num_outputs req) <= length (fst call))%nat)
           pre ->
    (forall j, (j < length pre)%nat ->
               sets_stop (length (yielded w) + length ys + j) = false) ->
    exists ti' px' ys',
      run_calls req total pre (sampling w ti px false ys)
      = (Ok tt, sampling w ti' px' false (ys ++ ys'))
      /\ length ys' = length pre
      /\ forallb is_progress ys' = true.
Proof.
  intros Hfs Hjpeg pre.
  induction pre as [|[x i] pre IH]; intros ti px ys Hlen Hquiet.
  - exists ti, px, []. rewrite app_nil_r. repeat split; reflexivity.
  - apply Forall_cons in Hlen as [Hx Hlen]. cbn [fst] in Hx.
    destruct (img_callback_sampling total x i fs w ti px ys Hfs Hjpeg Hx)
      as (ti1 & o & Ho & Hcall).
    pose proof (Hquiet 0%nat ltac:(cbn; lia)) as H0.
    rewrite Nat.add_0_r in H0. rewrite H0 in Hcall.
    destruct (IH ti1 (Some (Some x)) (ys ++ [o]) Hlen) as (ti' & px' & ys' & Hrest & Hn & Hp).
    { intros j Hj. rewrite length_app. cbn [length].
      specialize (Hquiet (S j) ltac:(cbn; lia)).
      replace (length (yielded w) + (length ys + 1) + j)%nat
        with (length (yielded w) + length ys + S j)%nat by lia.
      exact Hquiet. }
    exists ti', px', (o :: ys'). cbn [run_calls].
    rewrite (bind_ok _ _ _ _ _ Hcall), Hrest, <- app_assoc.
    repeat split.
    + cbn [length]. rewrite Hn. reflexivity.
    + cbn [forallb]. rewrite Ho, Hp. reflexivity.
Qed.

(** The sampler whose callback sees the flag after [pre] further
    callbacks ends there, with the latent of that callback recorded. *)
Lemma run_sampler_stopped total fs w pre x k post e :
  modelFS (td w) = Some fs ->
  stop_processing (td w) = false ->
  (forall a, is_ok (Image_save (Image_fromarray a) "JPEG") = true) ->
  Forall (fun call => (Z.to_nat (num_outputs req) <= length (fst call))%nat)
         (pre ++ [(x, k)]) ->
  (forall j, (j < length pre)%nat ->
             sets_stop (length (yielded w) + j) = false) ->
  sets_stop (length (yielded w) + length pre) = true ->
  exists ti' ys',
    run_sampler req total
      {| sr_calls := pre ++ (x, k) :: post; sr_raises := e |} w
    = (Raise user_stop, sampling w ti' (Some (Some x)) true ys')
    /\ length ys' = S (length pre)
    /\ forallb is_progress ys' = true.
Proof.
  intros Hfs Hflag Hjpeg Hlen Hquiet Hstop.
  apply Forall_app in Hlen as [Hpre Hx].
  apply Forall_cons in Hx as [Hx _]. cbn [fst] in Hx.
  destruct (run_calls_continue total fs w Hfs Hjpeg pre
              (temp_images (td w)) (partial_x_samples (td w)) [] Hpre)
    as (ti1 & px1 & ys1 & Hrun & Hn & Hp).
  { intros j Hj. cbn [length]. rewrite Nat.add_0_r. apply Hquiet, Hj. }
  cbn [app] in Hrun.
  destruct (img_callback_sampling total x k fs w ti1 px1 ys1 Hfs Hjpeg Hx)
    as (ti' & o & Ho & Hcall).
  rewrite Hn, Hstop in Hcall.
  exists ti', (ys1 ++ [o]).
  assert (sampling w (temp_images (td w)) (partial_x_samples (td w)) false []
          = w) as Hw by (rewrite <- Hflag; apply sampling_id).
  rewrite Hw in Hrun.
  repeat split.
  - unfold run_sampler. cbn [sr_calls sr_raises].
    apply bind_raise. rewrite run_calls_app, (bind_ok _ _ _ _ _ Hrun).
    cbn [run_calls]. apply bind_raise. exact Hcall.
  - rewrite length_app, Hn. cbn [length]. lia.
  - rewrite forallb_app, Hp. cbn [forallb]. rewrite Ho. reflexivity.
Qed.

Lemma try_except_raise {A} (m : M A) (h : exn -> M A) w e w1 :
  m w = (Raise e, w1) -> try_except m h w = h e w1.
Proof. intros H. unfold try_except. rewrite H. reflexivity. Qed.

(** The handler of either mode comes to the call of the sampler, in a
    world that differs at most in where the conditioning stage sits. *)
Lemma handler_start setup c uc w m cs :
  model (td w) = Some m ->
  modelCS (td w) = Some cs ->
  exists wb,
    match setup with
    | None => _txt2img req c uc
    | Some s => _img2img req s c uc
    end w
    = run_sampler req (n_steps req setup)
        (sample m (handler_args req setup c uc m)) wb
    /\ yielded wb = yielded w
    /\ modelFS (td wb) = modelFS (td w)
    /\ stop_processing (td wb) = stop_processing (td w)
    /\ partial_x_samples (td wb) = partial_x_samples (td w).
Proof.
  intros Hm Hcs. destruct setup as [s|].
  - exists w. unfold _img2img. rewrite bind_get, Hm. repeat split.
  - unfold _txt2img, wait_model_move_to. rewrite !bind_assoc, bind_get.
    destruct (device_eqb (td_device (td w)) cpu).
    { exists w. rewrite bind_ret_l, bind_get, Hm. repeat split. }
    destruct (cuda_memory_allocated (td_device (td w)) <=? 0).
    { exists w. rewrite bind_ret_l, bind_get, Hm. repeat split. }
    exists (with_td (set_modelCS (Some (stage_to cpu cs))) w).
    unfold modelCS_to. rewrite !bind_assoc, bind_get, Hcs, bind_modify, bind_get.
    change (model (td (with_td (set_modelCS (Some (stage_to cpu cs))) w)))
      with (model (td w)).
    rewrite Hm. repeat split.
Qed.

(** A stop seen by a callback: the [except] clause takes the latent that
    callback recorded. *)
Lemma run_handler_stopped setup c uc w m cs fs pre x k post e :
  stream_progress_updates req = true ->
  model (td w) = Some m ->
  modelCS (td w) = Some cs ->
  modelFS (td w) = Some fs ->
  stop_processing (td w) = false ->
  sample m (handler_args req setup c uc m)
  = {| sr_calls := pre ++ (x, k) :: post; sr_raises := e |} ->
  (forall a, is_ok (Image_save (Image_fromarray a) "JPEG") = true) ->
  Forall (fun call => (Z.to_nat (num_outputs req) <= length (fst call))%nat)
         (pre ++ [(x, k)]) ->
  (forall j, (j < length pre)%nat ->
             sets_stop (length (yielded w) + j) = false) ->
  sets_stop (length (yielded w) + length pre) = true ->
  exists wb ti' ys',
    run_handler req setup c uc w
    = (Ok (Some (Latents x)), sampling wb ti' None true ys')
    /\ yielded wb = yielded w
    /\ modelFS (td wb) = Some fs
    /\ length ys' = S (length pre)
    /\ forallb is_progress ys' = true.
Proof.
  intros Hstream Hm Hcs Hfs Hflag Hrun Hjpeg Hlen Hquiet Hstop.
  destruct (handler_start setup c uc w m cs Hm Hcs)
    as (wb & Hstart & Hy & Hfs' & Hflag' & _).
  rewrite Hfs in Hfs'. rewrite Hflag in Hflag'. rewrite <- Hy in Hquiet, Hstop.
  destruct (run_sampler_stopped (n_steps req setup) fs wb pre x k post e
              Hfs' Hflag' Hjpeg Hlen Hquiet Hstop)
    as (ti' & ys' & Hsampler & Hn & Hp).
  exists wb, ti', ys'. repeat split; try assumption.
  unfold run_handler. rewrite Hstream.
  erewrite try_except_raise.
  2:{ apply bind_raise. rewrite Hstart, Hrun. exact Hsampler. }
  cbn [user_stop exn_cls]. rewrite bind_get. reflexivity.
Qed.

(** A stop raised before any callback: the [except] clause has no
    latent and skips the batch. *)
Lemma run_handler_skipped setup c uc w m cs e :
  stream_progress_updates req = true ->
  model (td w) = Some m ->
  modelCS (td w) = Some cs ->
  partial_x_samples (td w) = Some None ->
  sample m (handler_args req setup c uc m)
  = {| sr_calls := []; sr_raises := Some e |} ->
  exn_cls e = UserInitiatedStop ->
  exists wf,
    run_handler req setup c uc w = (Ok None, wf)
    /\ yielded wf = yielded w.
Proof.
  intros Hstream Hm Hcs Hpartial Hrun Hcls.
  destruct (handler_start setup c uc w m cs Hm Hcs)
    as (wb & Hstart & Hy & _ & _ & Hpx).
  rewrite Hpartial in Hpx.
  exists (with_td (set_partial_x_samples None) wb). split; [|exact Hy].
  unfold run_handler. rewrite Hstream.
  erewrite try_except_raise.
  2:{ apply bind_raise. rewrite Hstart, Hrun. reflexivity. }
  rewrite Hcls, bind_get, Hpx, bind_modify. reflexivity.
Qed.

(** *** Decoding and saving after a stop *)

Lemma decode_images_seq x fs w :
  modelFS (td w) = Some fs ->
  forall len a,
    (a + len <= length x)%nat ->
    mapM (fun i =>
            bind get (fun t =>
            match modelFS t with
            | None => raise (none_has_no "decode_first_stage")
            | Some fs =>
                bind (lift (samples_index (Latents x) i))
                     (fun x => ret (decode_first_stage fs x))
            end))
         (map Z.of_nat (seq a len)) w
    = (Ok (decode_first_stage fs <$> take len (drop a x)), w).
Proof.
  intros Hfs len. induction len as [|len IH]; intros a Hlen.
  - reflexivity.
  - cbn [seq map mapM].
    destruct (lookup_lt_is_Some_2 x a ltac:(lia)) as [xa Hxa].
    rewrite bind_assoc, bind_get, Hfs.
    change (samples_index (Latents x) (Z.of_nat a))
      with (tensor_index x (Z.of_nat a)).
    rewrite (tensor_index_at _ _ _ Hxa), bind_assoc, bind_lift_Ok, bind_ret_l.
    rewrite (bind_ok _ _ _ _ _ (IH (S a) ltac:(lia))).
    rewrite (drop_S _ _ _ Hxa). reflexivity.
Qed.

Lemma decode_images_latents x fs w :
  modelFS (td w) = Some fs ->
  (Z.to_nat (num_outputs req) <= length x)%nat ->
  decode_images (num_outputs req) (Latents x) w
  = (Ok (decode_first_stage fs <$> take (Z.to_nat (num_outputs req)) x), w).
Proof.
  intros Hfs Hlen. unfold decode_images. rewrite range_seq.
  apply (decode_images_seq x fs w Hfs (Z.to_nat (num_outputs req)) 0%nat).
  lia.
Qed.

Lemma img_to_base64_str_total (img : image) f :
  is_ok (Image_save img f) = true ->
  exists s, img_to_base64_str img f = Ok s.
Proof.
  unfold img_to_base64_str. destruct (Image_save img f); [|discriminate].
  intros _. eexists. reflexivity.
Qed.

(** With the flag up, one round of the saving loop appends the picture
    as it was decoded and runs no filter. *)
Lemma save_one_stopped fs xi i images w :
  stop_processing (td w) = true ->
  (forall a, is_ok (Image_save (Image_fromarray a) (output_format req)) = true) ->
  exists img,
    image_of_latent req fs i xi = Ok img
    /\ save_one req (decode_first_stage fs xi) i (images, seed req + i) w
       = (Ok (images ++ [img], seed req + (i + 1)), w).
Proof.
  intros Hflag Henc. unfold save_one, image_of_latent.
  destruct (img_to_base64_str_total
              (Image_fromarray (decode_first_stage fs xi)) (output_format req)
              (Henc _)) as [str Hstr].
  rewrite Hstr. cbn [rbind]. eexists. split; [reflexivity|].
  rewrite bind_get, Hflag. cbv zeta. cbn [negb].
  rewrite !orb_true_r, andb_false_r, bind_assoc, bind_lift_Ok.
  rewrite !bind_ret_l, Z.add_assoc. reflexivity.
Qed.

Lemma save_all_stopped fs w :
  stop_processing (td w) = true ->
  (forall a, is_ok (Image_save (Image_fromarray a) (output_format req)) = true) ->
  forall xs i images,
    exists imgs,
      save_all req (decode_first_stage fs <$> xs) i (images, seed req + i) w
      = (Ok (images ++ imgs, seed req + (i + Z.of_nat (length xs))), w)
      /\ length imgs = length xs
      /\ forall j xj,
           xs !! j = Some xj ->
           exists img,
             imgs !! j = Some img
             /\ image_of_latent req fs (i + Z.of_nat j) xj = Ok img.
Proof.
  intros Hflag Henc xs.
  induction xs as [|xi xs IH]; intros i images.
  - exists []. cbn [fmap list_fmap save_all length].
    rewrite app_nil_r, Z.add_0_r. repeat split. intros j xj Hj. discriminate.
  - destruct (save_one_stopped fs xi i images w Hflag Henc) as (img & Himg & Hone).
    destruct (IH (i + 1) (images ++ [img])) as (imgs & Hall & Hn & Hspec).
    exists (img :: imgs). cbn [fmap list_fmap save_all].
    change (list_fmap latent array (decode_first_stage fs) xs)
      with (decode_first_stage fs <$> xs).
    rewrite (bind_ok _ _ _ _ _ Hone), Hall, <- app_assoc. cbn [app length].
    repeat split.
    + do 3 f_equal. lia.
    + rewrite Hn. reflexivity.
    + intros [|j] xj Hj.
      * injection Hj as <-. exists img. rewrite Z.add_0_r. split; [reflexivity|exact Himg].
      * destruct (Hspec j xj Hj) as (img' & Hl & Hi).
        exists img'. split; [exact Hl|].
        replace (i + Z.of_nat (S j)) with (i + 1 + Z.of_nat j) by lia. exact Hi.
Qed.

Lemma wait_model_move_FS fs w :
  modelFS (td w) = Some fs ->
  exists w',
    wait_model_move_to MovedFS cpu w = (Ok tt, w')
    /\ stop_processing (td w') = stop_processing (td w)
    /\ yielded w' = yielded w.
Proof.
  intros Hfs. unfold wait_model_move_to. rewrite bind_get.
  destruct (device_eqb _ _); [exists w; repeat split|].
  destruct (_ <=? _); [exists w; repeat split|].
  unfold modelFS_to. rewrite bind_get, Hfs.
  eexists. repeat split.
Qed.

(** After a stop every latent of the batch gives one response image:
    the decoded latent itself, filters or not. *)
Lemma finish_batch_stopped x fs w :
  modelFS (td w) = Some fs ->
  stop_processing (td w) = true ->
  (Z.to_nat (num_outputs req) <= length x)%nat ->
  (forall a, is_ok (Image_save (Image_fromarray a) (output_format req)) = true) ->
  exists images w',
    finish_batch req (Latents x) w = (Ok images, w')
    /\ yielded w' = yielded w
    /\ length images = Z.to_nat (num_outputs req)
    /\ forall i,
         (i < Z.to_nat (num_outputs req))%nat ->
         exists xi img,
           x !! i = Some xi /\ images !! i = Some img
           /\ image_of_latent req fs (Z.of_nat i) xi = Ok img.
Proof.
  intros Hfs Hflag Hlen Henc. unfold finish_batch.
  rewrite (bind_ok _ _ _ _ _ (decode_images_latents x fs w Hfs Hlen)).
  rewrite bind_get.
  assert (exists w1,
             (if reduced_memory (td w)
              then wait_model_move_to MovedFS cpu else ret tt) w = (Ok tt, w1)
             /\ stop_processing (td w1) = true
             /\ yielded w1 = yielded w) as (w1 & Hmove & Hflag1 & Hy1).
  { destruct (reduced_memory (td w)).
    - destruct (wait_model_move_FS fs w Hfs) as (w1 & H1 & H2 & H3).
      exists w1. rewrite H2. repeat split; assumption.
    - exists w. repeat split; assumption. }
  rewrite (bind_ok _ _ _ _ _ Hmove).
  destruct (save_all_stopped fs w1 Hflag1 Henc
              (take (Z.to_nat (num_outputs req)) x) 0 [])
    as (imgs & Hall & Hn & Hspec).
  rewrite Z.add_0_r in Hall.
  rewrite (bind_ok _ _ _ _ _ Hall). cbn [app].
  rewrite bind_get.
  rewrite length_take in Hn.
  assert (exists w2,
             (if reduced_memory (td w1) then unload_filters else ret tt) w1
             = (Ok tt, w2)
             /\ yielded w2 = yielded w) as (w2 & Hunload & Hy2).
  { destruct (reduced_memory (td w1)).
    - eexists. unfold unload_filters. rewrite bind_modify. split; [reflexivity|exact Hy1].
    - exists w1. split; [reflexivity|exact Hy1]. }
  rewrite (bind_ok _ _ _ _ _ Hunload).
  exists imgs, w2. split; [reflexivity|]. split; [exact Hy2|]. split.
  - lia.
  - intros i Hi.
    destruct (lookup_lt_is_Some_2 x i ltac:(lia)) as [xi Hxi].
    destruct (Hspec i xi) as (img & Hl & Himg).
    { rewrite lookup_take_lt by lia. exact Hxi. }
    exists xi, img. repeat split; assumption.
Qed.

(** C2. A streamed request whose sampling has begun.  If the consumer's
    stop is seen by a callback -- the first one after which the flag is
    up -- the request does not fail: after one progress record per
    callback made, the response holds exactly one image per batch
    element, each decoded from the latent that callback recorded (the
    most recent one), with the seed of its position, whether or not
    filters were asked for.  If the run ends with [UserInitiatedStop]
    before any callback was made, the response holds no image, and no
    failure is yielded either. *)
Theorem cancellation_delivers_last_latent
        (w0 wa w1 : world) (setup : option img2img_setup)
        (c : tensor) (uc : option tensor) (m : unet) (cs : stage) :
  stream_progress_updates req = true ->
  start_request req w0 = (Ok tt, wa) ->
  before_sampling req wa = (Ok (setup, c, uc), w1) ->
  model (td w1) = Some m ->
  modelCS (td w1) = Some cs ->
  (forall pre x k post e fs,
      sample m (handler_args req setup c uc m)
      = {| sr_calls := pre ++ (x, k) :: post; sr_raises := e |} ->
      (forall j, (j < length pre)%nat ->
                 sets_stop (length (yielded w0) + j) = false) ->
      sets_stop (length (yielded w0) + length pre) = true ->
      modelFS (td w1) = Some fs ->
      Forall (fun call =>
                (Z.to_nat (num_outputs req) <= length (fst call))%nat)
             (pre ++ [(x, k)]) ->
      (forall a, is_ok (Image_save (Image_fromarray a) "JPEG") = true) ->
      (forall a, is_ok (Image_save (Image_fromarray a) (output_format req))
                 = true) ->
      exists wf progress images,
        mk_img req w0 = (Ok tt, wf)
        /\ yielded wf = yielded w0 ++ progress ++ [Response images]
        /\ length progress = S (length pre)
        /\ forallb is_progress progress = true
        /\ length images = Z.to_nat (num_outputs req)
        /\ forall i,
             (i < Z.to_nat (num_outputs req))%nat ->
             exists xi img,
               x !! i = Some xi /\ images !! i = Some img
               /\ image_of_latent req fs (Z.of_nat i) xi = Ok img)
  /\ (forall e,
         sample m (handler_args req setup c uc m)
         = {| sr_calls := []; sr_raises := Some e |} ->
         exn_cls e = UserInitiatedStop ->
         exists wf,
           mk_img req w0 = (Ok tt, wf)
           /\ yielded wf = yielded w0 ++ [Response []]).
Proof.
  intros Hstream Hstart Hbefore Hm Hcs.
  destruct (start_request_quiet req w0 wa Hstart) as [Hya Hflaga].
  destruct (before_sampling_quiet req wa _ w1 Hbefore) as [Hy1 Hflag1].
  rewrite Hya in Hy1. rewrite Hflaga in Hflag1.
  pose proof (before_sampling_partial req wa _ w1 Hstream Hbefore) as Hpx.
  assert (do_mk_img req w0 = sample_and_finish req setup c uc w1) as Hdo.
  { rewrite (do_mk_img_from req w0 wa Hstart), (bind_ok _ _ _ _ _ Hbefore).
    reflexivity. }
  split.
  - intros pre x k post e fs Hrun Hquiet Hstop Hfs Hlen Hjpeg Henc.
    rewrite <- Hy1 in Hquiet, Hstop.
    destruct (run_handler_stopped setup c uc w1 m cs fs pre x k post e
                Hstream Hm Hcs Hfs Hflag1 Hrun Hjpeg Hlen Hquiet Hstop)
      as (wb & ti' & ys' & Hhandler & Hyb & Hfsb & Hn & Hp).
    assert (Z.to_nat (num_outputs req) <= length x)%nat as Hx.
    { apply Forall_app in Hlen as [_ Hx].
      apply Forall_cons in Hx as [Hx _]. exact Hx. }
    destruct (finish_batch_stopped x fs (sampling wb ti' None true ys')
                Hfsb eq_refl Hx Henc)
      as (images & w2 & Hfinish & Hy2 & Hcount & Himages).
    eexists _, ys', images. split; [|split; [|repeat split; assumption]].
    + apply mk_img_ok. rewrite Hdo. unfold sample_and_finish.
      rewrite (bind_ok _ _ _ _ _ Hhandler), (bind_ok _ _ _ _ _ Hfinish).
      apply yield_spec.
    + cbn [yielded]. rewrite Hy2. cbn [sampling yielded].
      rewrite Hyb, Hy1, <- app_assoc. reflexivity.
  - intros e Hrun Hcls.
    destruct (run_handler_skipped setup c uc w1 m cs e
                Hstream Hm Hcs Hpx Hrun Hcls) as (w2 & Hhandler & Hy2).
    eexists. split.
    + apply mk_img_ok. rewrite Hdo. unfold sample_and_finish.
      rewrite (bind_ok _ _ _ _ _ Hhandler), bind_ret_l.
      apply yield_spec.
    + cbn [yielded]. rewrite Hy2, Hy1. reflexivity.
Qed.

End Cancel.

(** The demo request of four steps and two pictures, stopped by the
    consumer after the third value it receives, and the same request on
    a sampler that is interrupted before its first step. *)
Lemma cancellation_delivers_last_latent_witness :
  let w0 := Demo.fresh_worker in
  let req := Demo.demo_request in
  (exists wf progress images,
      mk_img (Cons := Demo.demo_consumer (Some 2%nat)) (FS := Demo.demo_fs)
             (Cu := Demo.three_gpus) (Pl := Demo.demo_platform)
             (P := Demo.demo_pil) (N := Demo.demo_networks) req w0
      = (Ok tt, wf)
      /\ yielded wf = yielded w0 ++ progress ++ [Response images]
      /\ length progress = 3%nat
      /\ forallb is_progress progress = true
      /\ length images = 2%nat
      /\ forall i,
           (i < 2)%nat ->
           exists xi img,
             Demo.demo_latent 2 2 !! i = Some xi /\ images !! i = Some img
             /\ image_of_latent (FS := Demo.demo_fs) (Pl := Demo.demo_platform)
                  (P := Demo.demo_pil) (N := Demo.demo_networks)
                  req Demo.loaded_stage (Z.of_nat i) xi = Ok img)
  /\ (exists wf,
         mk_img (Cons := Demo.demo_consumer None) (FS := Demo.demo_fs)
                (Cu := Demo.three_gpus) (Pl := Demo.demo_platform)
                (P := Demo.demo_pil) (N := Demo.interrupted_networks) req w0
         = (Ok tt, wf)
         /\ yielded wf = yielded w0 ++ [Response []]).
Proof.
  intros w0 req. split.
  - refine (proj1 (cancellation_delivers_last_latent
                     (Cons := Demo.demo_consumer (Some 2%nat))
                     (FS := Demo.demo_fs) (Cu := Demo.three_gpus)
                     (Pl := Demo.demo_platform) (P := Demo.demo_pil)
                     (N := Demo.demo_networks)
                     req w0 Demo.request_started Demo.ready_to_sample
                     None Demo.demo_c Demo.demo_uc
                     Demo.loaded_unet Demo.loaded_stage _ _ _ _ _)
                  [(Demo.demo_latent 2 0, 0); (Demo.demo_latent 2 1, 1)]
                  (Demo.demo_latent 2 2) 2 [(Demo.demo_latent 2 3, 3)]
                  None Demo.loaded_stage _ _ _ _ _ _ _).
    + reflexivity.
    + vm_compute; reflexivity.
    + vm_compute; reflexivity.
    + reflexivity.
    + reflexivity.
    + vm_compute; reflexivity.
    + intros [|[|j]] Hj; [reflexivity|reflexivity|cbn in Hj; lia].
    + reflexivity.
    + reflexivity.
    + repeat (apply List.Forall_cons; [vm_compute; lia|]).
      apply List.Forall_nil.
    + intros a. reflexivity.
    + intros a. reflexivity.
  - refine (proj2 (cancellation_delivers_last_latent
                     (Cons := Demo.demo_consumer None)
                     (FS := Demo.demo_fs) (Cu := Demo.three_gpus)
                     (Pl := Demo.demo_platform) (P := Demo.demo_pil)
                     (N := Demo.interrupted_networks)
                     req w0 Demo.request_started Demo.ready_to_sample
                     None Demo.demo_c Demo.demo_uc
                     Demo.loaded_unet Demo.loaded_stage _ _ _ _ _)
                  user_stop _ _).
    + reflexivity.
    + vm_compute; reflexivity.
    + vm_compute; reflexivity.
    + reflexivity.
    + reflexivity.
    + reflexivity.
    + reflexivity.
Defined.

(** ** What a request leaves alone once the models are in place *)

Section RunFrame.
Context `{Ty : Types} `{Cons : !Consumer} `{FS : !Filesystem} `{Cu : !Cuda}
        `{Pl : !Platform} `{P : !PIL} `{N : !Networks}.

Variable I : world -> Prop.
Hypothesis I_stable : run_stable I.

Lemma run_stable_modify f : run_update f -> preserves I (modify f).
Proof.
  intros Hf. apply preserves_modify. intros w Hw.
  apply (proj1 I_stable); assumption.
Qed.

Lemma run_stable_yield o : preserves I (yield o).
Proof.
  intros w Hw. unfold yield. cbn [snd].
  destruct (sets_stop _).
  - apply (proj2 I_stable
             (with_td (set_stop_processing true) w) (yielded w ++ [o])).
    apply (proj1 I_stable); [constructor|exact Hw].
  - apply (proj2 I_stable w (yielded w ++ [o])). exact Hw.
Qed.

End RunFrame.

(** One step towards a [preserves] goal for a property that is stable in
    that sense. *)
Ltac run_step HI :=
  lazymatch goal with
  | |- preserves _ (modify _) =>
      apply (run_stable_modify _ HI); constructor
  | |- preserves _ (yield _) => apply (run_stable_yield _ HI)
  | _ => preserves_step
  end.

Ltac run_auto HI := repeat first [ run_step HI | solve [auto with frame] ].

Section RunFrameLemmas.
Context `{Ty : Types} `{Cons : !Consumer} `{FS : !Filesystem} `{Cu : !Cuda}
        `{Pl : !Platform} `{P : !PIL} `{N : !Networks}.

Variable I : world -> Prop.
Hypothesis I_stable : run_stable I.

Lemma run_modelFS_to d : preserves I (modelFS_to d).
Proof. unfold modelFS_to. run_auto I_stable. Qed.
Hint Resolve run_modelFS_to : frame.

Lemma run_modelCS_to d : preserves I (modelCS_to d).
Proof. unfold modelCS_to. run_auto I_stable. Qed.
Hint Resolve run_modelCS_to : frame.

Lemma run_model_model1_to d : preserves I (model_model1_to d).
Proof. unfold model_model1_to. run_auto I_stable. Qed.

Lemma run_model_model2_to d : preserves I (model_model2_to d).
Proof. unfold model_model2_to. run_auto I_stable. Qed.

Lemma run_wait_model_move_to which d :
  preserves I (wait_model_move_to which d).
Proof. unfold wait_model_move_to. run_auto I_stable. Qed.
Hint Resolve run_wait_model_move_to : frame.

Lemma run_apply_turbo req : preserves I (apply_turbo req).
Proof. unfold apply_turbo. run_auto I_stable. Qed.
Hint Resolve run_apply_turbo : frame.

Lemma run_prepare_img2img req src : preserves I (prepare_img2img req src).
Proof. unfold prepare_img2img. run_auto I_stable. Qed.
Hint Resolve run_prepare_img2img : frame.

Lemma run_conditioning req : preserves I (conditioning req).
Proof. unfold conditioning. run_auto I_stable. Qed.
Hint Resolve run_conditioning : frame.

Lemma run_before_sampling req : preserves I (before_sampling req).
Proof.
  unfold before_sampling, get_image_progress_generator. run_auto I_stable.
Qed.
Hint Resolve run_before_sampling : frame.

Lemma run_update_temp_img req x : preserves I (update_temp_img req x).
Proof. unfold update_temp_img. run_auto I_stable. Qed.
Hint Resolve run_update_temp_img : frame.

Lemma run_img_callback req total x i :
  preserves I (img_callback req total x i).
Proof. unfold img_callback. run_auto I_stable. Qed.
Hint Resolve run_img_callback : frame.

Lemma run_run_calls req total calls :
  preserves I (run_calls req total calls).
Proof.
  induction calls as [|[x i] calls IH]; cbn [run_calls]; run_auto I_stable.
Qed.
Hint Resolve run_run_calls : frame.

Lemma run_run_sampler req total run :
  preserves I (run_sampler req total run).
Proof. unfold run_sampler. run_auto I_stable. Qed.
Hint Resolve run_run_sampler : frame.

Lemma run_run_handler req setup c uc :
  preserves I (run_handler req setup c uc).
Proof. unfold run_handler, _txt2img, _img2img. run_auto I_stable. Qed.
Hint Resolve run_run_handler : frame.

Lemma run_load_model_gfpgan : preserves I load_model_gfpgan.
Proof. unfold load_model_gfpgan. run_auto I_stable. Qed.
Hint Resolve run_load_model_gfpgan : frame.

Lemma run_load_model_real_esrgan : preserves I load_model_real_esrgan.
Proof. unfold load_model_real_esrgan. run_auto I_stable. Qed.
Hint Resolve run_load_model_real_esrgan : frame.

Lemma run_apply_filters name a p : preserves I (apply_filters name a p).
Proof. unfold apply_filters. run_auto I_stable. Qed.
Hint Resolve run_apply_filters : frame.

Lemma run_unload_filters : preserves I unload_filters.
Proof. unfold unload_filters. run_auto I_stable. Qed.
Hint Resolve run_unload_filters : frame.

Lemma run_run_filters req a : preserves I (run_filters req a).
Proof.
  unfold run_filters. apply preserves_bind; [run_auto I_stable|].
  intros [a' applied]. run_auto I_stable.
Qed.
Hint Resolve run_run_filters : frame.

Lemma run_save_one req a i st : preserves I (save_one req a i st).
Proof.
  unfold save_one. destruct st as [images opt_seed].
  apply preserves_bind; [apply preserves_get|]. intros t.
  apply preserves_bind; [run_auto I_stable|]. intros images'.
  apply preserves_bind; [|intros ?; apply preserves_ret].
  destruct (_ && _); [|apply preserves_ret].
  apply preserves_bind; [apply run_run_filters|].
  intros [a' applied]. run_auto I_stable.
Qed.
Hint Resolve run_save_one : frame.

Lemma run_save_all req img_data :
  forall i st, preserves I (save_all req img_data i st).
Proof.
  induction img_data as [|a rest IH]; intros i st; cbn [save_all];
    run_auto I_stable.
Qed.
Hint Resolve run_save_all : frame.

Lemma run_finish_batch req x : preserves I (finish_batch req x).
Proof.
  unfold finish_batch, decode_images.
  apply preserves_bind; [run_auto I_stable|]. intros img_data.
  apply preserves_bind; [apply preserves_get|]. intros t.
  apply preserves_bind; [run_auto I_stable|]. intros _.
  apply preserves_bind; [apply run_save_all|]. intros [images s].
  run_auto I_stable.
Qed.
Hint Resolve run_finish_batch : frame.

Lemma run_sample_and_finish req setup c uc :
  preserves I (sample_and_finish req setup c uc).
Proof. unfold sample_and_finish. run_auto I_stable. Qed.

(** From the end of the model cache step to the end of the request. *)
Lemma run_generate req :
  preserves I
    (bind (before_sampling req)
          (fun '(setup, c, uc) => sample_and_finish req setup c uc)).
Proof.
  apply preserves_bind; [apply run_before_sampling|].
  intros [[setup c] uc]. apply run_sample_and_finish.
Qed.

End RunFrameLemmas.

(** ** The device a worker ends up on *)

Section DeviceInitFacts.
Context `{Ty : Types} `{Cu : !Cuda} `{Pl : !Platform}.

Lemma device_select_inv dev w b w' :
  device_eqb dev cpu = false ->
  device_select dev w = (Ok b, w') ->
  (b = false /\ w' = w)
  \/ (b = true /\ cuda_is_available = true /\ device_passes dev = true
      /\ w' = with_td (selected dev) w).
Proof.
  intros Hcpu. unfold device_select, device_passes. rewrite Hcpu.
  destruct cuda_is_available; cbn [negb].
  2:{ intros H. apply ret_Ok_inv in H as [-> ->]. left. split; reflexivity. }
  destruct (device_would_fail dev) as [msg|e].
  2:{ rewrite (bind_lift_raise _ _ _ e eq_refl). discriminate. }
  rewrite bind_lift_Ok.
  destruct (Str.opt_truthy msg).
  - destruct (Str.contains _ _); [discriminate|].
    intros H. apply ret_Ok_inv in H as [-> ->]. left. split; reflexivity.
  - cbv zeta. rewrite !bind_modify. unfold selected.
    destruct (is_16xx _).
    + rewrite bind_modify. intros H. apply ret_Ok_inv in H as [-> ->].
      right. repeat split.
    + rewrite bind_ret_l. intros H. apply ret_Ok_inv in H as [-> ->].
      right. repeat split.
Qed.

Lemma device_ready_cpu w :
  device_ready w (snd (use_cpu (with_td init_thread_data w))).
Proof.
  unfold device_ready, on_checked_device, nothing_loaded. cbn.
  split; [left; repeat split|]. repeat split.
Qed.

Lemma device_ready_selected dev w :
  cuda_is_available = true ->
  device_eqb dev cpu = false ->
  device_passes dev = true ->
  device_ready w (with_td (selected dev) (with_td init_thread_data w)).
Proof.
  intros Hcuda Hcpu Hpass.
  unfold device_ready, on_checked_device, nothing_loaded, selected.
  destruct (is_16xx (cuda_get_device_name dev)) eqn:E; cbn;
    rewrite ?E; (split; [right; repeat split; assumption|]); repeat split.
Qed.

Lemma device_init_current_inv w w' :
  device_init_current (with_td init_thread_data w) = (Ok tt, w') ->
  initialised w w'.
Proof.
  unfold device_init_current. cbv zeta. intros H.
  apply bind_Ok_inv in H as (ok & w1 & Hsel & H).
  apply device_select_inv in Hsel as [[-> ->]|(-> & Hcuda & Hpass & ->)];
    [| |reflexivity].
  - left. rewrite H. reflexivity.
  - apply ret_Ok_inv in H as [_ ->].
    right. split; [exact Hcuda|]. eexists.
    split; [|split; [exact Hpass|reflexivity]]. reflexivity.
Qed.

Lemma device_init_explicit_inv sel w w' :
  String.eqb (Str.lower sel) "cpu" = false ->
  device_init_explicit sel (with_td init_thread_data w) = (Ok tt, w') ->
  initialised w w'.
Proof.
  intros Hsel. unfold device_init_explicit. cbv zeta. intros H.
  apply bind_Ok_inv in H as (dev & w1 & Hdev & H).
  assert (w1 = with_td init_thread_data w /\ device_eqb dev cpu = false)
    as [-> Hcpu].
  { destruct (Str.startswith "gpu:" (Str.lower sel)).
    - apply bind_Ok_inv in Hdev as (n & w2 & Hn & Hdev).
      apply lift_Ok_inv in Hn as [_ ->].
      apply ret_Ok_inv in Hdev as [-> ->]. split; reflexivity.
    - apply ret_Ok_inv in Hdev as [-> ->]. split; [reflexivity|exact Hsel]. }
  destruct (_ && _); [|apply device_init_current_inv, H].
  apply bind_Ok_inv in H as (ok & w2 & Hselect & H).
  apply device_select_inv in Hselect as [[-> ->]|(-> & Hcuda & Hpass & ->)];
    [| |exact Hcpu].
  - apply device_init_current_inv, H.
  - apply ret_Ok_inv in H as [_ ->].
    right. split; [exact Hcuda|]. exists dev.
    split; [exact Hcpu|]. split; [exact Hpass|reflexivity].
Qed.

(** Where a [device_init] that returns has left the worker. *)
Lemma device_init_inv device_selection w w' :
  device_init device_selection w = (Ok tt, w') ->
  initialised w w'.
Proof.
  unfold device_init. rewrite bind_modify. intros H.
  destruct (String.eqb (Str.lower device_selection) "cpu") eqn:Hcpu.
  { left. rewrite H. reflexivity. }
  destruct cuda_is_available eqn:Hcuda; cbn [negb] in H.
  2:{ destruct (_ || _); [|discriminate].
      left. rewrite H. reflexivity. }
  cbv zeta in H.
  destruct (String.eqb
              (if (cuda_device_count <=? 1) && String.eqb device_selection "auto"
               then "current" else device_selection) "auto") eqn:Hauto.
  2:{ destruct ((cuda_device_count <=? 1) && String.eqb device_selection "auto");
        [|apply (device_init_explicit_inv _ _ _ Hcpu H)].
      apply (device_init_explicit_inv "current" _ _ eq_refl H). }
  destruct ((cuda_device_count <=? 1) && String.eqb device_selection "auto");
    [discriminate|].
  apply bind_Ok_inv in H as (st & w1 & Hprobe & H).
  apply lift_Ok_inv in Hprobe as [_ ->].
  destruct (best_truthy (snd st));
    [|apply (device_init_explicit_inv _ _ _ Hcpu H)].
  apply bind_Ok_inv in H as (ok & w2 & Hselect & H).
  apply device_select_inv in Hselect as [[-> ->]|(-> & _ & Hpass & ->)];
    [| |reflexivity].
  - apply (device_init_explicit_inv _ _ _ Hcpu H).
  - apply ret_Ok_inv in H as [_ ->].
    right. split; [exact Hcuda|]. eexists.
    split; [|split; [exact Hpass|reflexivity]]. reflexivity.
Qed.

Lemma initialised_ready w w' : initialised w w' -> device_ready w w'.
Proof.
  intros [-> | (Hcuda & dev & Hcpu & Hpass & ->)].
  - apply device_ready_cpu.
  - apply device_ready_selected; assumption.
Qed.

(** X1.  Whatever the selection and the state before, a [device_init]
    that returns leaves the worker on the CPU or on an accelerator that
    passed the check of [device_select], with that device's name, with
    full precision forced exactly on the 16xx cards, and with nothing
    loaded: no model, no filter, no file name, no preview, the
    cancellation flag down and the reduced-memory policy on.  Nothing is
    yielded. *)
Theorem device_init_ready (device_selection : string) (w w' : world) :
  device_init device_selection w = (Ok tt, w') ->
  device_ready w w'.
Proof.
  intros H.
  destruct (device_init_inv device_selection w w' H)
    as [-> | (Hcuda & dev & Hcpu & Hpass & ->)].
  - apply device_ready_cpu.
  - apply device_ready_selected; assumption.
Qed.

End DeviceInitFacts.

(** ** Precision of the weights *)

Section PrecisionFacts.
Context `{Ty : Types} `{Cons : !Consumer} `{FS : !Filesystem} `{Cu : !Cuda}
        `{Pl : !Platform} `{P : !PIL} `{N : !Networks}.

Lemma forced_full_stable : run_stable forced_full.
Proof.
  split.
  - intros f w Hf H. destruct Hf; exact H.
  - intros w ys H. exact H.
Qed.

Lemma on_cpu_full_stable : run_stable on_cpu_full.
Proof.
  split.
  - intros f w Hf H. destruct Hf; exact H.
  - intros w ys H. exact H.
Qed.

Lemma forced_full_unload_models : preserves forced_full unload_models.
Proof.
  unfold unload_models.
  apply preserves_bind; [apply preserves_get|]. intros t.
  apply preserves_bind.
  { destruct (model t); [|apply preserves_ret]. intros w H. exact H. }
  intros _. preserves_auto.
Qed.

Lemma on_cpu_full_unload_models : preserves on_cpu_full unload_models.
Proof.
  unfold unload_models.
  apply preserves_bind; [apply preserves_get|]. intros t.
  apply preserves_bind.
  { destruct (model t); [|apply preserves_ret]. intros w H. exact H. }
  intros _. preserves_auto.
Qed.

Lemma forced_full_load_model_ckpt : preserves forced_full load_model_ckpt.
Proof.
  intros w (Hforce & Hprec & Hhalf & Hfs).
  unfold load_model_ckpt. rewrite bind_get.
  destruct (ckpt_file (td w)) as [ckpt|]; [|repeat split; assumption].
  destruct (negb (Str.truthy ckpt)); [repeat split; assumption|].
  destruct (negb (path_exists _)); [repeat split; assumption|].
  rewrite Hprec. cbn [Str.truthy negb]. msimpl.
  destruct (unet_bs (td w) =? 0); msimpl;
    destruct (device_eqb (td_device (td w)) cpu) eqn:Ecpu; msimpl;
    cbn; rewrite ?Ecpu, ?Hprec; cbn; repeat split; assumption.
Qed.

Lemma on_cpu_full_load_model_ckpt : preserves on_cpu_full load_model_ckpt.
Proof.
  intros w (Hcpu & Hhalf & Hfs).
  unfold load_model_ckpt. rewrite bind_get.
  destruct (ckpt_file (td w)) as [ckpt|]; [|repeat split; assumption].
  destruct (negb (Str.truthy ckpt)); [repeat split; assumption|].
  destruct (negb (path_exists _)); [repeat split; assumption|].
  rewrite Hcpu. change (device_eqb cpu cpu) with true. cbv iota.
  destruct (negb (Str.truthy (precision (td w)))); msimpl;
    destruct (unet_bs (td w) =? 0); msimpl;
    cbn; rewrite ?Hcpu; cbn; repeat split; assumption.
Qed.

Lemma forced_full_no_mismatch req w :
  forced_full w -> precision_mismatch req (td w) = false.
Proof.
  intros (Hforce & Hprec & _). unfold precision_mismatch.
  rewrite Hforce, Hprec. cbn. rewrite !andb_false_r. reflexivity.
Qed.

Lemma on_cpu_full_no_mismatch req w :
  on_cpu_full w -> precision_mismatch req (td w) = false.
Proof.
  intros (Hcpu & _). unfold precision_mismatch. rewrite Hcpu. reflexivity.
Qed.

(** The model cache step keeps a property that the reload keeps and
    that rules a change of precision out. *)
Lemma ensure_models_keeps (I : world -> Prop) req :
  run_stable I ->
  (forall w p v, I w ->
     I (with_td (set_vae_file v) (with_td (set_ckpt_file p) w))) ->
  (forall w p v, I w ->
     precision_mismatch req
       (td (with_td (set_vae_file v) (with_td (set_ckpt_file p) w))) = false) ->
  (forall w, I w -> precision_mismatch req (td w) = false) ->
  preserves I unload_models ->
  preserves I load_model_ckpt ->
  preserves I (ensure_models req).
Proof.
  intros Hstable Hfiles Hfiles' Hno Hunload Hload w Hw.
  unfold ensure_models. rewrite bind_get.
  assert (Hreload : preserves I
            (bind unload_models
               (fun _ => bind unload_filters (fun _ => load_model_ckpt)))).
  { apply preserves_bind; [exact Hunload|]. intros _.
    apply preserves_bind; [apply (run_unload_filters I Hstable)|].
    intros _. exact Hload. }
  destruct (model_is_stale req (td w)).
  - msimpl. rewrite (Hfiles' w _ _ Hw). msimpl. cbn [orb].
    apply Hreload, Hfiles, Hw.
  - msimpl. rewrite (Hno w Hw). msimpl. cbn [orb]. exact Hw.
Qed.

Lemma forced_full_ensure_models req : preserves forced_full (ensure_models req).
Proof.
  apply ensure_models_keeps.
  - apply forced_full_stable.
  - intros w p v H. exact H.
  - intros w p v H. apply (forced_full_no_mismatch req w H).
  - apply forced_full_no_mismatch.
  - apply forced_full_unload_models.
  - apply forced_full_load_model_ckpt.
Qed.

Lemma on_cpu_full_ensure_models req : preserves on_cpu_full (ensure_models req).
Proof.
  apply ensure_models_keeps.
  - apply on_cpu_full_stable.
  - intros w p v H. exact H.
  - intros w p v H. apply (on_cpu_full_no_mismatch req w H).
  - apply on_cpu_full_no_mismatch.
  - apply on_cpu_full_unload_models.
  - apply on_cpu_full_load_model_ckpt.
Qed.

(** A whole request, without and with the failure handler of [mk_img],
    keeps such a property. *)
Lemma do_mk_img_keeps (I : world -> Prop) req :
  run_stable I ->
  preserves I (ensure_models req) ->
  preserves I (do_mk_img req).
Proof.
  intros Hstable Hensure. unfold do_mk_img, start_request.
  apply preserves_bind.
  { run_auto Hstable. }
  intros _. apply (run_generate I Hstable).
Qed.

Lemma mk_img_keeps (I : world -> Prop) req :
  run_stable I ->
  preserves I unload_models ->
  preserves I (ensure_models req) ->
  preserves I (mk_img req).
Proof.
  intros Hstable Hunload Hensure. unfold mk_img.
  apply preserves_try_except.
  - apply do_mk_img_keeps; assumption.
  - intros e. apply preserves_bind; [apply preserves_get|]. intros t.
    apply preserves_bind.
    { destruct (reduced_memory t).
      - apply preserves_bind; [apply (run_modelFS_to I Hstable)|]. intros _.
        apply preserves_bind; [apply (run_modelCS_to I Hstable)|]. intros _.
        apply preserves_bind; [apply (run_model_model1_to I Hstable)|].
        intros _. apply (run_model_model2_to I Hstable).
      - apply preserves_bind; [exact Hunload|]. intros _.
        apply (run_unload_filters I Hstable). }
    intros _. apply (run_stable_yield I Hstable).
Qed.

(** X3.  On a worker for which full precision is forced (a 16xx card),
    with precision ['full'] and weights that are not in half precision,
    no request changes that, whatever it asks for and however it ends:
    the precision stays ['full'], and a reload loads the weights in full
    precision.  [device_init] puts a worker with such a card in that
    state. *)
Theorem forced_full_precision_kept (req : Request) (w : world) :
  (forced_full w -> forced_full (snd (mk_img req w)))
  /\ (forall sel w0,
        device_init sel w0 = (Ok tt, w) ->
        force_full_precision (td w) = true ->
        forced_full w).
Proof.
  split.
  - apply (mk_img_keeps forced_full req forced_full_stable
             forced_full_unload_models (forced_full_ensure_models req)).
  - intros sel w0 Hinit Hforce.
    destruct (initialised_ready w0 w (device_init_inv sel w0 w Hinit))
      as (_ & Hprec & Hnothing & _).
    rewrite Hforce in Hprec.
    destruct Hnothing as (_ & _ & _ & _ & _ & _ & _ & _ & _ & Hh & Hfs & _).
    repeat split; assumption.
Qed.


(** The precision the model cache step leaves, on an accelerator: the
    one asked for when the step changes it, the one it found
    otherwise. *)
Lemma ensure_models_miss_precision req w :
  cache_fits req (td w) = false ->
  Str.truthy (precision (td w)) = true ->
  use_stable_diffusion_model req <> "" ->
  path_exists (use_stable_diffusion_model req +:+ ".ckpt") = true ->
  device_eqb (td_device (td w)) cpu = false ->
  exists w',
    ensure_models req w = (Ok tt, w')
    /\ td_device (td w') = td_device (td w)
    /\ force_full_precision (td w') = force_full_precision (td w)
    /\ precision (td w')
       = (if precision_mismatch req (td w)
          then if use_full_precision req then "full" else "autocast"
          else precision (td w))
    /\ model_is_half (td w') = String.eqb (precision (td w')) "autocast".
Proof.
  intros Hfits Hprec Hne Hex Hdev. unfold ensure_models. msimpl.
  assert (Hlit : Str.truthy (if use_full_precision req then "full"
                             else "autocast") = true)
    by (destruct (use_full_precision req); reflexivity).
  destruct (model_is_stale req (td w)) eqn:Es; msimpl.
  - set (wa := with_td (set_vae_file (use_vae_model req))
                 (with_td (set_ckpt_file (Some (use_stable_diffusion_model req))) w)).
    change (precision_mismatch req (td wa))
      with (precision_mismatch req (td w)).
    destruct (precision_mismatch req (td w)) eqn:Ep; msimpl; cbn [orb].
    + set (wb := with_td (set_precision _) wa).
      destruct (reload_spec wb (use_stable_diffusion_model req)
                  eq_refl Hne Hex Hlit)
        as (w' & Hrun & _ & _ & _ & _ & Hd & Hf & Hp & Hh).
      rewrite Hrun. exists w'.
      change (td_device (td wb)) with (td_device (td w)) in *.
      rewrite Hdev in Hp, Hh. cbn [negb andb] in Hh.
      repeat split; try assumption. rewrite Hh, Hp. reflexivity.
    + destruct (reload_spec wa (use_stable_diffusion_model req)
                  eq_refl Hne Hex Hprec)
        as (w' & Hrun & _ & _ & _ & _ & Hd & Hf & Hp & Hh).
      rewrite Hrun. exists w'.
      change (td_device (td wa)) with (td_device (td w)) in *.
      rewrite Hdev in Hp, Hh. cbn [negb andb] in Hh.
      repeat split; try assumption. rewrite Hh, Hp. reflexivity.
  - destruct (not_stale_inv _ _ Es) as (Hbound & Hckpt & Hvae).
    assert (Ep : precision_mismatch req (td w) = true).
    { unfold cache_fits in Hfits. rewrite Es in Hfits. cbn in Hfits.
      apply negb_false_iff in Hfits. exact Hfits. }
    rewrite Ep. msimpl. cbn [orb].
    set (wb := with_td (set_precision _) w).
    destruct (reload_spec wb (use_stable_diffusion_model req)
                Hckpt Hne Hex Hlit)
      as (w' & Hrun & _ & _ & _ & _ & Hd & Hf & Hp & Hh).
    rewrite Hrun. exists w'.
    change (td_device (td wb)) with (td_device (td w)) in *.
    rewrite Hdev in Hp, Hh. cbn [negb andb] in Hh.
    repeat split; try assumption. rewrite Hh, Hp. reflexivity.
Qed.

(** The same for a whole request, however it ends. *)
Lemma do_mk_img_precision req w r w' :
  use_stable_diffusion_model req <> "" ->
  path_exists (use_stable_diffusion_model req +:+ ".ckpt") = true ->
  Str.truthy (precision (td w)) = true ->
  device_eqb (td_device (td w)) cpu = false ->
  do_mk_img req w = (r, w') ->
  td_device (td w') = td_device (td w)
  /\ force_full_precision (td w') = force_full_precision (td w)
  /\ (if cache_fits req (td w)
      then precision (td w') = precision (td w)
           /\ model_is_half (td w') = model_is_half (td w)
      else precision (td w')
           = (if precision_mismatch req (td w)
              then if use_full_precision req then "full" else "autocast"
              else precision (td w))
           /\ model_is_half (td w')
              = String.eqb (precision (td w')) "autocast").
Proof.
  intros Hne Hex Hprec Hdev Hrun.
  assert (exists wa,
             start_request req w = (Ok tt, wa)
             /\ bound (model (td wa)) = true
             /\ td_device (td wa) = td_device (td w)
             /\ force_full_precision (td wa) = force_full_precision (td w)
             /\ (if cache_fits req (td w)
                 then precision (td wa) = precision (td w)
                      /\ model_is_half (td wa) = model_is_half (td w)
                 else precision (td wa)
                      = (if precision_mismatch req (td w)
                         then if use_full_precision req then "full"
                              else "autocast"
                         else precision (td w))
                      /\ model_is_half (td wa)
                         = String.eqb (precision (td wa)) "autocast"))
    as (wa & Hstart & Hbound & Hd & Hf & Hcase).
  { rewrite (start_request_on_disk req w Hex).
    change (cache_fits req (td w)) with (cache_fits req (td (reset w))).
    change (precision_mismatch req (td w))
      with (precision_mismatch req (td (reset w))).
    change (precision (td w)) with (precision (td (reset w))).
    change (model_is_half (td w)) with (model_is_half (td (reset w))).
    change (td_device (td w)) with (td_device (td (reset w))).
    change (force_full_precision (td w))
      with (force_full_precision (td (reset w))).
    destruct (cache_fits req (td (reset w))) eqn:Efit.
    - exists (reset w). rewrite (ensure_models_hit _ _ Efit).
      repeat split.
      unfold cache_fits in Efit. apply andb_true_iff in Efit as [Hs _].
      apply negb_true_iff in Hs. apply (not_stale_inv _ _ Hs).
    - destruct (ensure_models_miss req (reset w) Efit Hprec Hne Hex)
        as (wa & Hens & _ & Hfit & _).
      destruct (ensure_models_miss_precision req (reset w) Efit Hprec Hne Hex
                  Hdev) as (wa' & Hens' & Hd & Hf & Hp & Hh).
      rewrite Hens in Hens'. injection Hens' as <-.
      exists wa. repeat split; try assumption.
      unfold cache_fits in Hfit. apply andb_true_iff in Hfit as [Hs _].
      apply negb_true_iff in Hs. apply (not_stale_inv _ _ Hs). }
  rewrite (do_mk_img_from _ _ _ Hstart) in Hrun.
  destruct (preserves_run _ _ _ _ _ (cache_generate (cache_key wa) req) Hrun
              (conj eq_refl Hbound)) as [Hkey _].
  unfold cache_key in Hkey. injection Hkey as _ _ _ Hd' Hp' Hh' Hf'.
  rewrite Hd', Hf', Hp', Hh'. repeat split; assumption.
Qed.


End PrecisionFacts.

(** The worker of the demo, set up by [device_init] on three
    accelerators. *)
Lemma device_init_ready_witness :
  @device_ready Demo.demo_types Demo.three_gpus Demo.demo_platform
    Demo.start Demo.fresh_worker.
Proof.
  apply (device_init_ready (Cu := Demo.three_gpus) (Pl := Demo.demo_platform)
           "auto").
  vm_compute; reflexivity.
Defined.

(** A 16xx card: the worker starts with full precision forced, and a
    request that does not ask for full precision leaves it so. *)
Lemma forced_full_precision_kept_witness :
  let mk := @mk_img Demo.demo_types (Demo.demo_consumer None) Demo.demo_fs
              Demo.gtx_1660 Demo.demo_platform Demo.demo_pil
              Demo.demo_networks in
  forced_full Demo.gtx_worker
  /\ forced_full (snd (mk Demo.demo_request Demo.gtx_worker)).
Proof.
  intros mk.
  destruct (forced_full_precision_kept
              (Cons := Demo.demo_consumer None) (FS := Demo.demo_fs)
              (Cu := Demo.gtx_1660) (Pl := Demo.demo_platform)
              (P := Demo.demo_pil) (N := Demo.demo_networks)
              Demo.demo_request Demo.gtx_worker) as [Hkept Hinit].
  assert (H : forced_full Demo.gtx_worker).
  { apply (Hinit "auto" Demo.start); vm_compute; reflexivity. }
  split; [exact H|exact (Hkept H)].
Defined.



(** ** An accelerator selected by its index *)

Section ExplicitDeviceFacts.
Context `{Ty : Types} `{Cu : !Cuda} `{Pl : !Platform}.

Lemma device_init_gpu_index sel s n w :
  cuda_is_available = true ->
  Str.lower sel = "gpu:" +:+ s ->
  Str.to_int s = Ok n ->
  device_init sel w =
  bind (device_select (DInt n))
       (fun ok => if ok then ret tt else device_init_current)
       (with_td init_thread_data w).
Proof.
  intros Hcuda Hsel Hn. unfold device_init. rewrite bind_modify.
  rewrite Hsel, Hcuda. cbn [negb].
  change (String.eqb ("gpu:" +:+ s) "cpu") with false. cbv iota zeta.
  assert (Hauto : String.eqb sel "auto" = false).
  { destruct (String.eqb sel "auto") eqn:E; [|reflexivity].
    apply String.eqb_eq in E. subst sel. discriminate Hsel. }
  rewrite Hauto, andb_false_r. rewrite Hauto.
  unfold device_init_explicit. cbv zeta. rewrite Hsel.
  change (Str.startswith "gpu:" ("gpu:" +:+ s)) with true. cbv iota.
  change (Str.drop 4 ("gpu:" +:+ s)) with s.
  rewrite Hn. rewrite bind_assoc, bind_lift_Ok, bind_ret_l.
  reflexivity.
Qed.

Lemma device_init_current_word w :
  cuda_is_available = true ->
  device_init "current" w = device_init_current (with_td init_thread_data w).
Proof.
  intros Hcuda. unfold device_init. rewrite bind_modify, Hcuda.
  change (String.eqb (Str.lower "current") "cpu") with false.
  change (String.eqb "current" "auto") with false.
  rewrite andb_false_r. reflexivity.
Qed.

(** X2.  A selection ["GPU:n"] when CUDA is available.  If asking the
    device for its memory fails with a [RuntimeError] that speaks of an
    invalid device, [device_init] raises a [NameError] and the worker is
    left initialised but without a device.  If the device has less than
    3 GB in all, it is passed over in silence: [device_init] goes on as
    for ['current'], with the current device or, failing that, the
    CPU. *)
Theorem device_init_missing_or_small_gpu
        (sel s : string) (n : Z) (w : world) :
  cuda_is_available = true ->
  Str.lower sel = "gpu:" +:+ s ->
  Str.to_int s = Ok n ->
  (forall e,
      cuda_mem_get_info (DInt n) = Raise e ->
      exn_cls e = RuntimeError ->
      Str.contains "invalid device" (exn_str e) = true ->
      exists e',
        device_init sel w = (Raise e', with_td init_thread_data w)
        /\ exn_cls e' = NameError
        /\ td_device (td (with_td init_thread_data w)) = DNone)
  /\ (forall mem_free mem_total q,
         cuda_mem_get_info (DInt n) = Ok (mem_free, mem_total) ->
         Float.int_truediv mem_total giga = Ok q ->
         Float.ltb q Float.three = true ->
         device_init sel w = device_init "current" w).
Proof.
  intros Hcuda Hsel Hn.
  rewrite (device_init_gpu_index sel s n w Hcuda Hsel Hn).
  split.
  - intros e Hinfo Hcls Hmsg.
    assert (Htruthy : Str.truthy (exn_str e) = true).
    { destruct (exn_str e); [discriminate Hmsg|reflexivity]. }
    unfold device_select, device_would_fail.
    change (device_eqb (DInt n) cpu) with false. cbv iota.
    rewrite Hcuda, Hinfo, Hcls. cbn [negb]. rewrite bind_assoc, bind_lift_Ok.
    change (Str.opt_truthy (Some (exn_str e))) with (Str.truthy (exn_str e)).
    change (default "" (Some (exn_str e))) with (exn_str e).
    rewrite Htruthy, Hmsg.
    eexists. rewrite bind_raise_l. repeat split.
  - intros mem_free mem_total q Hinfo Hq Hsmall.
    unfold device_select at 1. unfold device_would_fail.
    change (device_eqb (DInt n) cpu) with false. cbv iota.
    rewrite Hcuda, Hinfo, Hq. cbn [negb rbind]. rewrite Hsmall.
    rewrite bind_assoc, bind_lift_Ok.
    match goal with
    | |- context [Str.opt_truthy (Some ?m)] =>
        change (Str.opt_truthy (Some m)) with true;
        change (Str.contains "invalid device" (default "" (Some m)))
          with false
    end.
    cbv iota.
    rewrite bind_ret_l, (device_init_current_word w Hcuda). reflexivity.
Qed.

End ExplicitDeviceFacts.

(** Three accelerators, the last with 2 GB: ["GPU:7"] does not exist,
    and ["GPU:2"] is passed over. *)
Lemma device_init_missing_or_small_gpu_witness :
  (exists e',
      @device_init Demo.demo_types Demo.demo_invalid Demo.demo_platform
        "GPU:7" Demo.start
      = (Raise e', with_td init_thread_data Demo.start)
      /\ exn_cls e' = NameError
      /\ td_device (td (with_td init_thread_data Demo.start)) = DNone)
  /\ @device_init Demo.demo_types Demo.demo_invalid Demo.demo_platform
       "GPU:2" Demo.start
     = @device_init Demo.demo_types Demo.demo_invalid Demo.demo_platform
         "current" Demo.start.
Proof.
  split.
  - apply (proj1 (device_init_missing_or_small_gpu
                    (Cu := Demo.demo_invalid) (Pl := Demo.demo_platform)
                    "GPU:7" "7" 7 Demo.start eq_refl eq_refl eq_refl)
                 Demo.no_such_device).
    + reflexivity.
    + reflexivity.
    + reflexivity.
  - apply (proj2 (device_init_missing_or_small_gpu
                    (Cu := Demo.demo_invalid) (Pl := Demo.demo_platform)
                    "GPU:2" "2" 2 Demo.start eq_refl eq_refl eq_refl)
                 (1 * 10 ^ 9) (2 * 10 ^ 9) Float.two).
    + reflexivity.
    + vm_compute; reflexivity.
    + vm_compute; reflexivity.
Defined.

(** ** Failures that are reported *)

Section FailureReported.
Context `{Ty : Types} `{Cons : !Consumer} `{FS : !Filesystem} `{Cu : !Cuda}
        `{Pl : !Platform} `{P : !PIL} `{N : !Networks}.

Lemma all_bound_reduced_stable : run_stable all_bound_reduced.
Proof.
  split.
  - intros f w Hf (Hm & Hcs & Hfs & Hred).
    destruct Hf; repeat split; first [assumption | reflexivity].
  - intros w ys H. exact H.
Qed.

Lemma load_model_ckpt_binds w w' :
  load_model_ckpt w = (Ok tt, w') ->
  bound (model (td w')) = true /\ bound (modelCS (td w')) = true
  /\ bound (modelFS (td w')) = true
  /\ reduced_memory (td w') = reduced_memory (td w).
Proof.
  unfold load_model_ckpt. rewrite bind_get.
  destruct (ckpt_file (td w)) as [ckpt|]; [|discriminate].
  destruct (negb (Str.truthy ckpt)); [discriminate|].
  destruct (negb (path_exists _)); [discriminate|].
  destruct (negb (Str.truthy (precision (td w)))); msimpl;
    destruct (unet_bs (td w) =? 0); msimpl;
    destruct (device_eqb (td_device (td w)) cpu); msimpl;
    intros H; injection H as <-; repeat split.
Qed.

Lemma unload_models_reduced w w1 :
  unload_models w = (Ok tt, w1) ->
  reduced_memory (td w1) = reduced_memory (td w).
Proof.
  unfold unload_models. rewrite bind_get.
  destruct (model (td w)); msimpl; intros H; injection H as <-; reflexivity.
Qed.

Lemma reload_binds w w' :
  bind unload_models (fun _ => bind unload_filters (fun _ => load_model_ckpt)) w
  = (Ok tt, w') ->
  bound (model (td w')) = true /\ bound (modelCS (td w')) = true
  /\ bound (modelFS (td w')) = true
  /\ reduced_memory (td w') = reduced_memory (td w).
Proof.
  intros H.
  apply bind_Ok_inv in H as ([] & w1 & Hunload & H).
  apply bind_Ok_inv in H as ([] & w2 & Hfilters & H).
  destruct (load_model_ckpt_binds _ _ H) as (Hm & Hcs & Hfs & Hred).
  repeat split; try assumption. rewrite Hred.
  unfold unload_filters in Hfilters. rewrite bind_modify in Hfilters.
  injection Hfilters as <-.
  apply (unload_models_reduced _ _ Hunload).
Qed.

Lemma ensure_models_binds req w w' :
  handles_together (td w) ->
  ensure_models req w = (Ok tt, w') ->
  bound (model (td w')) = true /\ bound (modelCS (td w')) = true
  /\ bound (modelFS (td w')) = true
  /\ reduced_memory (td w') = reduced_memory (td w).
Proof.
  intros [Hcs Hfs]. unfold ensure_models. msimpl.
  destruct (model_is_stale req (td w)) eqn:Es; msimpl.
  - match goal with
    | |- context [precision_mismatch req ?t] =>
        destruct (precision_mismatch req t)
    end; msimpl; cbn [orb]; intros H; apply reload_binds in H; exact H.
  - destruct (precision_mismatch req (td w)); msimpl; cbn [orb].
    + intros H. apply reload_binds in H. exact H.
    + intros H. injection H as <-.
      destruct (not_stale_inv _ _ Es) as (Hm & _).
      rewrite Hcs, Hfs. repeat split; assumption.
Qed.

Lemma all_bound_is_Some w :
  all_bound_reduced w ->
  is_Some (model (td w)) /\ is_Some (modelCS (td w))
  /\ is_Some (modelFS (td w)).
Proof.
  intros (Hm & Hcs & Hfs & _).
  destruct (model (td w)), (modelCS (td w)), (modelFS (td w));
    try discriminate.
  repeat split; eexists; reflexivity.
Qed.

Lemma do_mk_img_missing req w :
  path_exists (use_stable_diffusion_model req +:+ ".ckpt") = false ->
  exists e, do_mk_img req w = (Raise e, reset w).
Proof.
  intros Hmissing. unfold do_mk_img, start_request.
  msimpl. rewrite Hmissing. cbn [negb].
  unfold raise at 1. unfold bind at 1. cbv beta iota.
  eexists. reflexivity.
Qed.

(** Where a failing request leaves the worker when its checkpoint is on
    disk, or when it is not and a model is held. *)
Lemma do_mk_img_fails_bound req w e w1 :
  handles_together (td w) ->
  reduced_memory (td w) = true ->
  (path_exists (use_stable_diffusion_model req +:+ ".ckpt") = true
   /\ use_stable_diffusion_model req <> ""
   /\ Str.truthy (precision (td w)) = true)
  \/ (path_exists (use_stable_diffusion_model req +:+ ".ckpt") = false
      /\ bound (model (td w)) = true) ->
  do_mk_img req w = (Raise e, w1) ->
  all_bound_reduced w1.
Proof.
  intros Htogether Hred [(Hex & Hne & Hprec) | (Hmissing & Hm)] Hrun.
  - assert (exists wa, start_request req w = (Ok tt, wa)) as [wa Hstart].
    { rewrite (start_request_on_disk req w Hex).
      destruct (cache_fits req (td (reset w))) eqn:Efit.
      - exists (reset w). apply ensure_models_hit, Efit.
      - destruct (ensure_models_miss req (reset w) Efit Hprec Hne Hex)
          as (wa & Hens & _). exists wa. exact Hens. }
    assert (Hwa : all_bound_reduced wa).
    { rewrite (start_request_on_disk req w Hex) in Hstart.
      destruct (ensure_models_binds req (reset w) wa Htogether Hstart)
        as (H1 & H2 & H3 & H4).
      repeat split; try assumption. rewrite H4. exact Hred. }
    rewrite (do_mk_img_from _ _ _ Hstart) in Hrun.
    apply (preserves_run _ _ _ _ _
             (run_generate all_bound_reduced all_bound_reduced_stable req)
             Hrun Hwa).
  - destruct (do_mk_img_missing req w Hmissing) as [e' Hraise].
    rewrite Hraise in Hrun. injection Hrun as _ <-.
    destruct Htogether as [Hcs Hfs].
    repeat split; cbn; [exact Hm| rewrite Hcs; exact Hm
                       | rewrite Hfs; exact Hm | exact Hred].
Qed.

(** No request takes the reduced-memory policy away. *)
Lemma mk_img_keeps_reduced req :
  preserves (fun w => reduced_memory (td w) = true) (mk_img req).
Proof.
  assert (Hunload : preserves (fun w => reduced_memory (td w) = true)
                      unload_models).
  { unfold unload_models.
    apply preserves_bind; [apply preserves_get|]. intros t.
    apply preserves_bind.
    { destruct (model t); [|apply preserves_ret]. intros w' Hw'. exact Hw'. }
    intros _. preserves_auto. }
  assert (Hensure : preserves (fun w => reduced_memory (td w) = true)
                      (ensure_models req)).
  { unfold ensure_models, unload_filters, load_model_ckpt.
    repeat first [ progress preserves_auto
                 | apply preserves_bind; [|intros ?]
                 | exact Hunload
                 | intros w' Hw'; exact Hw' ]. }
  apply mk_img_keeps; [|exact Hunload|exact Hensure].
  split; [intros f w' Hf Hw'; destruct Hf; exact Hw'
         |intros w' ys Hw'; exact Hw'].
Qed.

(** Networks that sit on the CPU are bound. *)
Lemma on_cpu_together t :
  (stage_dev <$> modelFS t) = Some cpu ->
  (stage_dev <$> modelCS t) = Some cpu ->
  (model1_dev <$> model t) = Some cpu ->
  handles_together t /\ bound (model t) = true.
Proof.
  intros Hfs Hcs Hm. unfold handles_together.
  destruct (modelFS t), (modelCS t), (model t); try discriminate.
  split; [split; reflexivity|reflexivity].
Qed.


End FailureReported.


(** ** Requests that are not streamed *)

Section NoPartialFrame.
Context `{Ty : Types} `{Cons : !Consumer} `{FS : !Filesystem} `{Cu : !Cuda}
        `{Pl : !Platform} `{P : !PIL} `{N : !Networks}.

Lemma no_partial_print l : preserves no_partial (print l).
Proof. intros w H. exact H. Qed.
Hint Resolve no_partial_print : frame.

Lemma no_partial_modelFS_to d : preserves no_partial (modelFS_to d).
Proof. unfold modelFS_to. preserves_auto. Qed.
Hint Resolve no_partial_modelFS_to : frame.

Lemma no_partial_modelCS_to d : preserves no_partial (modelCS_to d).
Proof. unfold modelCS_to. preserves_auto. Qed.
Hint Resolve no_partial_modelCS_to : frame.

Lemma no_partial_wait_model_move_to which d :
  preserves no_partial (wait_model_move_to which d).
Proof. unfold wait_model_move_to. preserves_auto. Qed.
Hint Resolve no_partial_wait_model_move_to : frame.

Lemma no_partial_ensure_models req : preserves no_partial (ensure_models req).
Proof.
  unfold ensure_models, unload_models, unload_filters, load_model_ckpt.
  preserves_auto.
Qed.
Hint Resolve no_partial_ensure_models : frame.

Lemma no_partial_start_request req : preserves no_partial (start_request req).
Proof. unfold start_request. preserves_auto. Qed.

Lemma no_partial_before_sampling req :
  stream_progress_updates req = false ->
  preserves no_partial (before_sampling req).
Proof.
  intros Hstream.
  unfold before_sampling, get_image_progress_generator, apply_turbo,
    prepare_img2img, conditioning.
  rewrite Hstream. preserves_auto.
Qed.

End NoPartialFrame.

Section NotStreamed.
Context `{Ty : Types} `{Cons : !Consumer} `{FS : !Filesystem} `{Cu : !Cuda}
        `{Pl : !Platform} `{P : !PIL} `{N : !Networks}.

(** The handler of a request that is not streamed is never run: what
    [do_mk_img] holds as its samples is the generator object. *)
Lemma run_handler_not_streamed req setup c uc w :
  stream_progress_updates req = false ->
  no_partial w ->
  run_handler req setup c uc w = (Ok (Some Generator), w).
Proof.
  intros Hstream Hp. unfold run_handler, try_except. rewrite Hstream.
  rewrite bind_ret_l, bind_get, Hp. reflexivity.
Qed.

(** A generator cannot be indexed: decoding returns only for an empty
    batch. *)
Lemma decode_images_generator_inv n w l w' :
  decode_images n Generator w = (Ok l, w') ->
  n <= 0 /\ l = [] /\ w' = w.
Proof.
  unfold decode_images, range.
  destruct (Z.to_nat n) as [|k] eqn:En.
  - cbn. intros H. injection H as <- <-. repeat split. lia.
  - cbn [seq map mapM]. rewrite bind_assoc, bind_get.
    destruct (modelFS (td w)); [|discriminate].
    cbn [samples_index]. discriminate.
Qed.

Lemma decode_images_generator_raises n w fs :
  0 < n ->
  modelFS (td w) = Some fs ->
  exists e, decode_images n Generator w = (Raise e, w)
            /\ exn_cls e = TypeError.
Proof.
  intros Hn Hfs. unfold decode_images, range.
  destruct (Z.to_nat n) as [|k] eqn:En; [lia|].
  cbn [seq map mapM]. rewrite bind_assoc, bind_get, Hfs.
  cbn [samples_index]. eexists. split; reflexivity.
Qed.

Lemma finish_batch_generator_inv req w images w' :
  finish_batch req Generator w = (Ok images, w') ->
  num_outputs req <= 0 /\ images = [] /\ yielded w' = yielded w.
Proof.
  unfold finish_batch. intros H.
  apply bind_Ok_inv in H as (img_data & w1 & Hdecode & H).
  apply decode_images_generator_inv in Hdecode as (Hn & -> & ->).
  rewrite bind_get in H.
  apply bind_Ok_inv in H as ([] & w2 & Hmove & H).
  cbn [save_all] in H. rewrite bind_ret_l, bind_get in H.
  apply bind_Ok_inv in H as ([] & w3 & Hunload & H).
  apply ret_Ok_inv in H as [-> ->].
  split; [exact Hn|]. split; [reflexivity|].
  assert (Hq2 : quiet_is (quiet_key w) w2).
  { assert (Hpres : preserves (quiet_is (quiet_key w))
                      (if reduced_memory (td w)
                       then wait_model_move_to MovedFS cpu else ret tt)).
    { destruct (reduced_memory (td w));
        [apply quiet_wait_model_move_to|apply preserves_ret]. }
    apply (preserves_run _ _ _ _ _ Hpres Hmove). reflexivity. }
  assert (Hq3 : quiet_is (quiet_key w) w3).
  { assert (Hpres : preserves (quiet_is (quiet_key w))
                      (if reduced_memory (td w2)
                       then unload_filters else ret tt)).
    { destruct (reduced_memory (td w2));
        [apply quiet_unload_filters|apply preserves_ret]. }
    apply (preserves_run _ _ _ _ _ Hpres Hunload Hq2). }
  unfold quiet_is, quiet_key in Hq3. congruence.
Qed.


End NotStreamed.

(** ** A streamed run *)

Section Streamed.
Context `{Ty : Types} `{Cons : !Consumer} `{FS : !Filesystem} `{Cu : !Cuda}
        `{Pl : !Platform} `{P : !PIL} `{N : !Networks}.

Variable req : Request.

Lemma preview_key_inj i j : preview_key req i = preview_key req j -> i = j.
Proof.
  unfold preview_key. intros H.
  apply (inj (String.app (session_id req))) in H.
  apply (inj (String.app "/")) in H.
  apply (inj pretty) in H. exact H.
Qed.

(** The previews of the latents at the indices [a, a + len) of a batch:
    the paths are returned in order, each JPEG is stored under its key,
    and no other key is touched. *)
Lemma update_temp_img_range x fs w px s ys :
  modelFS (td w) = Some fs ->
  forall len a ti,
    (a + len <= length x)%nat ->
    (forall j xj, (a <= j < a + len)%nat -> x !! j = Some xj ->
                  is_ok (preview_of fs xj) = true) ->
    exists ti',
      mapM (fun i =>
              bind get (fun t =>
              match modelFS t with
              | None => raise (none_has_no "decode_first_stage")
              | Some fs =>
                  bind (lift (tensor_index x i)) (fun x =>
                  let img := Image_fromarray (decode_first_stage fs x) in
                  bind (lift (Image_save img "JPEG")) (fun buf =>
                  bind (modify (fun t =>
                          set_temp_images
                            (<[session_id req +:+ "/" +:+ pretty i := buf]>
                               (temp_images t)) t))
                       (fun _ =>
                  ret ("/image/tmp/" +:+ session_id req +:+ "/" +:+ pretty i))))
              end))
           (map Z.of_nat (seq a len)) (sampling w ti px s ys)
      = (Ok (preview_path req <$> map Z.of_nat (seq a len)),
         sampling w ti' px s ys)
      /\ (forall j xj, (a <= j < a + len)%nat -> x !! j = Some xj ->
            Ok <$> ti' !! preview_key req (Z.of_nat j)
            = Some (preview_of fs xj))
      /\ (forall key, (forall j, (a <= j < a + len)%nat ->
                                 key <> preview_key req (Z.of_nat j)) ->
            ti' !! key = ti !! key).
Proof.
  intros Hfs len. induction len as [|len IH]; intros a ti Hlen Hjpeg.
  - exists ti. split; [reflexivity|]. split; [intros j xj Hj; lia|reflexivity].
  - cbn [seq map mapM].
    destruct (lookup_lt_is_Some_2 x a ltac:(lia)) as [xa Hxa].
    pose proof (Hjpeg a xa ltac:(lia) Hxa) as Hsave. unfold preview_of in Hsave.
    destruct (Image_save (Image_fromarray (decode_first_stage fs xa)) "JPEG")
      as [buf|e] eqn:Esave; [clear Hsave|discriminate].
    destruct (IH (S a) (<[preview_key req (Z.of_nat a) := buf]> ti)
                ltac:(lia)) as (ti' & Hrest & Hin & Hout).
    { intros j xj Hj. apply Hjpeg. lia. }
    exists ti'. split; [|split].
    + rewrite bind_assoc, bind_get.
      change (modelFS (td (sampling w ti px s ys))) with (modelFS (td w)).
      rewrite Hfs, (tensor_index_at _ _ _ Hxa), bind_assoc, bind_lift_Ok.
      cbv zeta. rewrite Esave, !bind_assoc, bind_lift_Ok. msimpl.
      match goal with
      | |- bind _ _ ?w' = _ =>
          change w' with
            (sampling w (<[preview_key req (Z.of_nat a) := buf]> ti) px s ys)
      end.
      rewrite (bind_ok _ _ _ _ _ Hrest). reflexivity.
    + intros j xj Hj Hxj.
      destruct (decide (j = a)) as [->|Hne].
      * rewrite Hout.
        -- rewrite lookup_insert_eq. rewrite Hxa in Hxj. injection Hxj as <-.
           unfold preview_of. rewrite Esave. reflexivity.
        -- intros j' Hj' Heq. apply preview_key_inj in Heq. lia.
      * apply Hin; [lia|exact Hxj].
    + intros key Hkey. rewrite Hout.
      * apply lookup_insert_ne. intros Heq. apply (Hkey a); [lia|].
        symmetry. exact Heq.
      * intros j Hj. apply Hkey. lia.
Qed.

Lemma update_temp_img_sampling_stores x fs w ti px s ys :
  modelFS (td w) = Some fs ->
  (Z.to_nat (num_outputs req) <= length x)%nat ->
  (forall j xj, (j < Z.to_nat (num_outputs req))%nat -> x !! j = Some xj ->
                is_ok (preview_of fs xj) = true) ->
  exists ti',
    update_temp_img req x (sampling w ti px s ys)
    = (Ok (preview_paths req), sampling w ti' px s ys)
    /\ (forall j xj, (j < Z.to_nat (num_outputs req))%nat ->
          x !! j = Some xj ->
          Ok <$> ti' !! preview_key req (Z.of_nat j)
          = Some (preview_of fs xj))
    /\ (forall key, (forall j, (j < Z.to_nat (num_outputs req))%nat ->
                               key <> preview_key req (Z.of_nat j)) ->
          ti' !! key = ti !! key).
Proof.
  intros Hfs Hlen Hjpeg.
  destruct (update_temp_img_range x fs w px s ys Hfs
              (Z.to_nat (num_outputs req)) 0%nat ti ltac:(lia))
    as (ti' & Hrun & Hin & Hout).
  { intros j xj Hj. apply Hjpeg. lia. }
  exists ti'. split; [exact Hrun|]. split.
  - intros j xj Hj. apply Hin. lia.
  - intros key Hkey. apply Hout. intros j Hj. apply Hkey. lia.
Qed.

Lemma with_td_temp_images w ti :
  sampling w ti (partial_x_samples (td w)) (stop_processing (td w)) []
  = with_td (set_temp_images ti) w.
Proof.
  destruct w as [t y c]. destruct t. unfold sampling, with_td. cbn.
  rewrite app_nil_r. reflexivity.
Qed.

(** X9.  [update_temp_img] on a batch that has a latent for each picture
    asked for, when the JPEG encoder takes each decoded latent: it
    returns the paths [/image/tmp/<session>/<i>] in order; afterwards the
    preview buffer holds under [<session>/<i>] the JPEG of the [i]-th
    latent; every other key of the buffer, and everything else in the
    worker, is as before. *)
Theorem update_temp_img_stores (x : list latent) (fs : stage) (w : world) :
  modelFS (td w) = Some fs ->
  (Z.to_nat (num_outputs req) <= length x)%nat ->
  (forall j xj, (j < Z.to_nat (num_outputs req))%nat -> x !! j = Some xj ->
                is_ok (preview_of fs xj) = true) ->
  exists previews,
    update_temp_img req x w
    = (Ok (preview_paths req), with_td (set_temp_images previews) w)
    /\ (forall j xj, (j < Z.to_nat (num_outputs req))%nat ->
          x !! j = Some xj ->
          Ok <$> previews !! preview_key req (Z.of_nat j)
          = Some (preview_of fs xj))
    /\ (forall key, (forall j, (j < Z.to_nat (num_outputs req))%nat ->
                               key <> preview_key req (Z.of_nat j)) ->
          previews !! key = temp_images (td w) !! key).
Proof.
  intros Hfs Hlen Hjpeg.
  destruct (update_temp_img_sampling_stores x fs w (temp_images (td w))
              (partial_x_samples (td w)) (stop_processing (td w)) []
              Hfs Hlen Hjpeg) as (ti' & Hrun & Hin & Hout).
  rewrite sampling_id, with_td_temp_images in Hrun.
  exists ti'. split; [exact Hrun|]. split; assumption.
Qed.

(** One callback of a run that is not stopped: the latent is recorded
    and the progress record of the step is yielded. *)
Lemma img_callback_record total x i fs w ti px ys :
  modelFS (td w) = Some fs ->
  (forall a, is_ok (Image_save (Image_fromarray a) "JPEG") = true) ->
  (Z.to_nat (num_outputs req) <= length x)%nat ->
  sets_stop (length (yielded w) + length ys) = false ->
  exists ti',
    img_callback req total x i (sampling w ti px false ys)
    = (Ok tt,
       sampling w ti' (Some (Some x)) false
                (ys ++ [progress_record req total (x, i)])).
Proof.
  intros Hfs Hjpeg Hlen Hquiet. unfold img_callback. rewrite bind_modify.
  change (with_td (set_partial_x_samples (Some (Some x)))
                  (sampling w ti px false ys))
    with (sampling w ti (Some (Some x)) false ys).
  unfold progress_record. cbn [snd].
  assert (exists ti',
             (if stream_image_progress req && (i mod 5 =? 0)
              then bind (update_temp_img req x) (fun p => ret (Some p))
              else ret None) (sampling w ti (Some (Some x)) false ys)
             = (Ok (if stream_image_progress req && (i mod 5 =? 0)
                    then Some (preview_paths req) else None),
                sampling w ti' (Some (Some x)) false ys))
    as (ti' & Hprev).
  { destruct (stream_image_progress req && (i mod 5 =? 0)).
    - destruct (update_temp_img_sampling_stores x fs w ti (Some (Some x))
                  false ys Hfs Hlen) as (ti' & Hps & _).
      { intros j xj _ _. apply Hjpeg. }
      exists ti'. rewrite (bind_ok _ _ _ _ _ Hps). reflexivity.
    - exists ti. reflexivity. }
  exists ti'.
  rewrite (bind_ok _ _ _ _ _ Hprev).
  rewrite (bind_ok _ _ _ _ _ (yield_sampling _ _ _ _ _ _)).
  rewrite bind_get, Hquiet. reflexivity.
Qed.

Lemma run_calls_records total fs w :
  modelFS (td w) = Some fs ->
  (forall a, is_ok (Image_save (Image_fromarray a) "JPEG") = true) ->
  forall calls ti px ys,
    Forall (fun call => (Z.to_nat (num_outputs req) <= length (fst call))%nat)
           calls ->
    (forall j, (j < length calls)%nat ->
               sets_stop (length (yielded w) + length ys + j) = false) ->
    exists ti',
      run_calls req total calls (sampling w ti px false ys)
      = (Ok tt,
         sampling w ti'
           (match last calls with
            | Some call => Some (Some (fst call))
            | None => px
            end)
           false (ys ++ (progress_record req total <$> calls))).
Proof.
  intros Hfs Hjpeg calls.
  induction calls as [|[x i] calls IH]; intros ti px ys Hlen Hquiet.
  - exists ti. cbn. rewrite app_nil_r. reflexivity.
  - apply Forall_cons in Hlen as [Hx Hlen]. cbn [fst] in Hx.
    pose proof (Hquiet 0%nat ltac:(cbn; lia)) as H0.
    rewrite Nat.add_0_r in H0.
    destruct (img_callback_record total x i fs w ti px ys Hfs Hjpeg Hx H0)
      as (ti1 & Hcall).
    destruct (IH ti1 (Some (Some x))
                (ys ++ [progress_record req total (x, i)]) Hlen)
      as (ti' & Hrest).
    { intros j Hj. rewrite length_app. cbn [length].
      specialize (Hquiet (S j) ltac:(cbn; lia)).
      replace (length (yielded w) + (length ys + 1) + j)%nat
        with (length (yielded w) + length ys + S j)%nat by lia.
      exact Hquiet. }
    exists ti'. cbn [run_calls].
    rewrite (bind_ok _ _ _ _ _ Hcall), Hrest, <- app_assoc. cbn [fmap list_fmap app].
    rewrite last_cons. destruct (last calls); reflexivity.
Qed.

(** *** Decoding and saving without filters *)

Lemma save_one_plain fs xi i images w :
  has_filters req = false ->
  (forall a, is_ok (Image_save (Image_fromarray a) (output_format req)) = true) ->
  exists img,
    image_of_latent req fs i xi = Ok img
    /\ save_one req (decode_first_stage fs xi) i (images, seed req + i) w
       = (Ok (images ++ [img], seed req + (i + 1)), w).
Proof.
  intros Hplain Henc. unfold save_one, image_of_latent.
  destruct (img_to_base64_str_total
              (Image_fromarray (decode_first_stage fs xi)) (output_format req)
              (Henc _)) as [str Hstr].
  rewrite Hstr. cbn [rbind]. eexists. split; [reflexivity|].
  rewrite bind_get, Hplain. cbv zeta. cbn [negb orb andb].
  rewrite bind_assoc, bind_lift_Ok.
  rewrite !bind_ret_l, Z.add_assoc. reflexivity.
Qed.

Lemma save_all_plain fs w :
  has_filters req = false ->
  (forall a, is_ok (Image_save (Image_fromarray a) (output_format req)) = true) ->
  forall xs i images,
    exists imgs,
      save_all req (decode_first_stage fs <$> xs) i (images, seed req + i) w
      = (Ok (images ++ imgs, seed req + (i + Z.of_nat (length xs))), w)
      /\ length imgs = length xs
      /\ forall j xj,
           xs !! j = Some xj ->
           exists img,
             imgs !! j = Some img
             /\ image_of_latent req fs (i + Z.of_nat j) xj = Ok img.
Proof.
  intros Hplain Henc xs.
  induction xs as [|xi xs IH]; intros i images.
  - exists []. cbn [fmap list_fmap save_all length].
    rewrite app_nil_r, Z.add_0_r. repeat split. intros j xj Hj. discriminate.
  - destruct (save_one_plain fs xi i images w Hplain Henc) as (img & Himg & Hone).
    destruct (IH (i + 1) (images ++ [img])) as (imgs & Hall & Hn & Hspec).
    exists (img :: imgs). cbn [fmap list_fmap save_all].
    change (list_fmap latent array (decode_first_stage fs) xs)
      with (decode_first_stage fs <$> xs).
    rewrite (bind_ok _ _ _ _ _ Hone), Hall, <- app_assoc. cbn [app length].
    repeat split.
    + do 3 f_equal. lia.
    + rewrite Hn. reflexivity.
    + intros [|j] xj Hj.
      * injection Hj as <-. exists img. rewrite Z.add_0_r.
        split; [reflexivity|exact Himg].
      * destruct (Hspec j xj Hj) as (img' & Hl & Hi).
        exists img'. split; [exact Hl|].
        replace (i + Z.of_nat (S j)) with (i + 1 + Z.of_nat j) by lia. exact Hi.
Qed.

Lemma finish_batch_plain x fs w :
  modelFS (td w) = Some fs ->
  has_filters req = false ->
  (Z.to_nat (num_outputs req) <= length x)%nat ->
  (forall a, is_ok (Image_save (Image_fromarray a) (output_format req)) = true) ->
  exists images w',
    finish_batch req (Latents x) w = (Ok images, w')
    /\ yielded w' = yielded w
    /\ partial_x_samples (td w') = partial_x_samples (td w)
    /\ length images = Z.to_nat (num_outputs req)
    /\ forall i,
         (i < Z.to_nat (num_outputs req))%nat ->
         exists xi img,
           x !! i = Some xi /\ images !! i = Some img
           /\ image_of_latent req fs (Z.of_nat i) xi = Ok img.
Proof.
  intros Hfs Hplain Hlen Henc. unfold finish_batch.
  rewrite (bind_ok _ _ _ _ _ (decode_images_latents req x fs w Hfs Hlen)).
  rewrite bind_get.
  assert (exists w1,
             (if reduced_memory (td w)
              then wait_model_move_to MovedFS cpu else ret tt) w = (Ok tt, w1)
             /\ yielded w1 = yielded w
             /\ partial_x_samples (td w1) = partial_x_samples (td w))
    as (w1 & Hmove & Hy1 & Hp1).
  { destruct (reduced_memory (td w)).
    - unfold wait_model_move_to. rewrite bind_get.
      destruct (device_eqb _ _); [exists w; repeat split|].
      destruct (_ <=? _); [exists w; repeat split|].
      unfold modelFS_to. rewrite bind_get, Hfs.
      eexists. repeat split.
    - exists w. repeat split. }
  rewrite (bind_ok _ _ _ _ _ Hmove).
  destruct (save_all_plain fs w1 Hplain Henc
              (take (Z.to_nat (num_outputs req)) x) 0 [])
    as (imgs & Hall & Hn & Hspec).
  rewrite Z.add_0_r in Hall.
  rewrite (bind_ok _ _ _ _ _ Hall). cbn [app].
  rewrite bind_get.
  rewrite length_take in Hn.
  assert (exists w2,
             (if reduced_memory (td w1) then unload_filters else ret tt) w1
             = (Ok tt, w2)
             /\ yielded w2 = yielded w
             /\ partial_x_samples (td w2) = partial_x_samples (td w))
    as (w2 & Hunload & Hy2 & Hp2).
  { destruct (reduced_memory (td w1)).
    - eexists. unfold unload_filters. rewrite bind_modify.
      split; [reflexivity|]. split; [exact Hy1|exact Hp1].
    - exists w1. split; [reflexivity|]. split; [exact Hy1|exact Hp1]. }
  rewrite (bind_ok _ _ _ _ _ Hunload).
  exists imgs, w2. split; [reflexivity|]. split; [exact Hy2|].
  split; [exact Hp2|]. split.
  - lia.
  - intros i Hi.
    destruct (lookup_lt_is_Some_2 x i ltac:(lia)) as [xi Hxi].
    destruct (Hspec i xi) as (img & Hl & Himg).
    { rewrite lookup_take_lt by lia. exact Hxi. }
    exists xi, img. repeat split; assumption.
Qed.

(** The sampler of a streamed run that nobody stops returns after its
    callbacks; what the handler hands on is the latent of the last
    callback, or the generator when there was no callback. *)
Lemma run_handler_completes setup c uc w m cs fs calls :
  stream_progress_updates req = true ->
  model (td w) = Some m ->
  modelCS (td w) = Some cs ->
  modelFS (td w) = Some fs ->
  stop_processing (td w) = false ->
  partial_x_samples (td w) = Some None ->
  sample m (handler_args req setup c uc m)
  = {| sr_calls := calls; sr_raises := None |} ->
  (forall a, is_ok (Image_save (Image_fromarray a) "JPEG") = true) ->
  Forall (fun call => (Z.to_nat (num_outputs req) <= length (fst call))%nat)
         calls ->
  (forall j, (j < length calls)%nat ->
             sets_stop (length (yielded w) + j) = false) ->
  exists wb ti',
    run_handler req setup c uc w
    = (Ok (Some (match last calls with
                 | Some call => Latents (fst call)
                 | None => Generator
                 end)),
       sampling wb ti' None false
                (progress_record req (n_steps req setup) <$> calls))
    /\ yielded wb = yielded w
    /\ modelFS (td wb) = Some fs.
Proof.
  intros Hstream Hm Hcs Hfs Hflag Hpx Hrun Hjpeg Hlen Hquiet.
  destruct (handler_start req setup c uc w m cs Hm Hcs)
    as (wb & Hstart & Hy & Hfs' & Hflag' & Hpx').
  rewrite Hfs in Hfs'. rewrite Hflag in Hflag'. rewrite Hpx in Hpx'.
  rewrite <- Hy in Hquiet.
  destruct (run_calls_records (n_steps req setup) fs wb Hfs' Hjpeg calls
              (temp_images (td wb)) (partial_x_samples (td wb)) [] Hlen)
    as (ti' & Hcalls).
  { intros j Hj. cbn [length]. rewrite Nat.add_0_r. apply Hquiet, Hj. }
  assert (sampling wb (temp_images (td wb)) (partial_x_samples (td wb))
                   false [] = wb) as Hwb
    by (rewrite <- Hflag'; apply sampling_id).
  rewrite Hwb in Hcalls. cbn [app] in Hcalls.
  exists wb, ti'. split; [|split; assumption].
  assert (Hbody :
            match setup with
            | None => _txt2img req c uc
            | Some s => _img2img req s c uc
            end w
            = (Ok tt,
               sampling wb ti'
                 (match last calls with
                  | Some call => Some (Some (fst call))
                  | None => partial_x_samples (td wb)
                  end) false
                 (progress_record req (n_steps req setup) <$> calls))).
  { rewrite Hstart, Hrun. unfold run_sampler. cbn [sr_calls sr_raises].
    rewrite (bind_ok _ _ _ _ _ Hcalls). reflexivity. }
  unfold run_handler, try_except. rewrite Hstream.
  rewrite (bind_ok _ _ _ _ _ Hbody), bind_get.
  cbn [sampling td partial_x_samples set_stop_processing set_temp_images
       set_partial_x_samples].
  rewrite Hpx'.
  destruct (last calls) as [[x k]|]; rewrite bind_modify; reflexivity.
Qed.

(** X8.  A streamed request without filters whose sampling has begun and
    that the consumer does not stop.  When the sampler returns after its
    callbacks, [mk_img] returns: it has yielded one progress record per
    callback, in order, each with the step of the callback and the total
    announced, and with the preview paths at every fifth step if previews
    are asked for; then the response, with exactly one image per picture
    asked for, each decoded from the latent of the last callback and
    carrying the seed of its position; and no latent is left recorded.
    When the sampler returns without any callback, there is no latent to
    decode: a request for at least one picture raises a [TypeError]. *)
Theorem streamed_run_delivers_last_callback
        (w0 wa w1 : world) (setup : option img2img_setup)
        (c : tensor) (uc : option tensor) (m : unet) (cs fs : stage) :
  stream_progress_updates req = true ->
  start_request req w0 = (Ok tt, wa) ->
  before_sampling req wa = (Ok (setup, c, uc), w1) ->
  model (td w1) = Some m ->
  modelCS (td w1) = Some cs ->
  modelFS (td w1) = Some fs ->
  (forall calls x k,
      sample m (handler_args req setup c uc m)
      = {| sr_calls := calls ++ [(x, k)]; sr_raises := None |} ->
      (forall j, (j <= length calls)%nat ->
                 sets_stop (length (yielded w0) + j) = false) ->
      Forall (fun call =>
                (Z.to_nat (num_outputs req) <= length (fst call))%nat)
             (calls ++ [(x, k)]) ->
      (forall a, is_ok (Image_save (Image_fromarray a) "JPEG") = true) ->
      (forall a, is_ok (Image_save (Image_fromarray a) (output_format req))
                 = true) ->
      has_filters req = false ->
      exists wf images,
        mk_img req w0 = (Ok tt, wf)
        /\ yielded wf
           = yielded w0
             ++ (progress_record req (n_steps req setup)
                   <$> (calls ++ [(x, k)]))
             ++ [Response images]
        /\ length images = Z.to_nat (num_outputs req)
        /\ (forall i,
               (i < Z.to_nat (num_outputs req))%nat ->
               exists xi img,
                 x !! i = Some xi /\ images !! i = Some img
                 /\ image_of_latent req fs (Z.of_nat i) xi = Ok img)
        /\ partial_x_samples (td wf) = None)
  /\ (sample m (handler_args req setup c uc m)
      = {| sr_calls := []; sr_raises := None |} ->
      0 < num_outputs req ->
      exists e wf,
        do_mk_img req w0 = (Raise e, wf)
        /\ exn_cls e = TypeError
        /\ yielded wf = yielded w0).
Proof.
  intros Hstream Hstart Hbefore Hm Hcs Hfs.
  destruct (start_request_quiet req w0 wa Hstart) as [Hya Hflaga].
  destruct (before_sampling_quiet req wa _ w1 Hbefore) as [Hy1 Hflag1].
  rewrite Hya in Hy1. rewrite Hflaga in Hflag1.
  pose proof (before_sampling_partial req wa _ w1 Hstream Hbefore) as Hpx.
  assert (do_mk_img req w0 = sample_and_finish req setup c uc w1) as Hdo.
  { rewrite (do_mk_img_from req w0 wa Hstart), (bind_ok _ _ _ _ _ Hbefore).
    reflexivity. }
  split.
  - intros calls x k Hrun Hquiet Hlen Hjpeg Henc Hplain.
    destruct (run_handler_completes setup c uc w1 m cs fs (calls ++ [(x, k)])
                Hstream Hm Hcs Hfs Hflag1 Hpx Hrun Hjpeg Hlen)
      as (wb & ti' & Hhandler & Hyb & Hfsb).
    { intros j Hj. rewrite Hy1. apply Hquiet.
      rewrite length_app in Hj. cbn [length] in Hj. lia. }
    rewrite last_snoc in Hhandler. cbn [fst] in Hhandler.
    assert (Z.to_nat (num_outputs req) <= length x)%nat as Hx.
    { apply Forall_app in Hlen as [_ Hx].
      apply Forall_cons in Hx as [Hx _]. exact Hx. }
    destruct (finish_batch_plain x fs
                (sampling wb ti' None false
                   (progress_record req (n_steps req setup)
                      <$> (calls ++ [(x, k)])))
                Hfsb Hplain Hx Henc)
      as (images & w2 & Hfinish & Hy2 & Hp2 & Hcount & Himages).
    eexists _, images. split; [|split; [|split; [|split]]].
    + apply mk_img_ok. rewrite Hdo. unfold sample_and_finish.
      rewrite (bind_ok _ _ _ _ _ Hhandler), (bind_ok _ _ _ _ _ Hfinish).
      apply yield_spec.
    + cbn [yielded]. rewrite Hy2. cbn [sampling yielded].
      rewrite Hyb, Hy1, <- app_assoc. reflexivity.
    + exact Hcount.
    + exact Himages.
    + cbn [td]. destruct (sets_stop _); cbn; rewrite Hp2; reflexivity.
  - intros Hrun Hn.
    destruct (handler_start req setup c uc w1 m cs Hm Hcs)
      as (wb & Hhandler & Hyb & Hfsb & _ & Hpxb).
    rewrite Hfs in Hfsb. rewrite Hpx in Hpxb.
    destruct (decode_images_generator_raises (num_outputs req)
                (with_td (set_partial_x_samples None) wb) fs Hn Hfsb)
      as (e & Hdecode & Hcls).
    exists e. eexists. split; [|split; [exact Hcls|]].
    + rewrite Hdo. unfold sample_and_finish.
      assert (Hrh : run_handler req setup c uc w1
                    = (Ok (Some Generator),
                       with_td (set_partial_x_samples None) wb)).
      { unfold run_handler, try_except. rewrite Hstream.
        assert (Hbody :
                  match setup with
                  | None => _txt2img req c uc
                  | Some s => _img2img req s c uc
                  end w1 = (Ok tt, wb)).
        { rewrite Hhandler, Hrun. reflexivity. }
        rewrite (bind_ok _ _ _ _ _ Hbody), bind_get, Hpxb, bind_modify.
        reflexivity. }
      rewrite (bind_ok _ _ _ _ _ Hrh).
      apply bind_raise. unfold finish_batch. apply bind_raise. exact Hdecode.
    + cbn [with_td yielded]. rewrite Hyb, Hy1. reflexivity.
Qed.

End Streamed.


(** The demo request of four steps and two pictures, run to its end, and
    the same request with no step at all. *)
Lemma streamed_run_delivers_last_callback_witness :
  let w0 := Demo.fresh_worker in
  let req := Demo.demo_request in
  (exists wf images,
      mk_img (Cons := Demo.demo_consumer None) (FS := Demo.demo_fs)
             (Cu := Demo.three_gpus) (Pl := Demo.demo_platform)
             (P := Demo.demo_pil) (N := Demo.demo_networks) req w0
      = (Ok tt, wf)
      /\ yielded wf
         = yielded w0
           ++ (progress_record req 4
                 <$> ([(Demo.demo_latent 2 0, 0); (Demo.demo_latent 2 1, 1);
                       (Demo.demo_latent 2 2, 2)]
                      ++ [(Demo.demo_latent 2 3, 3)]))
           ++ [Response images]
      /\ length images = 2%nat
      /\ (forall i,
             (i < 2)%nat ->
             exists xi img,
               Demo.demo_latent 2 3 !! i = Some xi /\ images !! i = Some img
               /\ image_of_latent (FS := Demo.demo_fs)
                    (Pl := Demo.demo_platform) (P := Demo.demo_pil)
                    (N := Demo.demo_networks)
                    req Demo.loaded_stage (Z.of_nat i) xi = Ok img)
      /\ partial_x_samples (td wf) = None)
  /\ (exists e wf,
         do_mk_img (Cons := Demo.demo_consumer None) (FS := Demo.demo_fs)
                   (Cu := Demo.three_gpus) (Pl := Demo.demo_platform)
                   (P := Demo.demo_pil) (N := Demo.demo_networks)
                   (Demo.with_steps 0 req) w0
         = (Raise e, wf)
         /\ exn_cls e = TypeError
         /\ yielded wf = yielded w0).
Proof.
  intros w0 req. split.
  - refine (proj1 (streamed_run_delivers_last_callback
                     (Cons := Demo.demo_consumer None)
                     (FS := Demo.demo_fs) (Cu := Demo.three_gpus)
                     (Pl := Demo.demo_platform) (P := Demo.demo_pil)
                     (N := Demo.demo_networks)
                     req w0 Demo.request_started Demo.ready_to_sample
                     None Demo.demo_c Demo.demo_uc
                     Demo.loaded_unet Demo.loaded_stage Demo.loaded_stage
                     _ _ _ _ _ _)
                  [(Demo.demo_latent 2 0, 0); (Demo.demo_latent 2 1, 1);
                   (Demo.demo_latent 2 2, 2)]
                  (Demo.demo_latent 2 3) 3 _ _ _ _ _ _).
    + reflexivity.
    + vm_compute; reflexivity.
    + vm_compute; reflexivity.
    + reflexivity.
    + reflexivity.
    + reflexivity.
    + vm_compute; reflexivity.
    + intros j Hj. reflexivity.
    + repeat (apply List.Forall_cons; [vm_compute; lia|]).
      apply List.Forall_nil.
    + intros a. reflexivity.
    + intros a. reflexivity.
    + reflexivity.
  - refine (proj2 (streamed_run_delivers_last_callback
                     (Cons := Demo.demo_consumer None)
                     (FS := Demo.demo_fs) (Cu := Demo.three_gpus)
                     (Pl := Demo.demo_platform) (P := Demo.demo_pil)
                     (N := Demo.demo_networks)
                     (Demo.with_steps 0 req) w0
                     Demo.request_started Demo.ready_to_sample
                     None Demo.demo_c Demo.demo_uc
                     Demo.loaded_unet Demo.loaded_stage Demo.loaded_stage
                     _ _ _ _ _ _) _ _).
    + reflexivity.
    + vm_compute; reflexivity.
    + vm_compute; reflexivity.
    + reflexivity.
    + reflexivity.
    + reflexivity.
    + vm_compute; reflexivity.
    + reflexivity.
Defined.

(** Previews of the batch of the third step, on the worker that is
    about to sample. *)
Lemma update_temp_img_stores_witness :
  exists previews,
    @update_temp_img Demo.demo_types Demo.demo_pil Demo.demo_networks
      Demo.demo_request (Demo.demo_latent 2 3) Demo.ready_to_sample
    = (Ok ["/image/tmp/session/0"; "/image/tmp/session/1"],
       with_td (set_temp_images previews) Demo.ready_to_sample)
    /\ previews !! "session/0" = Some [Base64.byte_of_Z 3]
    /\ previews !! "session/1" = Some [Base64.byte_of_Z 3]
    /\ previews !! "session/2" = None.
Proof.
  destruct (update_temp_img_stores
              (P := Demo.demo_pil) (N := Demo.demo_networks)
              Demo.demo_request (Demo.demo_latent 2 3) Demo.loaded_stage
              Demo.ready_to_sample eq_refl)
    as (previews & Hrun & Hin & Hout).
  { vm_compute. lia. }
  { intros j xj _ _. reflexivity. }
  exists previews. split; [exact Hrun|].
  pose proof (Hin 0%nat [Base64.byte_of_Z 3] ltac:(vm_compute; lia) eq_refl)
    as H0.
  pose proof (Hin 1%nat [Base64.byte_of_Z 3] ltac:(vm_compute; lia) eq_refl)
    as H1.
  change (preview_key Demo.demo_request (Z.of_nat 0)) with "session/0" in H0.
  change (preview_key Demo.demo_request (Z.of_nat 1)) with "session/1" in H1.
  assert (Hp : @preview_of Demo.demo_types Demo.demo_pil Demo.demo_networks
                 Demo.loaded_stage
                 ([Base64.byte_of_Z 3] : @latent Demo.demo_types)
               = Ok [Base64.byte_of_Z 3]) by reflexivity.
  rewrite Hp in H0, H1.
  destruct (previews !! "session/0") as [b0|];
    [injection H0 as ->|discriminate H0].
  destruct (previews !! "session/1") as [b1|];
    [injection H1 as ->|discriminate H1].
  split; [reflexivity|]. split; [reflexivity|].
  rewrite Hout; [reflexivity|].
  intros [|[|j]] Hj; [discriminate|discriminate|vm_compute in Hj; lia].
Defined.

(** ** The images of a response *)

Section ResponseFacts.
Context `{Ty : Types} `{Cons : !Consumer} `{FS : !Filesystem} `{Cu : !Cuda}
        `{Pl : !Platform} `{P : !PIL} `{N : !Networks}.

Variable req : Request.

Lemma quiet_run_filters k a : preserves (quiet_is k) (run_filters req a).
Proof.
  unfold run_filters, apply_filters, load_model_gfpgan, load_model_real_esrgan.
  apply preserves_bind; [preserves_auto|].
  intros [a' applied]. preserves_auto.
Qed.

Lemma starts_with_opt_truthy p c s :
  starts_with_opt (String c p) s = true -> Str.opt_truthy s = true.
Proof.
  destruct s as [[|c' s]|]; cbn; try discriminate. reflexivity.
Qed.

(** When filters are asked for, a run of the filters that returns has
    applied one at least. *)
Lemma run_filters_applied a w a' applied w' :
  has_filters req = true ->
  run_filters req a w = (Ok (a', applied), w') ->
  (0 < length applied)%nat.
Proof.
  unfold has_filters, run_filters. intros Hhas H.
  apply bind_Ok_inv in H as ([a1 applied1] & w1 & Hface & H).
  destruct (Str.opt_truthy (use_upscale req)) eqn:Hup.
  - apply bind_Ok_inv in H as (a2 & w2 & _ & H).
    apply ret_Ok_inv in H as [H _]. injection H as _ ->.
    rewrite length_app. cbn. lia.
  - apply ret_Ok_inv in H as [H _]. injection H as _ ->.
    destruct (Str.opt_truthy (use_face_correction req)) eqn:Hface'.
    + apply bind_Ok_inv in Hface as (a2 & w2 & _ & Hface).
      apply ret_Ok_inv in Hface as [Hface _]. injection Hface as _ ->.
      cbn. lia.
    + apply orb_true_iff in Hhas as [Hhas|Hhas];
        apply starts_with_opt_truthy in Hhas; congruence.
Qed.

(** One round of the saving loop that returns: the images it appends,
    all with the running seed, which it advances by one. *)
Lemma save_one_inv a i images opt_seed w images' opt_seed' w' :
  save_one req a i (images, opt_seed) w = (Ok (images', opt_seed'), w') ->
  opt_seed' = opt_seed + 1
  /\ quiet_key w' = quiet_key w
  /\ exists new,
      images' = images ++ new
      /\ length new = images_per_picture req (stop_processing (td w))
      /\ Forall (fun img => ri_seed img = opt_seed) new.
Proof.
  unfold save_one, images_per_picture. rewrite bind_get. cbv zeta. intros H.
  apply bind_Ok_inv in H as (images1 & w1 & Horig & H).
  apply bind_Ok_inv in H as (images2 & w2 & Hfilt & H).
  apply ret_Ok_inv in H as [H ->]. injection H as -> ->.
  split; [reflexivity|].
  assert (Hw1 : w1 = w
                /\ exists orig,
                    images1 = images ++ orig
                    /\ length orig
                       = (if negb (has_filters req)
                             || negb (show_only_filtered_image req)
                             || stop_processing (td w) then 1 else 0)%nat
                    /\ Forall (fun img => ri_seed img = opt_seed) orig).
  { destruct (negb (has_filters req) || negb (show_only_filtered_image req)
              || stop_processing (td w)).
    - apply bind_Ok_inv in Horig as (str & w3 & Hstr & Horig).
      apply lift_Ok_inv in Hstr as [_ ->].
      apply ret_Ok_inv in Horig as [-> ->].
      split; [reflexivity|]. eexists. split; [reflexivity|].
      split; [reflexivity|]. repeat constructor.
    - apply ret_Ok_inv in Horig as [-> ->].
      split; [reflexivity|]. exists []. rewrite app_nil_r.
      repeat split. constructor. }
  destruct Hw1 as (-> & orig & -> & Horiglen & Horigseed).
  destruct (has_filters req) eqn:Hhas;
    destruct (stop_processing (td w)) eqn:Hstop; cbn [andb negb orb] in *.
  - apply ret_Ok_inv in Hfilt as [-> ->].
    split; [reflexivity|]. exists orig. rewrite orb_true_r in Horiglen.
    repeat split; assumption.
  - apply bind_Ok_inv in Hfilt as ([a' applied] & w3 & Hrun & Hfilt).
    pose proof (run_filters_applied a w a' applied w3 Hhas Hrun) as Happlied.
    pose proof (preserves_run _ _ _ _ _ (quiet_run_filters (quiet_key w) a)
                  Hrun eq_refl) as Hq.
    replace (0 <? Z.of_nat (length applied)) with true in Hfilt
      by (symmetry; apply Z.ltb_lt; lia).
    apply bind_Ok_inv in Hfilt as (str & w4 & Hstr & Hfilt).
    apply lift_Ok_inv in Hstr as [_ ->].
    apply ret_Ok_inv in Hfilt as [-> ->].
    split; [exact Hq|].
    eexists (orig ++ [_]). rewrite app_assoc. split; [reflexivity|].
    split.
    + rewrite length_app, Horiglen. cbn.
      rewrite orb_false_r.
      destruct (show_only_filtered_image req); reflexivity.
    + apply Forall_app. split; [exact Horigseed|]. repeat constructor.
  - apply ret_Ok_inv in Hfilt as [-> ->].
    split; [reflexivity|]. exists orig. repeat split; assumption.
  - apply ret_Ok_inv in Hfilt as [-> ->].
    split; [reflexivity|]. exists orig. repeat split; assumption.
Qed.

Lemma save_all_inv img_data :
  forall i images opt_seed w images' opt_seed' w',
    save_all req img_data i (images, opt_seed) w
    = (Ok (images', opt_seed'), w') ->
    quiet_key w' = quiet_key w
    /\ exists groups,
        images' = images ++ concat groups
        /\ length groups = length img_data
        /\ forall j g,
             groups !! j = Some g ->
             length g = images_per_picture req (stop_processing (td w))
             /\ Forall (fun img => ri_seed img = opt_seed + Z.of_nat j) g.
Proof.
  induction img_data as [|a rest IH];
    intros i images opt_seed w images' opt_seed' w' H; cbn [save_all] in H.
  - apply ret_Ok_inv in H as [H ->]. injection H as -> ->.
    split; [reflexivity|]. exists []. cbn [concat length].
    rewrite app_nil_r. split; [reflexivity|]. split; [reflexivity|].
    intros j g Hj. discriminate.
  - apply bind_Ok_inv in H as ([images1 seed1] & w1 & Hone & H).
    apply save_one_inv in Hone as (-> & Hq1 & new & -> & Hlen & Hseed).
    apply IH in H as (Hq & groups & -> & Hgroups & Hspec).
    assert (Hstop : stop_processing (td w1) = stop_processing (td w))
      by (unfold quiet_key in Hq1; congruence).
    split; [congruence|].
    exists (new :: groups). cbn [concat length].
    rewrite app_assoc. split; [reflexivity|]. split; [congruence|].
    intros [|j] g Hj.
    + injection Hj as <-. split; [exact Hlen|].
      rewrite Z.add_0_r. exact Hseed.
    + destruct (Hspec j g Hj) as [Hg Hs]. rewrite Hstop in Hg.
      split; [exact Hg|].
      eapply Forall_impl; [exact Hs|].
      intros img Himg. cbv beta in *. rewrite Himg. lia.
Qed.

Lemma mapM_length {A B} (f : A -> M B) (l : list A) :
  forall w r w', mapM f l w = (Ok r, w') -> length r = length l.
Proof.
  induction l as [|a l IH]; intros w r w' H; cbn [mapM] in H.
  - apply ret_Ok_inv in H as [-> _]. reflexivity.
  - apply bind_Ok_inv in H as (b & w1 & _ & H).
    apply bind_Ok_inv in H as (bs & w2 & Hrest & H).
    apply ret_Ok_inv in H as [-> _]. cbn. f_equal. apply (IH _ _ _ Hrest).
Qed.

Lemma quiet_decode_images k n x : preserves (quiet_is k) (decode_images n x).
Proof. unfold decode_images. preserves_auto. Qed.

(** From the samples to the images of the response: one group per
    picture asked for. *)
Lemma finish_batch_inv x w images w' :
  finish_batch req x w = (Ok images, w') ->
  quiet_key w' = quiet_key w
  /\ exists groups,
      images = concat groups
      /\ length groups = Z.to_nat (num_outputs req)
      /\ forall j g,
           groups !! j = Some g ->
           length g = images_per_picture req (stop_processing (td w))
           /\ Forall (fun img => ri_seed img = seed req + Z.of_nat j) g.
Proof.
  unfold finish_batch. intros H.
  apply bind_Ok_inv in H as (img_data & w1 & Hdecode & H).
  pose proof (preserves_run _ _ _ _ _
                (quiet_decode_images (quiet_key w) _ _) Hdecode eq_refl) as Hq1.
  assert (Hn : length img_data = Z.to_nat (num_outputs req)).
  { unfold decode_images in Hdecode.
    rewrite (mapM_length _ _ _ _ _ Hdecode). unfold range.
    rewrite length_map, length_seq. reflexivity. }
  rewrite bind_get in H.
  apply bind_Ok_inv in H as ([] & w2 & Hmove & H).
  assert (Hq2 : quiet_is (quiet_key w) w2).
  { assert (Hpres : preserves (quiet_is (quiet_key w))
                      (if reduced_memory (td w1)
                       then wait_model_move_to MovedFS cpu else ret tt)).
    { destruct (reduced_memory (td w1));
        [apply quiet_wait_model_move_to|apply preserves_ret]. }
    apply (preserves_run _ _ _ _ _ Hpres Hmove Hq1). }
  apply bind_Ok_inv in H as ([images2 seed2] & w3 & Hsave & H).
  apply save_all_inv in Hsave as (Hq3 & groups & -> & Hgroups & Hspec).
  rewrite bind_get in H.
  apply bind_Ok_inv in H as ([] & w4 & Hunload & H).
  apply ret_Ok_inv in H as [-> ->].
  assert (Hq4 : quiet_is (quiet_key w) w4).
  { assert (Hpres : preserves (quiet_is (quiet_key w))
                      (if reduced_memory (td w3)
                       then unload_filters else ret tt)).
    { destruct (reduced_memory (td w3));
        [apply quiet_unload_filters|apply preserves_ret]. }
    apply (preserves_run _ _ _ _ _ Hpres Hunload).
    unfold quiet_is in *. congruence. }
  split; [exact Hq4|].
  exists groups. split; [reflexivity|]. split; [congruence|].
  intros j g Hj. destruct (Hspec j g Hj) as [Hg Hs].
  assert (Hstop : stop_processing (td w2) = stop_processing (td w))
    by (unfold quiet_is, quiet_key in Hq2; congruence).
  rewrite Hstop in Hg. split; assumption.
Qed.


End ResponseFacts.


(** ** The data URI of any format *)

Section DataUriFacts.
Context `{PIL}.

Lemma base64_str_to_img_jpeg payload :
  base64_str_to_img ("data:image/jpeg;base64," +:+ payload) =
  do data <- Base64.b64decode payload; Image_open data.
Proof. reflexivity. Qed.

(** X11.  Whatever the format a picture is saved in, the data URI
    [img_to_base64_str] builds is taken apart again by
    [base64_str_to_img]: the decoder hands to [Image.open] exactly the
    bytes the encoder got from [img.save].  The URI announces
    [image/png] for any spelling of "png" and [image/jpeg] for every
    other format, and the decoder strips the prefix that goes with it. *)
Theorem data_uri_returns_saved_bytes
        (img : image) (output_format : string) (data : list byte) :
  Image_save img output_format = Ok data ->
  exists img_str,
    img_to_base64_str img output_format = Ok img_str
    /\ base64_str_to_img img_str = Image_open data
    /\ Str.startswith "data:image/png;" img_str
       = String.eqb (Str.lower output_format) "png"
    /\ Str.startswith "data:image/jpeg;" img_str
       = negb (String.eqb (Str.lower output_format) "png").
Proof.
  intros Hsave. unfold img_to_base64_str. rewrite Hsave. cbn [rbind].
  destruct (String.eqb (Str.lower output_format) "png").
  - eexists. split; [reflexivity|].
    split; [|split; reflexivity].
    change ("data:" +:+ "image/png" +:+ ";base64," +:+ Base64.b64encode data)
      with ("data:image/png;base64," +:+ Base64.b64encode data).
    rewrite base64_str_to_img_png, Base64Facts.b64decode_b64encode.
    reflexivity.
  - eexists. split; [reflexivity|].
    split; [|split; reflexivity].
    change ("data:" +:+ "image/jpeg" +:+ ";base64," +:+ Base64.b64encode data)
      with ("data:image/jpeg;base64," +:+ Base64.b64encode data).
    rewrite base64_str_to_img_jpeg, Base64Facts.b64decode_b64encode.
    reflexivity.
Qed.

End DataUriFacts.

(** A picture saved as JPEG. *)
Lemma data_uri_returns_saved_bytes_witness :
  exists img_str,
    @img_to_base64_str raw_types raw_pil [xff; xd8; xff; xe0] "jpeg"
    = Ok img_str
    /\ @base64_str_to_img raw_types raw_pil img_str
       = @Image_open raw_types raw_pil [xff; xd8; xff; xe0]
    /\ Str.startswith "data:image/png;" img_str = false
    /\ Str.startswith "data:image/jpeg;" img_str = true.
Proof.
  apply (@data_uri_returns_saved_bytes raw_types raw_pil
           [xff; xd8; xff; xe0] "jpeg" [xff; xd8; xff; xe0]).
  reflexivity.
Defined.

(** ** A strength outside [0, 1] *)

Section StrengthFacts.
Context `{Ty : Types} `{Cons : !Consumer} `{FS : !Filesystem} `{Cu : !Cuda}
        `{Pl : !Platform} `{P : !PIL} `{N : !Networks}.

Variable req : Request.

Lemma yielded_print ys l : preserves (yielded_is ys) (print l).
Proof. intros w H. exact H. Qed.
Hint Resolve yielded_print : frame.

Lemma yielded_start_request ys : preserves (yielded_is ys) (start_request req).
Proof.
  unfold start_request, ensure_models, unload_models, unload_filters,
    load_model_ckpt.
  preserves_auto.
Qed.

Lemma yielded_before_sampling ys :
  preserves (yielded_is ys) (before_sampling req).
Proof.
  unfold before_sampling, get_image_progress_generator, apply_turbo,
    prepare_img2img, conditioning, wait_model_move_to, modelFS_to, modelCS_to.
  preserves_auto.
Qed.

Lemma compute_t_enc_out_of_range :
  strength_in_range req = false ->
  exists e, compute_t_enc req = Raise e /\ exn_cls e = AssertionError.
Proof.
  unfold strength_in_range, compute_t_enc. intros ->.
  eexists. split; reflexivity.
Qed.

Lemma prepare_img2img_in_range src w setup w' :
  prepare_img2img req src w = (Ok setup, w') ->
  strength_in_range req = true.
Proof.
  unfold prepare_img2img. cbv zeta. intros H.
  apply bind_Ok_inv in H as (img & w1 & _ & H).
  rewrite bind_get in H.
  apply bind_Ok_inv in H as ([] & w2 & _ & H).
  rewrite bind_get in H.
  destruct (modelFS (td w2)) as [fs|]; [|discriminate].
  apply bind_Ok_inv in H as (mk & w3 & _ & H).
  apply bind_Ok_inv in H as ([] & w4 & _ & H).
  apply bind_Ok_inv in H as (t & w5 & Ht & H).
  apply lift_Ok_inv in Ht as [Ht _].
  destruct (strength_in_range req) eqn:E; [reflexivity|].
  destruct (compute_t_enc_out_of_range E) as (e & He & _). congruence.
Qed.

(** X12.  An image-to-image request whose strength is not in [0, 1] --
    below 0, above 1, or not a number: the assertion on the strength
    stands before the sampler, so [do_mk_img] never returns; it raises,
    and it has yielded nothing when it does.  The step that computes
    [t_enc] raises an [AssertionError]. *)
Theorem strength_out_of_range_never_samples
        (src : string) (w : world) (r : result unit) (w' : world) :
  init_image req = Some src ->
  strength_in_range req = false ->
  do_mk_img req w = (r, w') ->
  (exists e, r = Raise e)
  /\ yielded w' = yielded w
  /\ exists e, compute_t_enc req = Raise e /\ exn_cls e = AssertionError.
Proof.
  intros Hsrc Hrange Hrun.
  split; [|split; [|apply compute_t_enc_out_of_range, Hrange]].
  - destruct r as [[]|e]; [|exists e; reflexivity].
    unfold do_mk_img in Hrun.
    apply bind_Ok_inv in Hrun as ([] & wa & _ & Hrun).
    apply bind_Ok_inv in Hrun as ([[setup c] uc] & w1 & Hbefore & _).
    unfold before_sampling in Hbefore. rewrite Hsrc in Hbefore.
    apply bind_Ok_inv in Hbefore as ([] & w2 & _ & Hbefore).
    apply bind_Ok_inv in Hbefore as (s & w3 & Hprep & _).
    apply bind_Ok_inv in Hprep as (s' & w4 & Hprep & _).
    apply prepare_img2img_in_range in Hprep. congruence.
  - unfold do_mk_img, bind in Hrun.
    destruct (start_request req w) as [[[]|e] wa] eqn:Hstart.
    + pose proof (preserves_run _ _ _ _ _ (yielded_start_request (yielded w))
                    Hstart eq_refl) as Hya.
      destruct (before_sampling req wa) as [[[[setup c] uc]|e] w1] eqn:Hbefore.
      * exfalso. unfold before_sampling in Hbefore. rewrite Hsrc in Hbefore.
        apply bind_Ok_inv in Hbefore as ([] & w2 & _ & Hbefore).
        apply bind_Ok_inv in Hbefore as (s & w3 & Hprep & _).
        apply bind_Ok_inv in Hprep as (s' & w4 & Hprep & _).
        apply prepare_img2img_in_range in Hprep. congruence.
      * injection Hrun as _ <-.
        pose proof (preserves_run _ _ _ _ _ (yielded_before_sampling (yielded w))
                      Hbefore Hya) as Hy1.
        exact Hy1.
    + injection Hrun as _ <-.
      apply (preserves_run _ _ _ _ _ (yielded_start_request (yielded w))
               Hstart eq_refl).
Qed.

End StrengthFacts.

(** A strength of 1.5 on the fresh worker. *)
Lemma strength_out_of_range_never_samples_witness :
  let run := @do_mk_img Demo.demo_types (Demo.demo_consumer None)
               Demo.demo_fs Demo.three_gpus Demo.demo_platform
               Demo.demo_pil Demo.demo_networks
               (Demo.with_img2img "data:image/png;base64,AAAA"
                  (Float.make 3 (-1)) 4 Demo.demo_request)
               Demo.fresh_worker in
  (exists e, fst run = Raise e)
  /\ yielded (snd run) = yielded Demo.fresh_worker
  /\ exists e,
      compute_t_enc (Demo.with_img2img "data:image/png;base64,AAAA"
                       (Float.make 3 (-1)) 4 Demo.demo_request) = Raise e
      /\ exn_cls e = AssertionError.
Proof.
  intros run.
  apply (strength_out_of_range_never_samples
           (Cons := Demo.demo_consumer None) (FS := Demo.demo_fs)
           (Cu := Demo.three_gpus) (Pl := Demo.demo_platform)
           (P := Demo.demo_pil) (N := Demo.demo_networks)
           (Demo.with_img2img "data:image/png;base64,AAAA"
              (Float.make 3 (-1)) 4 Demo.demo_request)
           "data:image/png;base64,AAAA" Demo.fresh_worker).
  - reflexivity.
  - vm_compute; reflexivity.
  - apply surjective_pairing.
Defined.

(** ** An upscaler that is not known *)

Section UpscalerFacts.
Context `{Ty : Types} `{N : !Networks}.

Lemma differs_from_other name current :
  current <> Some name -> differs_from (Some name) current = true.
Proof.
  intros Hne. destruct current as [q|]; [|reflexivity]. cbn.
  apply negb_true_iff, String.eqb_neq. congruence.
Qed.

Lemma differs_from_same name : differs_from (Some name) (Some name) = false.
Proof. cbn. rewrite String.eqb_refl. reflexivity. Qed.

(** X13.  Asking for an upscaler whose name is not one of the two known
    ones, when it is not the name on record: [apply_filters] records the
    name and then fails with a [KeyError], leaving whatever upscaler was
    loaded in place.  Asking again for the same name no longer tries to
    load: with an upscaler in place from before, the call returns the
    picture enhanced by that other model; with none in place, it fails
    with the [KeyError] again. *)
Theorem unknown_upscaler_keeps_old_model
        (image_data image_data' : array) (name : string) (w : world) :
  RealESRGAN_models !! name = None ->
  real_esrgan_file (td w) <> Some name ->
  let w1 := with_td (set_real_esrgan_file (Some name)) w in
  (exists e,
      apply_filters "real_esrgan" image_data (Some name) w = (Raise e, w1)
      /\ exn_cls e = KeyError)
  /\ model_real_esrgan (td w1) = model_real_esrgan (td w)
  /\ (forall m,
         model_real_esrgan (td w) = Some m ->
         apply_filters "real_esrgan" image_data' (Some name) w1
         = (Ok (reverse_channels
                  (real_esrgan_enhance m (reverse_channels image_data'))),
            w1))
  /\ (model_real_esrgan (td w) = None ->
      exists e,
        apply_filters "real_esrgan" image_data' (Some name) w1
        = (Raise e, w1)
        /\ exn_cls e = KeyError).
Proof.
  intros Hunknown Hother w1.
  assert (Hload : load_model_real_esrgan w1
                  = (Raise (Exn KeyError name), w1)).
  { unfold load_model_real_esrgan. rewrite bind_get.
    cbn [w1 with_td td real_esrgan_file set_real_esrgan_file].
    rewrite Hunknown. reflexivity. }
  split; [|split; [reflexivity|split]].
  - exists (Exn KeyError name). split; [|reflexivity].
    unfold apply_filters.
    change (String.eqb "real_esrgan" "gfpgan") with false.
    change (String.eqb "real_esrgan" "real_esrgan") with true. cbv iota.
    msimpl. rewrite (differs_from_other name _ Hother). msimpl.
    fold w1. rewrite (bind_raise _ _ _ _ _ Hload). reflexivity.
  - intros m Hm.
    apply apply_filters_real_esrgan_hit; [exact Hm|].
    apply differs_from_same.
  - intros Hnone. exists (Exn KeyError name). split; [|reflexivity].
    unfold apply_filters.
    change (String.eqb "real_esrgan" "gfpgan") with false.
    change (String.eqb "real_esrgan" "real_esrgan") with true. cbv iota.
    msimpl.
    change (real_esrgan_file (td w1)) with (Some name).
    rewrite differs_from_same.
    change (model_real_esrgan (td w1)) with (model_real_esrgan (td w)).
    rewrite Hnone. rewrite (bind_raise _ _ _ _ _ Hload). reflexivity.
Qed.

End UpscalerFacts.

(** The CPU worker that holds both filters, asked for an upscaler with
    a misspelt name. *)
Lemma unknown_upscaler_keeps_old_model_witness :
  let w := Demo.cpu_with_filters in
  let w1 := with_td (set_real_esrgan_file (Some "RealESRGAN_x4")) w in
  (exists e,
      @apply_filters Demo.demo_types Demo.demo_networks
        "real_esrgan" [x01; x02; x03] (Some "RealESRGAN_x4") w = (Raise e, w1)
      /\ exn_cls e = KeyError)
  /\ exists a,
      @apply_filters Demo.demo_types Demo.demo_networks
        "real_esrgan" [x04; x05; x06] (Some "RealESRGAN_x4") w1 = (Ok a, w1).
Proof.
  intros w w1.
  destruct (unknown_upscaler_keeps_old_model (N := Demo.demo_networks)
              [x01; x02; x03] [x04; x05; x06] "RealESRGAN_x4" w
              eq_refl ltac:(discriminate))
    as (Hfirst & _ & Hagain & _).
  split; [exact Hfirst|].
  eexists. apply (Hagain _ eq_refl).
Defined.

(** ** [chunk] *)

Section ChunkFacts.
Context {A : Type}.

Lemma chunk_loop_fuel (n : nat) :
  forall fuel fuel' (it : list A),
    (length it < fuel)%nat -> (length it < fuel')%nat ->
    chunk_loop fuel it n = chunk_loop fuel' it n.
Proof.
  induction fuel as [|fuel IH]; intros fuel' it H1 H2; [lia|].
  destruct fuel' as [|fuel']; [lia|]. cbn [chunk_loop].
  destruct (take n it) as [|a t] eqn:Et; [reflexivity|].
  f_equal.
  assert (length (drop n it) < length it)%nat.
  { rewrite length_drop.
    destruct n; [discriminate Et|].
    destruct it; [discriminate Et|]. cbn. lia. }
  apply IH; lia.
Qed.

Lemma chunk_loop_spec (n : nat) :
  (0 < n)%nat ->
  forall fuel (it : list A),
    (length it < fuel)%nat ->
    concat (chunk_loop fuel it n) = it
    /\ Forall (fun c => (0 < length c <= n)%nat) (chunk_loop fuel it n)
    /\ (forall i c, chunk_loop fuel it n !! i = Some c ->
                    (S i < length (chunk_loop fuel it n))%nat ->
                    length c = n)
    /\ Z.of_nat (length (chunk_loop fuel it n))
       = (Z.of_nat (length it) + Z.of_nat n - 1) / Z.of_nat n.
Proof.
  intros Hn. induction fuel as [|fuel IH]; intros it Hfuel; [lia|].
  cbn [chunk_loop].
  destruct (take n it) as [|a t] eqn:Et.
  - assert (it = []) as ->.
    { destruct n; [lia|]. destruct it; [reflexivity|discriminate Et]. }
    cbn. repeat split; [constructor|intros i c Hi; discriminate|].
    symmetry. apply Z.div_small. lia.
  - assert (Hlen : length (take n it) = Nat.min n (length it))
      by apply length_take.
    assert (Hpos : (0 < length it)%nat).
    { destruct it; [rewrite take_nil in Et; discriminate|cbn; lia]. }
    assert (Hdrop : length (drop n it) = (length it - n)%nat)
      by apply length_drop.
    destruct (IH (drop n it) ltac:(lia)) as (Hcat & Hall & Hfull & Hcount).
    rewrite <- Et. split; [|split; [|split]].
    + cbn [concat]. rewrite Hcat. apply take_drop.
    + constructor; [|exact Hall]. rewrite Hlen, Et in *. cbn in *. lia.
    + intros [|i] c Hi Hmore; cbn in Hi, Hmore.
      * injection Hi as <-. rewrite Hlen.
        destruct (chunk_loop fuel (drop n it) n) as [|c' cs] eqn:Ecs;
          [cbn in Hmore; lia|].
        assert (Hrest : (0 < length (drop n it))%nat).
        { destruct (drop n it); [|cbn; lia].
          destruct fuel; cbn [chunk_loop] in Ecs; [discriminate Ecs|].
          rewrite take_nil in Ecs. discriminate Ecs. }
        lia.
      * apply (Hfull i c Hi). lia.
    + cbn [length]. rewrite Nat2Z.inj_succ, Hcount, Hdrop.
      destruct (le_lt_dec (length it) n) as [Hle|Hgt].
      * replace (length it - n)%nat with 0%nat by lia.
        replace ((Z.of_nat 0 + Z.of_nat n - 1) / Z.of_nat n) with 0
          by (symmetry; apply Z.div_small; lia).
        apply Z.div_unique with (r := Z.of_nat (length it) - 1); lia.
      * rewrite Nat2Z.inj_sub by lia.
        replace (Z.of_nat (length it) + Z.of_nat n - 1)
          with ((Z.of_nat (length it) - Z.of_nat n + Z.of_nat n - 1)
                + 1 * Z.of_nat n) by lia.
        rewrite Z.div_add by lia. lia.
Qed.

(** X15.  The tuples [chunk(it, size)] gives when consumed.  For a size
    from 1 to [sys.maxsize]: their concatenation is [it]; none is empty
    or longer than [size], and all but the last have [size] elements;
    there are [ceil(len(it) / size)] of them; and the iteration ends of
    itself, whatever the bound on the number of calls.  For size 0 there
    is none.  For a negative size the first step raises a
    [ValueError]. *)
Theorem chunk_partitions (it : list A) (size : Z) :
  (0 < size <= maxsize ->
   exists chunks,
     chunk it size = Ok chunks
     /\ concat chunks = it
     /\ Forall (fun c => 0 < Z.of_nat (length c) <= size) chunks
     /\ (forall i c, chunks !! i = Some c ->
                     (S i < length chunks)%nat ->
                     Z.of_nat (length c) = size)
     /\ Z.of_nat (length chunks) = (Z.of_nat (length it) + size - 1) / size
     /\ forall fuel, (length it < fuel)%nat ->
                     chunk_loop fuel it (Z.to_nat size) = chunks)
  /\ (size = 0 -> chunk it size = Ok [])
  /\ (size < 0 ->
      exists e, chunk it size = Raise e /\ exn_cls e = ValueError).
Proof.
  split; [|split].
  - intros [Hpos Hmax]. unfold chunk.
    replace (size <? 0) with false by (symmetry; apply Z.ltb_ge; lia).
    replace (maxsize <? size) with false by (symmetry; apply Z.ltb_ge; lia).
    cbn [orb]. eexists. split; [reflexivity|].
    destruct (chunk_loop_spec (Z.to_nat size) ltac:(lia)
                (S (length it)) it ltac:(lia))
      as (Hcat & Hall & Hfull & Hcount).
    split; [exact Hcat|]. split; [|split; [|split]].
    + eapply Forall_impl; [exact Hall|]. intros c Hc. cbv beta in *. lia.
    + intros i c Hi Hmore. rewrite (Hfull i c Hi Hmore). lia.
    + rewrite Hcount. rewrite Z2Nat.id by lia. reflexivity.
    + intros fuel Hfuel. apply chunk_loop_fuel; lia.
  - intros ->. unfold chunk. cbn. destruct it; reflexivity.
  - intros Hneg. unfold chunk.
    replace (size <? 0) with true by (symmetry; apply Z.ltb_lt; lia).
    eexists. split; reflexivity.
Qed.

End ChunkFacts.

(** Seven elements by threes. *)
Lemma chunk_partitions_witness :
  exists chunks,
    chunk [1; 2; 3; 4; 5; 6; 7] 3 = Ok chunks
    /\ concat chunks = [1; 2; 3; 4; 5; 6; 7]
    /\ Forall (fun c => 0 < Z.of_nat (length c) <= 3) chunks
    /\ (forall i c, chunks !! i = Some c ->
                    (S i < length chunks)%nat ->
                    Z.of_nat (length c) = 3)
    /\ Z.of_nat (length chunks) = (Z.of_nat 7 + 3 - 1) / 3
    /\ forall fuel, (7 < fuel)%nat ->
                    chunk_loop fuel [1; 2; 3; 4; 5; 6; 7] 3 = chunks.
Proof.
  apply (proj1 (chunk_partitions [1; 2; 3; 4; 5; 6; 7] 3)).
  unfold maxsize. lia.
Defined.

(** ** The file name of a saved picture *)

Section PathFacts.
Context `{FS : Filesystem}.

Lemma flatten_prompt_length s :
  String.length (flatten_prompt s) = String.length s.
Proof. induction s as [|c s IH]; cbn; [reflexivity|rewrite IH; reflexivity]. Qed.

Lemma take_length n s :
  String.length (Str.take n s) = Nat.min n (String.length s).
Proof.
  revert s. induction n as [|n IH]; intros [|c s]; cbn; try reflexivity.
  rewrite IH. reflexivity.
Qed.

Lemma is_alnum_underscore : is_alnum "_"%char = false.
Proof. reflexivity. Qed.

Lemma take_flatten_safe n s :
  Forall (fun c => is_alnum c = true \/ c = "_"%char)
         (list_ascii_of_string (Str.take n (flatten_prompt s))).
Proof.
  revert s. induction n as [|n IH]; intros [|c s]; cbn; try constructor.
  - destruct (is_alnum c) eqn:E; [left; exact E|right; reflexivity].
  - apply IH.
Qed.

Lemma take_flatten_get n s k c :
  (k < n)%nat ->
  String.get k s = Some c ->
  String.get k (Str.take n (flatten_prompt s))
  = Some (if is_alnum c then c else "_"%char).
Proof.
  revert s k. induction n as [|n IH]; intros [|c' s] k Hk Hget;
    try lia; try discriminate.
  destruct k as [|k]; cbn in *.
  - injection Hget as ->. reflexivity.
  - apply IH; [lia|exact Hget].
Qed.

(** X14.  The path [get_base_path] gives for a picture: in the folder
    of the session under the disk path, a name that starts with a stem
    made from the prompt, then ["_"] and the identifier, then the suffix
    if there is one, then the extension.  The stem has the first 50
    characters of the prompt at most, each letter or digit kept and every
    other character replaced by ["_"]: whatever the prompt, the stem
    holds letters, digits and underscores only. *)
Theorem get_base_path_stem
        (disk_path session_id prompt img_id ext : string)
        (suffix : option string) :
  exists stem,
    get_base_path disk_path session_id prompt img_id ext suffix
    = path_join (path_join disk_path session_id)
        (stem +:+ "_" +:+ img_id +:+
         match suffix with
         | Some s => "_" +:+ s +:+ "." +:+ ext
         | None => "." +:+ ext
         end)
    /\ String.length stem = Nat.min 50 (String.length prompt)
    /\ Forall (fun c => is_alnum c = true \/ c = "_"%char)
              (list_ascii_of_string stem)
    /\ forall k c,
         (k < 50)%nat ->
         String.get k prompt = Some c ->
         String.get k stem = Some (if is_alnum c then c else "_"%char).
Proof.
  exists (Str.take 50 (flatten_prompt prompt)).
  split; [destruct suffix; reflexivity|].
  split; [rewrite take_length, flatten_prompt_length; reflexivity|].
  split; [apply take_flatten_safe|].
  intros k c Hk Hget. apply take_flatten_get; assumption.
Qed.

End PathFacts.

(** ** A checkpoint that is not on disk *)

Section MissingCheckpoint.
Context `{Ty : Types} `{Cons : !Consumer} `{FS : !Filesystem} `{Cu : !Cuda}
        `{Pl : !Platform} `{P : !PIL} `{N : !Networks}.

Lemma do_mk_img_missing_error req w :
  path_exists (use_stable_diffusion_model req +:+ ".ckpt") = false ->
  do_mk_img req w
  = (Raise (Exn FileNotFoundError
              ("Cannot find " +:+ use_stable_diffusion_model req +:+ ".ckpt")),
     reset w).
Proof.
  intros Hmissing. unfold do_mk_img, start_request.
  msimpl. rewrite Hmissing. cbn [negb].
  unfold raise at 1. unfold bind at 1. cbv beta iota. reflexivity.
Qed.

Lemma cache_key_stable k : run_stable (fun w => cache_key w = k).
Proof.
  split.
  - intros f w Hf Hw. destruct Hf; exact Hw.
  - intros w ys Hw. exact Hw.
Qed.

(** X16.  A request for a checkpoint that is not on disk, on a worker
    that holds a model under the reduced-memory policy: [do_mk_img] raises
    [FileNotFoundError] before it touches the model cache, and [mk_img]
    reports it.  The model held stays in place: a request after it for a
    checkpoint the cache was in line with loads nothing. *)
Theorem missing_checkpoint_keeps_cache (req rA : Request) (w : world) :
  path_exists (use_stable_diffusion_model req +:+ ".ckpt") = false ->
  handles_together (td w) ->
  reduced_memory (td w) = true ->
  bound (model (td w)) = true ->
  exists e w1,
    do_mk_img req w = (Raise e, reset w)
    /\ exn_cls e = FileNotFoundError
    /\ mk_img req w = (Ok tt, w1)
    /\ yielded w1 = yielded w ++ [Failed (exn_str e)]
    /\ (use_stable_diffusion_model rA <> "" ->
        path_exists (use_stable_diffusion_model rA +:+ ".ckpt") = true ->
        Str.truthy (precision (td w)) = true ->
        cache_fits rA (td w) = true ->
        forall r w2,
          do_mk_img rA w1 = (r, w2) -> reloads w2 = reloads w).
Proof.
  intros Hmissing Htogether Hred Hbound.
  pose proof (do_mk_img_missing_error req w Hmissing) as Hrun.
  destruct (mk_img_failure_reported req w _ (reset w) Hrun) as (w1 & Hmk & Hy & _).
  { intros _. apply all_bound_is_Some.
    apply (do_mk_img_fails_bound req w _ (reset w) Htogether Hred
             (or_intror (conj Hmissing Hbound)) Hrun). }
  eexists _, w1. split; [exact Hrun|]. split; [reflexivity|].
  split; [exact Hmk|]. split; [exact Hy|].
  intros Hne Hex Hprec Hfit r w2 Hrun2.
  (* the handler of [mk_img] leaves the cache key alone *)
  assert (Hkey : cache_key w1 = cache_key w).
  { unfold mk_img, try_except in Hmk. rewrite Hrun in Hmk.
    rewrite bind_get in Hmk.
    change (reduced_memory (td (reset w))) with (reduced_memory (td w)) in Hmk.
    rewrite Hred in Hmk.
    assert (Hpres : preserves (fun w' => cache_key w' = cache_key w)
              (bind (bind (modelFS_to cpu)
                       (fun _ => bind (modelCS_to cpu)
                          (fun _ => bind (model_model1_to cpu)
                             (fun _ => model_model2_to cpu))))
                    (fun _ => yield (Failed
                       ("Cannot find " +:+ use_stable_diffusion_model req
                        +:+ ".ckpt"))))).
    { pose proof (cache_key_stable (cache_key w)) as Hs.
      apply preserves_bind; [|intros _; apply (run_stable_yield _ Hs)].
      apply preserves_bind; [apply (run_modelFS_to _ Hs)|]. intros _.
      apply preserves_bind; [apply (run_modelCS_to _ Hs)|]. intros _.
      apply preserves_bind; [apply (run_model_model1_to _ Hs)|]. intros _.
      apply (run_model_model2_to _ Hs). }
    apply (preserves_run _ _ _ _ _ Hpres Hmk). reflexivity. }
  assert (Hbound1 : bound (model (td w1)) = bound (model (td w))).
  { rewrite Hbound.
    pose proof (do_mk_img_fails_bound req w _ (reset w) Htogether Hred
                  (or_intror (conj Hmissing Hbound)) Hrun) as (Hm & _).
    destruct (mk_img_failure_reported req w _ (reset w) Hrun) as (w1' & Hmk' & _ & Hcpu & _).
    { intros _. apply all_bound_is_Some.
      apply (do_mk_img_fails_bound req w _ (reset w) Htogether Hred
               (or_intror (conj Hmissing Hbound)) Hrun). }
    rewrite Hmk in Hmk'. injection Hmk' as <-.
    destruct (Hcpu Hred) as (_ & _ & Hm1 & _).
    destruct (model (td w1)); [reflexivity|discriminate Hm1]. }
  assert (Hfit1 : cache_fits rA (td w1) = true)
    by (rewrite (cache_fits_key rA w w1 Hkey Hbound1); exact Hfit).
  assert (Hprec1 : Str.truthy (precision (td w1)) = true).
  { unfold cache_key in Hkey. injection Hkey as _ _ _ _ Hp _ _.
    rewrite Hp. exact Hprec. }
  destruct (do_mk_img_cache rA w1 r w2 Hne Hex Hprec1 Hrun2) as (Hcount & _).
  rewrite Hfit1 in Hcount.
  assert (Hconsole : reloads w1 = reloads w).
  { unfold reloads. unfold cache_key in Hkey. injection Hkey as Hc _ _ _ _ _ _.
    rewrite Hc. reflexivity. }
  lia.
Qed.

End MissingCheckpoint.

(** The worker after the first request, asked for a checkpoint that is
    not on disk and then for the first one again. *)
Lemma missing_checkpoint_keeps_cache_witness :
  let w := Demo.after_first_request in
  let missing := Demo.with_model "models/missing" Demo.demo_request in
  let run := @do_mk_img Demo.demo_types (Demo.demo_consumer None)
               Demo.demo_fs Demo.three_gpus Demo.demo_platform
               Demo.demo_pil Demo.demo_networks in
  exists e w1,
    run missing w = (Raise e, reset w)
    /\ exn_cls e = FileNotFoundError
    /\ @mk_img Demo.demo_types (Demo.demo_consumer None) Demo.demo_fs
         Demo.three_gpus Demo.demo_platform Demo.demo_pil Demo.demo_networks
         missing w = (Ok tt, w1)
    /\ yielded w1 = yielded w ++ [Failed (exn_str e)]
    /\ forall r w2, run Demo.demo_request w1 = (r, w2) -> reloads w2 = reloads w.
Proof.
  intros w missing run.
  destruct (missing_checkpoint_keeps_cache
              (Cons := Demo.demo_consumer None) (FS := Demo.demo_fs)
              (Cu := Demo.three_gpus) (Pl := Demo.demo_platform)
              (P := Demo.demo_pil) (N := Demo.demo_networks)
              missing Demo.demo_request w)
    as (e & w1 & Hrun & Hcls & Hmk & Hy & Hnext).
  - reflexivity.
  - split; reflexivity.
  - reflexivity.
  - reflexivity.
  - exists e, w1. split; [exact Hrun|]. split; [exact Hcls|].
    split; [exact Hmk|]. split; [exact Hy|].
    apply Hnext.
    + discriminate.
    + reflexivity.
    + reflexivity.
    + vm_compute; reflexivity.
Defined.

(** ** Every request is answered *)

Section ProgressFrame.
Context `{Ty : Types} `{Cons : !Consumer} `{FS : !Filesystem} `{Cu : !Cuda}
        `{Pl : !Platform} `{P : !PIL} `{N : !Networks}.

Variable base : list output.

Lemma progress_print l : preserves (progress_since base) (print l).
Proof. intros w H. exact H. Qed.
Hint Resolve progress_print : frame.

Lemma progress_yield i total previews :
  preserves (progress_since base) (yield (Progress i total previews)).
Proof.
  intros w (ps & Hy & Hps). unfold yield. cbn [snd].
  exists (ps ++ [Progress i total previews]). cbn [yielded]. split.
  - rewrite Hy, app_assoc. reflexivity.
  - rewrite forallb_app, Hps. reflexivity.
Qed.
Hint Resolve progress_yield : frame.

Lemma progress_start_request req :
  preserves (progress_since base) (start_request req).
Proof.
  unfold start_request, ensure_models, unload_models, unload_filters,
    load_model_ckpt.
  preserves_auto.
Qed.

Lemma progress_before_sampling req :
  preserves (progress_since base) (before_sampling req).
Proof.
  unfold before_sampling, get_image_progress_generator, apply_turbo,
    prepare_img2img, conditioning, wait_model_move_to, modelFS_to, modelCS_to.
  preserves_auto.
Qed.

Lemma progress_run_calls req total calls :
  preserves (progress_since base) (run_calls req total calls).
Proof.
  induction calls as [|[x i] calls IH]; cbn [run_calls].
  - apply preserves_ret.
  - apply preserves_bind; [|intros _; exact IH].
    unfold img_callback, update_temp_img. preserves_auto.
Qed.
Hint Resolve progress_run_calls : frame.

Lemma progress_run_handler req setup c uc :
  preserves (progress_since base) (run_handler req setup c uc).
Proof.
  unfold run_handler, _txt2img, _img2img, run_sampler, wait_model_move_to,
    modelFS_to, modelCS_to.
  preserves_auto.
Qed.

Lemma progress_run_filters req a :
  preserves (progress_since base) (run_filters req a).
Proof.
  unfold run_filters, apply_filters, load_model_gfpgan, load_model_real_esrgan.
  apply preserves_bind; [preserves_auto|].
  intros [a' applied]. preserves_auto.
Qed.
Hint Resolve progress_run_filters : frame.

Lemma progress_save_one req a i st :
  preserves (progress_since base) (save_one req a i st).
Proof.
  unfold save_one. destruct st as [images opt_seed].
  apply preserves_bind; [apply preserves_get|]. intros t.
  apply preserves_bind; [preserves_auto|]. intros images'.
  apply preserves_bind; [|intros ?; apply preserves_ret].
  destruct (_ && _); [|apply preserves_ret].
  apply preserves_bind; [apply progress_run_filters|].
  intros [a' applied]. preserves_auto.
Qed.
Hint Resolve progress_save_one : frame.

Lemma progress_save_all req img_data :
  forall i st, preserves (progress_since base) (save_all req img_data i st).
Proof.
  induction img_data as [|a rest IH]; intros i st; cbn [save_all];
    preserves_auto.
Qed.
Hint Resolve progress_save_all : frame.

Lemma progress_finish_batch req x :
  preserves (progress_since base) (finish_batch req x).
Proof.
  unfold finish_batch, decode_images, wait_model_move_to, modelFS_to,
    unload_filters.
  apply preserves_bind; [preserves_auto|]. intros img_data.
  apply preserves_bind; [apply preserves_get|]. intros t.
  apply preserves_bind; [preserves_auto|]. intros _.
  apply preserves_bind; [apply progress_save_all|]. intros [images s].
  preserves_auto.
Qed.

End ProgressFrame.

Section ProgressRequest.
Context `{Ty : Types} `{Cons : !Consumer} `{FS : !Filesystem} `{Cu : !Cuda}
        `{Pl : !Platform} `{P : !PIL} `{N : !Networks}.

(** Up to its last step, which yields the response, a request yields
    progress records only. *)
Lemma progress_until_response req w r w' :
  do_mk_img req w = (r, w') ->
  progress_since (yielded w) w ->
  match r with
  | Ok _ => exists ps images,
             yielded w' = yielded w ++ ps ++ [Response images]
             /\ forallb is_progress ps = true
  | Raise _ => progress_since (yielded w) w'
  end.
Proof.
  intros Hrun Hw. unfold do_mk_img, bind in Hrun.
  destruct (start_request req w) as [[[]|e] wa] eqn:Hstart.
  2:{ injection Hrun as <- <-.
      apply (preserves_run _ _ _ _ _ (progress_start_request (yielded w) req) Hstart Hw). }
  pose proof (preserves_run _ _ _ _ _ (progress_start_request (yielded w) req) Hstart Hw)
    as Hwa.
  destruct (before_sampling req wa) as [[[[setup c] uc]|e] w1] eqn:Hbefore.
  2:{ injection Hrun as <- <-.
      apply (preserves_run _ _ _ _ _ (progress_before_sampling (yielded w) req)
               Hbefore Hwa). }
  pose proof (preserves_run _ _ _ _ _ (progress_before_sampling (yielded w) req)
                Hbefore Hwa) as Hw1.
  unfold sample_and_finish, bind in Hrun.
  destruct (run_handler req setup c uc w1) as [[xs|e] w2] eqn:Hhandler.
  2:{ injection Hrun as <- <-.
      apply (preserves_run _ _ _ _ _ (progress_run_handler (yielded w) req setup c uc)
               Hhandler Hw1). }
  pose proof (preserves_run _ _ _ _ _ (progress_run_handler (yielded w) req setup c uc)
                Hhandler Hw1) as Hw2.
  destruct (match xs with
            | Some x => finish_batch req x
            | None => ret []
            end w2) as [[images|e] w3] eqn:Hfinish.
  2:{ injection Hrun as <- <-.
      destruct xs as [x|]; [|discriminate Hfinish].
      apply (preserves_run _ _ _ _ _ (progress_finish_batch (yielded w) req x)
               Hfinish Hw2). }
  assert (Hw3 : progress_since (yielded w) w3).
  { destruct xs as [x|].
    - apply (preserves_run _ _ _ _ _ (progress_finish_batch (yielded w) req x)
               Hfinish Hw2).
    - injection Hfinish as _ <-. exact Hw2. }
  rewrite yield_spec in Hrun. injection Hrun as <- <-.
  destruct Hw3 as (ps & Hy & Hps).
  exists ps, images. cbn [yielded]. rewrite Hy, <- app_assoc.
  split; [reflexivity|exact Hps].
Qed.

End ProgressRequest.

Section Serving.
Context `{Ty : Types} `{Cons : !Consumer} `{FS : !Filesystem} `{Cu : !Cuda}
        `{Pl : !Platform} `{P : !PIL} `{N : !Networks}.

(** With the checkpoint on disk, a request leaves the three networks
    bound, however it ends. *)
Lemma do_mk_img_on_disk_bound req w r w1 :
  handles_together (td w) ->
  reduced_memory (td w) = true ->
  path_exists (use_stable_diffusion_model req +:+ ".ckpt") = true ->
  use_stable_diffusion_model req <> "" ->
  Str.truthy (precision (td w)) = true ->
  do_mk_img req w = (r, w1) ->
  all_bound_reduced w1.
Proof.
  intros Htogether Hred Hex Hne Hprec Hrun.
  assert (exists wa, start_request req w = (Ok tt, wa)) as [wa Hstart].
  { rewrite (start_request_on_disk req w Hex).
    destruct (cache_fits req (td (reset w))) eqn:Efit.
    - exists (reset w). apply ensure_models_hit, Efit.
    - destruct (ensure_models_miss req (reset w) Efit Hprec Hne Hex)
        as (wa & Hens & _). exists wa. exact Hens. }
  assert (Hwa : all_bound_reduced wa).
  { rewrite (start_request_on_disk req w Hex) in Hstart.
    destruct (ensure_models_binds req (reset w) wa Htogether Hstart)
      as (H1 & H2 & H3 & H4).
    repeat split; try assumption. rewrite H4. exact Hred. }
  rewrite (do_mk_img_from _ _ _ Hstart) in Hrun.
  apply (preserves_run _ _ _ _ _
           (run_generate all_bound_reduced all_bound_reduced_stable req)
           Hrun Hwa).
Qed.

(** Under the reduced-memory policy the handler of [mk_img] leaves the
    precision alone. *)
Lemma mk_img_handler_precision req w e w1 w2 :
  do_mk_img req w = (Raise e, w1) ->
  reduced_memory (td w1) = true ->
  mk_img req w = (Ok tt, w2) ->
  precision (td w2) = precision (td w1).
Proof.
  intros Hrun Hred Hmk.
  unfold mk_img, try_except in Hmk. rewrite Hrun in Hmk.
  rewrite bind_get, Hred in Hmk.
  assert (Hpres : preserves (fun w' => cache_key w' = cache_key w1)
            (bind (bind (modelFS_to cpu)
                     (fun _ => bind (modelCS_to cpu)
                        (fun _ => bind (model_model1_to cpu)
                           (fun _ => model_model2_to cpu))))
                  (fun _ => yield (Failed (exn_str e))))).
  { pose proof (cache_key_stable (cache_key w1)) as Hs.
    apply preserves_bind; [|intros _; apply (run_stable_yield _ Hs)].
    apply preserves_bind; [apply (run_modelFS_to _ Hs)|]. intros _.
    apply preserves_bind; [apply (run_modelCS_to _ Hs)|]. intros _.
    apply preserves_bind; [apply (run_model_model1_to _ Hs)|]. intros _.
    apply (run_model_model2_to _ Hs). }
  pose proof (preserves_run _ _ _ _ _ Hpres Hmk eq_refl) as Hkey.
  cbv beta in Hkey. unfold cache_key in Hkey.
  injection Hkey as _ _ _ _ Hp _ _. exact Hp.
Qed.

Lemma all_bound_serving w :
  all_bound_reduced w -> Str.truthy (precision (td w)) = true -> serving w.
Proof.
  intros (Hm & Hcs & Hfs & Hred) Hprec.
  split; [split; congruence|]. repeat split; assumption.
Qed.


End Serving.

